(** * zos_mount: the persistent mount-table editor

    A shallow embedding of [swap_text] and of the parts of [run_module]
    that build the comment lines of a managed block and write the edited
    member back (plugins/modules/zos_mount.py).

    Python [str] values are modelled as [string]; a character is its code
    point, restricted to 0..255.  A buffer is a [list string], one element
    per line, without the line terminators. *)

From Stdlib Require Import String Ascii List Arith Bool Lia Sorted.
From Stdlib Require Import DecimalString.
Import ListNotations.
Open Scope string_scope.
Open Scope list_scope.
Open Scope nat_scope.

(** ** Python string primitives *)

Module Py.

Definition nl : ascii := ascii_of_nat 10.
Definition tab : ascii := ascii_of_nat 9.

(** [s[lo:hi]] for [0 <= lo], [0 <= hi]. *)
Definition slice (lo hi : nat) (s : string) : string :=
  substring lo (hi - lo) s.

(** [s[lo:]]. *)
Definition slice_from (lo : nat) (s : string) : string :=
  substring lo (String.length s - lo) s.

(** [str.isspace] on one character, which is also what [\s] accepts in a
    [str] pattern: TAB..CR, FS..US, SPACE, NEL and NBSP in 0..255. *)
Definition isspace (c : ascii) : bool :=
  let n := nat_of_ascii c in
  ((9 <=? n) && (n <=? 13)) || ((28 <=? n) && (n <=? 32))
  || (n =? 133) || (n =? 160).

Fixpoint lstrip (s : string) : string :=
  match s with
  | String c s' => if isspace c then lstrip s' else s
  | EmptyString => EmptyString
  end.

Fixpoint rstrip (s : string) : string :=
  match s with
  | EmptyString => EmptyString
  | String c s' =>
      match rstrip s' with
      | EmptyString => if isspace c then EmptyString else String c EmptyString
      | t => String c t
      end
  end.

(** [s.strip()]. *)
Definition strip (s : string) : string := rstrip (lstrip s).

Definition upper_char (c : ascii) : ascii :=
  let n := nat_of_ascii c in
  if (97 <=? n) && (n <=? 122) then ascii_of_nat (n - 32) else c.

(** [s.upper()] on 7-bit text.  From code point 128 on [str.upper] does
    more than this (a-umlaut becomes A-umlaut, sharp s becomes two
    letters, some results lie beyond code point 255): [upper] stands for
    [str.upper] on texts that satisfy [is_ascii] only, and every place
    where the program calls [str.upper] on a free text is modelled behind
    that test, or behind [Regex.unsupported], which refuses the same
    characters. *)
Fixpoint upper (s : string) : string :=
  match s with
  | EmptyString => EmptyString
  | String c s' => String (upper_char c) (upper s')
  end.

(** The text holds 7-bit characters only. *)
Fixpoint is_ascii (s : string) : bool :=
  match s with
  | EmptyString => true
  | String c s' => (nat_of_ascii c <? 128) && is_ascii s'
  end.

(** [s.split("\n")]: never empty, one more element than there are
    newlines. *)
Fixpoint split_nl (s : string) : list string :=
  match s with
  | EmptyString => [EmptyString]
  | String c s' =>
      if Ascii.eqb c nl then EmptyString :: split_nl s'
      else match split_nl s' with
           | h :: t => String c h :: t
           | [] => [String c EmptyString]
           end
  end.

(** ["\n".join(ls)]. *)
Fixpoint join_nl (ls : list string) : string :=
  match ls with
  | [] => EmptyString
  | [l] => l
  | l :: ls' => (l ++ String nl (join_nl ls'))%string
  end.

(** ["{0}".format(n)] for a non-negative int. *)
Definition str_of_nat (n : nat) : string :=
  NilZero.string_of_uint (Nat.to_uint n).

(** [del l[lo:hi]]: out-of-range bounds are clamped, an empty slice
    deletes nothing. *)
Definition del_slice {A} (lo hi : nat) (l : list A) : list A :=
  firstn lo l ++ skipn (Nat.max lo hi) l.

(** A [dict] with int keys and values, in insertion order.  Assigning to
    a key that is present keeps its position. *)
Definition dict := list (nat * nat).

Fixpoint dict_set (k v : nat) (d : dict) : dict :=
  match d with
  | [] => [(k, v)]
  | (k', v') :: d' =>
      if k =? k' then (k, v) :: d' else (k', v') :: dict_set k v d'
  end.

(** [reversed(d.keys())] paired with [d[key]]. *)
Definition reversed_items (d : dict) : dict := rev d.

(** The two kinds of value compared by [!=] in [run_module]. *)
Inductive value :=
| VStr (s : string)
| VList (l : list string).

Definition value_eqb (a b : value) : bool :=
  match a, b with
  | VStr s, VStr t => String.eqb s t
  | VList l, VList m =>
      if list_eq_dec string_dec l m then true else false
  | _, _ => false
  end.

Definition value_neb (a b : value) : bool := negb (value_eqb a b).

End Py.

(** ** The compiled pattern of [swap_text]

    [re.compile(r"^\s*MOUNT\s+FILESYSTEM\(\s*'" + removing.upper() + r"'\s*\)")]
    The identifier is pasted into the pattern unescaped, so its characters
    are pattern syntax. *)

Module Regex.

Inductive item :=
| Lit (c : ascii)     (* an ordinary character *)
| AnyChar             (* [.]: any character but a newline *)
| EndAnchor           (* [$]: the end, or just before a final newline *)
| Space               (* [\s] *)
| Spaces.             (* [\s*] *)

Definition pattern := list item.

Fixpoint lits (s : string) : pattern :=
  match s with
  | EmptyString => []
  | String c s' => Lit c :: lits s'
  end.

(** [matches p s]: some prefix of [s] is matched by [p], as
    [re.match] decides it (the result is compared with [None] only, so the
    order in which the backtracking engine tries alternatives is
    irrelevant). *)
Fixpoint matches (p : pattern) : string -> bool :=
  match p with
  | [] => fun _ => true
  | Lit c :: p' => fun s =>
      match s with
      | String x s' => Ascii.eqb x c && matches p' s'
      | EmptyString => false
      end
  | AnyChar :: p' => fun s =>
      match s with
      | String x s' => negb (Ascii.eqb x Py.nl) && matches p' s'
      | EmptyString => false
      end
  | EndAnchor :: p' => fun s =>
      match s with
      | EmptyString => matches p' s
      | String x EmptyString => Ascii.eqb x Py.nl && matches p' s
      | _ => false
      end
  | Space :: p' => fun s =>
      match s with
      | String x s' => Py.isspace x && matches p' s'
      | EmptyString => false
      end
  | Spaces :: p' =>
      fix star (s : string) : bool :=
        matches p' s
        || match s with
           | String x s' => Py.isspace x && star s'
           | EmptyString => false
           end
  end.

(** Characters with a meaning of their own in a pattern that this model
    does not cover: [^ * + ? { } [ ] \ | ( )]. *)
Definition unsupported (c : ascii) : bool :=
  let n := nat_of_ascii c in
  (128 <=? n)
  || existsb (Nat.eqb n) [94; 42; 43; 63; 123; 125; 91; 93; 92; 124; 40; 41].

(** The pattern items an identifier contributes.  [None]: the identifier
    holds a character outside the fragment modelled here. *)
Fixpoint of_identifier (s : string) : option pattern :=
  match s with
  | EmptyString => Some []
  | String c s' =>
      if unsupported c then None
      else match of_identifier s' with
           | None => None
           | Some p =>
               Some ((if Ascii.eqb c "." then AnyChar
                      else if Ascii.eqb c "$" then EndAnchor
                      else Lit c) :: p)
           end
  end.

End Regex.

(** ** swap_text *)

Definition mount_pattern (removing : string) : option Regex.pattern :=
  match Regex.of_identifier (Py.upper removing) with
  | None => None
  | Some ident =>
      Some ([Regex.Spaces] ++ Regex.lits "MOUNT"
            ++ [Regex.Space; Regex.Spaces] ++ Regex.lits "FILESYSTEM("
            ++ [Regex.Spaces; Regex.Lit "'"] ++ ident
            ++ [Regex.Lit "'"; Regex.Spaces; Regex.Lit ")"])
  end.

Record scan_state := mk_scan {
  boneyard : Py.dict;
  remove_starting_at_index : option nat;
  remove_ending_at_index : option nat
}.

Definition scan_init : scan_state := mk_scan [] None None.

Section Editor.

(** [ms line]: [ms.match(line) is not None]. *)
Variable ms : string -> bool.

(** The walk over [range(index - 1, 0, -1)] that looks for comments above
    the matched line; [start] is the value [remove_starting_at_index] keeps
    when the walk ends without a [break]. *)
Fixpoint comment_walk (content_lines : list string) (tmpindex start : nat)
  : nat :=
  match tmpindex with
  | 0 => start
  | S below =>
      let tmpline := nth tmpindex content_lines EmptyString in
      if 0 <? String.length tmpline then
        if negb (String.eqb (Py.slice 0 2 tmpline) "/*")
           || String.eqb (Py.slice 0 6 tmpline) "/* BEG"
        then tmpindex
        else comment_walk content_lines below start
      else tmpindex
  end.

Definition block_start (content_lines : list string) (index : nat) : nat :=
  if 0 <? index then comment_walk content_lines (index - 1) index
  else index.

(** The flag [doit] computed for a line met while a block is open. *)
Definition doit (line : string) : bool :=
  if 0 <? String.length line then
    match String.get 0 line with
    | Some c =>
        if negb (Ascii.eqb c " ") && negb (Ascii.eqb c Py.tab)
           && negb (String.eqb (Py.slice 0 2 line) "/*")
        then true
        else if String.eqb (Py.slice 0 6 line) "/* END" then true
        else false
    | None => false
    end
  else true.

(** One iteration of [for index, line in enumerate(content_lines)]. *)
Definition scan_step (content_lines : list string) (index : nat)
  (line : string) (st : scan_state) : scan_state :=
  match remove_starting_at_index st with
  | None =>
      if ms line then
        mk_scan (boneyard st) (Some (block_start content_lines index))
                (Some index)
      else st
  | Some start =>
      if doit line then
        mk_scan (Py.dict_set start index (boneyard st)) None None
      else mk_scan (boneyard st) (Some start) (Some index)
  end.

Fixpoint scan_from (content_lines : list string) (index : nat)
  (rest : list string) (st : scan_state) : scan_state :=
  match rest with
  | [] => st
  | line :: rest' =>
      scan_from content_lines (S index) rest'
                (scan_step content_lines index line st)
  end.

Definition scan (content_lines : list string) : scan_state :=
  scan_from content_lines 0 content_lines scan_init.

(** The statements after the loop that record a block still open at the end
    of the buffer. *)
Definition close_open (st : scan_state) : Py.dict :=
  match remove_starting_at_index st, remove_ending_at_index st with
  | Some s, Some e =>
      if negb (s =? e) then Py.dict_set s e (boneyard st) else boneyard st
  | _, _ => boneyard st
  end.

Definition spans (content_lines : list string) : Py.dict :=
  close_open (scan content_lines).

(** [for startidx in reversed(boneyard.keys()): del content_lines[...]]. *)
Definition delete_spans (d : Py.dict) (content_lines : list string)
  : list string :=
  fold_left (fun ls se => Py.del_slice (fst se) (snd se + 1) ls)
            (Py.reversed_items d) content_lines.

Definition remove_blocks (content_lines : list string) : list string :=
  delete_spans (spans content_lines) content_lines.

(** [content_lines] when [swap_text] returns; this is also what the
    caller's list holds afterwards, since [content_lines] is [original]
    itself. *)
Definition swap_lines (original : list string) (adding : string)
  : list string :=
  let content_lines := remove_blocks original in
  if 0 <? String.length adding
  then content_lines ++ Py.split_nl adding
  else content_lines.

End Editor.

Definition ms_match (removing : string) : option (string -> bool) :=
  option_map Regex.matches (mount_pattern removing).

(** [swap_text original adding removing]: the returned text together with
    the final contents of the list passed as [original]. *)
Definition swap_text (original : list string) (adding removing : string)
  : option (string * list string) :=
  match ms_match removing with
  | None => None
  | Some ms =>
      let content_lines := swap_lines ms original adding in
      Some (Py.join_nl content_lines, content_lines)
  end.

(** The matcher of an identifier inside the modelled fragment. *)
Definition matcher (removing : string) : string -> bool :=
  match ms_match removing with
  | Some ms => ms
  | None => fun _ => false
  end.

(** ** run_module: the comment lines of a managed block *)

(** [for i in range(59, 48, -1): if extra[i] == " ": stopper = i; break],
    started with [stopper = 60]; [count] is the number of indices still to
    visit, downward from [i]. *)
Fixpoint find_stopper (extra : string) (i count : nat) : nat :=
  match count with
  | 0 => 60
  | S count' =>
      match String.get i extra with
      | Some c =>
          if Ascii.eqb c " " then i else find_stopper extra (i - 1) count'
      | None => find_stopper extra (i - 1) count'
      end
  end.

Definition stopper (extra : string) : nat := find_stopper extra 59 11.

Definition comment_open (ctr : nat) : string :=
  ("/* C" ++ Py.str_of_nat ctr ++ ":")%string.

Definition comment_close : string := String " " (String "*" (String "/" (String Py.nl EmptyString))).

(** The [if len(extra) > 60: ... else: ...] statement and the
    [parmtext += " */\n"] after it, which both loops share: the new
    [parmtext] and the new [extra]. *)
Definition emit_comment (parmtext extra : string) (ctr : nat)
  : string * string :=
  if 60 <? String.length extra then
    let tmpx := Py.slice 0 (stopper extra) extra in
    ((parmtext ++ comment_open ctr ++ tmpx ++ comment_close)%string,
     Py.strip (Py.slice_from (stopper extra) extra))
  else
    ((parmtext ++ comment_open ctr ++ extra ++ comment_close)%string,
     EmptyString).

(** The state of the two loops: [parmtext], [extra], [ctr]. *)
Definition comment_state := (string * string * nat)%type.

(** One iteration of [for tabline in tabcomment]. *)
Definition tabline_step (st : comment_state) (tabline : string)
  : comment_state :=
  let '(parmtext, extra, ctr) := st in
  let extra1 :=
    if 0 <? String.length extra then (extra ++ " ")%string else extra in
  let extra2 := (extra1 ++ Py.strip tabline)%string in
  let '(parmtext', extra') := emit_comment parmtext extra2 ctr in
  (parmtext', extra', ctr + 1).

(** [while len(extra) > 0: ...]; [None] when [fuel] iterations were not
    enough. *)
Fixpoint overflow_loop (fuel : nat) (st : comment_state)
  : option comment_state :=
  let '(parmtext, extra, ctr) := st in
  if 0 <? String.length extra then
    match fuel with
    | 0 => None
    | S fuel' =>
        let '(parmtext', extra') := emit_comment parmtext extra ctr in
        overflow_loop fuel' (parmtext', extra', ctr + 1)
    end
  else Some st.

(** [parmtext] after the [if tabcomment is not None:] statement. *)
Definition add_comments (parmtext : string) (tabcomment : option (list string))
  : option string :=
  match tabcomment with
  | None => Some parmtext
  | Some tablines =>
      let st := fold_left tabline_step tablines (parmtext, EmptyString, 1) in
      match overflow_loop (String.length (snd (fst st))) st with
      | Some (parmtext', _, _) => Some parmtext'
      | None => None
      end
  end.

(** ** run_module: writing the persistent member back

    [newtext = swap_text(content, parmtext, src)] followed by
    [if newtext != content: ... copy_uss2mvs(...)].  [content] is the list
    that [swap_text] has edited in place. *)

Inductive write_back_result :=
| Written (newtext : string)    (* handed to [copy_uss2mvs] *)
| NotWritten.

Definition write_back (content : list string) (parmtext src : string)
  : option write_back_result :=
  match swap_text content parmtext src with
  | None => None
  | Some (newtext, content') =>
      if Py.value_neb (Py.VStr newtext) (Py.VList content')
      then Some (Written newtext)
      else Some NotWritten
  end.

(** ** Vocabulary of the specification *)

Definition is_comment (l : string) : bool := String.prefix "/*" l.
Definition is_begin_marker (l : string) : bool := String.prefix "/* BEG" l.
Definition is_end_marker (l : string) : bool := String.prefix "/* END" l.

(** The line begins with a space or a tab. *)
Definition is_indented (l : string) : bool :=
  match l with
  | String c _ => Ascii.eqb c " " || Ascii.eqb c Py.tab
  | EmptyString => false
  end.

Definition is_blank (l : string) : bool :=
  match l with EmptyString => true | _ => false end.

(** A new top-level statement: not empty, not indented, not a comment. *)
Definition is_top_level (l : string) : bool :=
  negb (is_blank l) && negb (is_indented l) && negb (is_comment l).

(** A line that keeps an open block open: indented, or a comment other
    than an END marker. *)
Definition is_continuation (l : string) : bool :=
  is_indented l || (is_comment l && negb (is_end_marker l)).

(** A comment above a directive that the backward walk passes over. *)
Definition is_plain_comment (l : string) : bool :=
  is_comment l && negb (is_begin_marker l).

(** A line at which the backward walk stops: blank, not a comment, or a
    BEGIN marker. *)
Definition walk_stop (l : string) : bool :=
  is_blank l || negb (is_comment l) || is_begin_marker l.

Definition no_match (ms : string -> bool) (ls : list string) : Prop :=
  Forall (fun l => ms l = false) ls.

Definition count_matches (ms : string -> bool) (ls : list string) : nat :=
  List.length (filter ms ls).

(** The scan ended on a directive line that is an open block by itself. *)
Definition ends_on_bare_directive (st : scan_state) : bool :=
  match remove_starting_at_index st, remove_ending_at_index st with
  | Some s, Some e => s =? e
  | _, _ => false
  end.

Fixpoint all_spaces (s : string) : bool :=
  match s with
  | EmptyString => true
  | String c s' => Py.isspace c && all_spaces s'
  end.

(** ** The invariant of the scan *)

(** Index [j] lies in a recorded span. *)
Definition covered (d : Py.dict) (j : nat) : Prop :=
  exists s e, In (s, e) d /\ s <= j <= e.

Definition span_lt (a b : nat * nat) : Prop :=
  fst a < fst b /\ snd a < snd b.

(** Starts and ends both grow along the insertion order. *)
Definition ordered (d : Py.dict) : Prop := StronglySorted span_lt d.

(** A directive line lies in [s..e]. *)
Definition holds_match (ms : string -> bool) (content : list string)
  (s e : nat) : Prop :=
  exists m, s <= m <= e /\ ms (nth m content EmptyString) = true.

(** What holds of the state when the loop has visited the first [i]
    lines. *)
Record scan_inv (ms : string -> bool) (content : list string) (i : nat)
  (st : scan_state) : Prop := mk_scan_inv {
  inv_ordered : ordered (boneyard st);
  inv_spans : forall s e, In (s, e) (boneyard st) ->
      s <= e /\ e < i /\ holds_match ms content s e;
  inv_open :
    match remove_starting_at_index st, remove_ending_at_index st with
    | None, None => True
    | Some s, Some e =>
        S e = i /\ s <= e /\ holds_match ms content s e
        /\ forall s' e', In (s', e') (boneyard st) -> s' <= s /\ e' < e
    | _, _ => False
    end;
  inv_covered : forall j, j < i -> ms (nth j content EmptyString) = true ->
      covered (boneyard st) j
      \/ exists s, remove_starting_at_index st = Some s /\ s <= j
}.

(** ** Sample buffers *)

Definition begin_2021 : string :=
  "/* BEGIN ANSIBLE MANAGED BLOCK 20210101-000000 */".
Definition end_2021 : string :=
  "/* END ANSIBLE MANAGED BLOCK 20210101-000000 */".
Definition end_2022 : string :=
  "/* END ANSIBLE MANAGED BLOCK 20220101-000000 */".

(** A block for A closed by a top-level statement. *)
Definition statement_buffer : list string :=
  ["MOUNT FILESYSTEM('A')"; "      MOUNTPOINT('/a')"; "NEXT STATEMENT";
   "TAIL"].

(** A block for A, then the comment and the directive of B. *)
Definition adjacent_buffer : list string :=
  ["HEAD"; begin_2021; "MOUNT FILESYSTEM('A')"; "      MOUNTPOINT('/a')";
   end_2021; "/* C1:notes for B */"; "MOUNT FILESYSTEM('B')";
   "      MOUNTPOINT('/b')"; end_2022].

(** The lines of a block for A, joined; the text that [run_module] builds
    has a line break behind the END marker in addition
    ([sample_block_text]). *)
Definition block_text_A : string :=
  Py.join_nl [begin_2021; "/* C1:home of A */"; "MOUNT FILESYSTEM('A')";
              "      MOUNTPOINT('/a')"; "      TYPE('ZFS')"; end_2021].

(** The lines of a block for [src = "a.zfs"], joined: [run_module] writes
    the identifier as given. *)
Definition block_text_lower : string :=
  Py.join_nl [begin_2021; "MOUNT FILESYSTEM('a.zfs')";
              "      MOUNTPOINT('/a')"; end_2021].

(** A directive alone on the last line. *)
Definition bare_directive_buffer : list string :=
  ["KEEP"; "MOUNT FILESYSTEM('A')"].

(** A directive and a continuation line at the end of the buffer. *)
Definition open_block_buffer : list string :=
  ["KEEP"; ""; "/* C1:home of A */"; "MOUNT FILESYSTEM('A')";
   "      MOUNTPOINT('/a')"].

(** Two stale blocks for A with one blank line between them, then the
    entry of B. *)
Definition touching_buffer : list string :=
  ["MOUNT FILESYSTEM('A')"; "      MOUNTPOINT('/a')"; "";
   "MOUNT FILESYSTEM('A')"; "      MOUNTPOINT('/a')"; "";
   "MOUNT FILESYSTEM('B')"; "      MOUNTPOINT('/b')"].


(** Comments from line 0 up to the directive. *)
Definition comments_first_buffer : list string :=
  ["/* C1:one */"; "/* C2:two */"; "MOUNT FILESYSTEM('A')";
   "      MOUNTPOINT('/a')"; end_2021].

Fixpoint has_char (c : ascii) (s : string) : bool :=
  match s with
  | EmptyString => false
  | String x s' => Ascii.eqb x c || has_char c s'
  end.

(** ** More Python string primitives *)

Module PyStr.

(** [sub in s]. *)
Fixpoint contains (sub s : string) : bool :=
  String.prefix sub s
  || match s with
     | String _ s' => contains sub s'
     | EmptyString => false
     end.

(** A line boundary of [str.splitlines] in 0..255: LF, VT, FF, CR, FS, GS,
    RS, NEL. *)
Definition is_linebreak (c : ascii) : bool :=
  let n := nat_of_ascii c in
  ((10 <=? n) && (n <=? 13)) || ((28 <=? n) && (n <=? 30)) || (n =? 133).

Definition cr : ascii := ascii_of_nat 13.

(** Put a character in front of the first line. *)
Definition push_char (c : ascii) (ls : list string) : list string :=
  match ls with
  | [] => [String c EmptyString]
  | l :: ls' => String c l :: ls'
  end.

(** [s.splitlines()]; [after_cr] says that the character before was a CR,
    whose LF belongs to the same boundary. *)
Fixpoint splitlines_from (after_cr : bool) (s : string) : list string :=
  match s with
  | EmptyString => []
  | String c s' =>
      if after_cr && Ascii.eqb c Py.nl then splitlines_from false s'
      else if is_linebreak c
           then EmptyString :: splitlines_from (Ascii.eqb c cr) s'
           else push_char c (splitlines_from false s')
  end.

Definition splitlines (s : string) : list string := splitlines_from false s.

(** [s.replace(old, new)] for a non-empty [old]; [skip] characters of a
    replaced occurrence are still to be passed over. *)
Fixpoint replace_from (skip : nat) (old new s : string) : string :=
  match s with
  | EmptyString => EmptyString
  | String c s' =>
      match skip with
      | S skip' => replace_from skip' old new s'
      | 0 =>
          if String.prefix old s
          then (new ++ replace_from (String.length old - 1) old new s')%string
          else String c (replace_from 0 old new s')
      end
  end.

Definition replace (old new s : string) : string := replace_from 0 old new s.

(** The truth value of a [str] that may be [None]. *)
Definition truthy (o : option string) : bool :=
  match o with
  | Some s => 0 <? String.length s
  | None => false
  end.

End PyStr.

(** ** run_module: the arguments and what they decide *)

Record persistent_args := mk_persistent {
  data_set_name : string;
  backup : bool;
  backup_name : option string
}.

(** [parsed_args], as far as [run_module] reads it. *)
Record mount_args := mk_mount_args {
  src : string;
  path : string;
  fs_type : string;          (* [main] admits HFS, ZFS, NFS and TFS only,
                                7-bit texts *)
  state : string;
  persistent : option persistent_args;
  tabcomment : option (list string);
  unmount_opts : option string;
  mount_opts : string;
  src_params : option string;
  tag_untagged : option string;
  tag_ccsid : option string;
  allow_uid : bool;
  sysname : option string;
  automove : option string;
  automove_list : option string
}.

(** The values of the [choices] of [state]. *)
Definition state_choices : list string :=
  ["absent"; "mounted"; "unmounted"; "present"; "remounted"].

Definition write_persistent (a : mount_args) : bool :=
  (PyStr.contains "mounted" (state a) || PyStr.contains "present" (state a)
   || PyStr.contains "absent" (state a))
  && match persistent a with
     | Some p =>
         let name := Py.upper (data_set_name p) in
         (0 <? String.length name) && (0 <? String.length name)
     | None => false
     end.

Definition gonna_mount (a : mount_args) : bool :=
  negb (PyStr.contains "unmounted" (state a)
        || PyStr.contains "absent" (state a)).

Definition gonna_unmount (a : mount_args) : bool :=
  PyStr.contains "unmounted" (state a)
  || PyStr.contains "remounted" (state a)
  || PyStr.contains "absent" (state a).

(** [for line in sttest: if src in line: currently_mounted = True; break]
    over [stdout.splitlines()] of [df]. *)
Definition currently_mounted (a : mount_args) (df_stdout : string) : bool :=
  existsb (PyStr.contains (src a)) (PyStr.splitlines df_stdout).

(** ** run_module: the mount command and the block text *)

Definition newline : string := String Py.nl EmptyString.

(** ["\n      "], which opens every option line of the block. *)
Definition option_line : string := (newline ++ "      ")%string.

Definition begin_line (dtstr : string) : string :=
  ("/* BEGIN ANSIBLE MANAGED BLOCK " ++ dtstr ++ " */" ++ newline)%string.

(** [parmtail = "\n" + parmtext.replace("BEGIN", "END")]. *)
Definition parmtail (dtstr : string) : string :=
  (newline ++ PyStr.replace "BEGIN" "END" (begin_line dtstr))%string.

Definition format_opt (o : option string) : string :=
  match o with
  | Some s => s
  | None => "None"
  end.

Definition subcmd (a : mount_args) : string :=
  if PyStr.contains "ro" (mount_opts a) || PyStr.contains "RO" (mount_opts a)
  then "READ" else "RDWR".

(** The option lines that follow [TYPE(...)], in the order in which
    [run_module] appends them; [cmd] says whether the text is for
    [fullcmd] (options after a space, parentheses and quotes escaped) or
    for [parmtext] (options on lines of their own). *)
Definition option_sep (cmd : bool) : string :=
  if cmd then " " else option_line.

Definition mode_option (cmd : bool) (a : mount_args) : string :=
  (option_sep cmd
   ++ (if cmd then "MODE\(" ++ subcmd a ++ "\)"
       else "MODE(" ++ subcmd a ++ ")"))%string.

Definition parm_option (cmd : bool) (a : mount_args) : string :=
  match src_params a with
  | Some p =>
      if 1 <? String.length p then
        (option_sep cmd
         ++ (if cmd then "PARM\(\'" ++ p ++ "\'\)"
             else "PARM('" ++ p ++ "')"))%string
      else EmptyString
  | None => EmptyString
  end.

Definition tag_option (cmd : bool) (a : mount_args) : string :=
  match tag_untagged a with
  | Some t =>
      if 0 <? String.length t then
        (option_sep cmd
         ++ (if cmd
             then "TAG\(" ++ t ++ "," ++ format_opt (tag_ccsid a) ++ "\)"
             else "TAG(" ++ t ++ "," ++ format_opt (tag_ccsid a) ++ ")"))%string
      else EmptyString
  | None => EmptyString
  end.

Definition setuid_option (cmd : bool) (a : mount_args) : string :=
  (option_sep cmd ++ (if allow_uid a then "SETUID" else "NOSETUID"))%string.

Definition wait_option (cmd : bool) (a : mount_args) : string :=
  (option_sep cmd
   ++ (if PyStr.contains "NOWAIT" (mount_opts a)
          || PyStr.contains "nowait" (mount_opts a)
       then "NOWAIT" else "WAIT"))%string.

Definition security_option (cmd : bool) (a : mount_args) : string :=
  (option_sep cmd
   ++ (if PyStr.contains "NOSECURITY" (mount_opts a)
          || PyStr.contains "nosecurity" (mount_opts a)
       then "NOSECURITY" else "SECURITY"))%string.

Definition sysname_option (cmd : bool) (a : mount_args) : string :=
  match sysname a with
  | Some n =>
      if (0 <? String.length n) && (String.length n <? 9) then
        (option_sep cmd
         ++ (if cmd then "SYSNAME\(" ++ n ++ "\)"
             else "SYSNAME(" ++ n ++ ")"))%string
      else EmptyString
  | None => EmptyString
  end.

Definition automove_option (cmd : bool) (a : mount_args) : string :=
  match automove a with
  | Some m =>
      if 1 <? String.length m then
        (option_sep cmd ++ m
         ++ match automove_list a with
            | Some l =>
                if (1 <? String.length l)%nat then "(" ++ l ++ ")"
                else EmptyString
            | None => EmptyString
            end)%string
      else EmptyString
  | None => EmptyString
  end.

Definition mount_options (cmd : bool) (a : mount_args) : string :=
  (mode_option cmd a ++ parm_option cmd a ++ tag_option cmd a
   ++ setuid_option cmd a ++ wait_option cmd a ++ security_option cmd a
   ++ sysname_option cmd a ++ automove_option cmd a)%string.

(** [fullcmd] when the [if gonna_mount:] statement has run. *)
Definition fullcmd (a : mount_args) : string :=
  if gonna_mount a then
    ("tsocmd MOUNT FILESYSTEM\( \'" ++ src a ++ "\' \) MOUNTPOINT\( \'"
     ++ path a ++ "\' \) TYPE\( '" ++ Py.upper (fs_type a) ++ "' \)"
     ++ mount_options true a)%string
  else EmptyString.

Definition directive_line (a : mount_args) : string :=
  ("MOUNT FILESYSTEM('" ++ src a ++ "')")%string.

(** [parmtext] when the [if gonna_mount:] statement has run; [None] never
    comes out (see [add_comments]). *)
Definition parmtext (dtstr : string) (a : mount_args) : option string :=
  match add_comments (begin_line dtstr) (tabcomment a) with
  | None => None
  | Some commented =>
      if gonna_mount a then
        Some (commented ++ directive_line a
              ++ option_line ++ "MOUNTPOINT('" ++ path a ++ "')"
              ++ option_line ++ "TYPE('" ++ Py.upper (fs_type a) ++ "')"
              ++ mount_options false a ++ parmtail dtstr)%string
      else Some EmptyString
  end.

(** [fullumcmd] when the first [if gonna_unmount:] statement has run. *)
Definition fullumcmd (a : mount_args) : string :=
  if gonna_unmount a then
    match unmount_opts a with
    | None => (fullcmd a ++ " " ++ "NORMAL")%string
    | Some o =>
        if String.length o <? 2 then (fullcmd a ++ " " ++ "NORMAL")%string
        else ("tsocmd UNMOUNT FILESYSTEM\( '" ++ src a ++ "' \)")%string
    end
  else EmptyString.

(** ** run_module: the run

    The collaborators of [run_module] are not part of the module; what they
    answer is read from an [env], what they are asked to do is recorded as
    a list of [event]s.  The collaborators called outside a [try] are taken
    to return. *)

Inductive event :=
| BackupCall (uss : bool) (dsn : string) (name : option string)
    (* [Backup.uss_file_backup] or [Backup.mvs_file_backup] *)
| Mkdir (dir : string)
| RunCommand (command : string)
| CopyPs2Uss (dsn tmp : string)
| CopyMvs2Mvs (dsn : string) (dest : option string)
| WriteFile (tmp text : string)
| CopyUss2Mvs (tmp dsn : string)
| Unlink (tmp : string).

Inductive abort :=
| FailJson (msg : string)    (* [module.fail_json]: the module exits *)
| TypeError                  (* [str + None] *)
| NotModelled.               (* the identifier is outside the pattern
                                fragment of [Regex.of_identifier], or
                                [str.upper] is called on a name outside
                                [Py.is_ascii] *)

Record env := mk_env {
  check_mode : bool;
  dtstr : string;                    (* [d.strftime("%Y%m%d-%H%M%S")] *)
  ds_type : option string;           (* [ds_utils.ds_type()] *)
  backup_made : option string;       (* the backup's name; [None]: it raised *)
  fs_exists : bool;                  (* [fs_du.exists()] *)
  path_exists : bool;                (* the first [os.path.exists(path)] *)
  mkdir_error : option string;       (* [str(err)] when [os.mkdir] raises *)
  path_exists_again : bool;          (* the second [os.path.exists(path)] *)
  df_rc : nat;
  df_stdout : string;
  unmount_error : option string;     (* [str(err)] when [run_command] raises *)
  mount_error : option string;
  member_exists : bool;              (* [fst_du.exists()] *)
  tmp_file_filename : string;
  member_text : string;              (* [fh.read()] *)
  tmp_is_file : bool                 (* [os.path.isfile(tmp_file_filename)] *)
}.

(** The fields of [res_args] that [run_module] computes; the fields that
    echo the arguments are left out. *)
Record result := mk_result {
  res_backup_name : option string;
  changed : bool;
  comment : string;
  cmd : string;
  rc : nat;
  stdout : option string;
  stderr : option string
}.

(** A run so far: the events, and how it goes on. *)
Definition run (A : Type) : Type := (list event * (abort + A))%type.

Definition ret {A} (x : A) : run A := ([], inr x).

Definition bind {A B} (m : run A) (k : A -> run B) : run B :=
  match m with
  | (t, inl e) => (t, inl e)
  | (t, inr x) => let '(t', r) := k x in (t ++ t', r)
  end.

Definition emit (ev : event) : run unit := ([ev], inr tt).

Definition stop {A} (e : abort) : run A := ([], inl e).

Definition fail_json {A} (msg : string) : run A := stop (FailJson msg).

Notation "x <- m ;; k" := (bind m (fun x => k))
  (at level 61, m at next level, right associativity).
Notation "m ;;; k" := (bind m (fun _ => k))
  (at level 61, right associativity).

Definition opt_eqb (o : option string) (s : string) : bool :=
  match o with
  | Some t => String.eqb t s
  | None => false
  end.

(** [mt_backupOper(module, src, backup)]; [backup] is a [bool] or the name
    to give to the backup. *)
Definition mt_backupOper (e : env) (source : string) (bk : bool + string)
  : run string :=
  let file_type := ds_type e in
  if negb (opt_eqb file_type "USS")
     && negb (opt_eqb file_type "PS" || opt_eqb file_type "PO")
  then fail_json (format_opt file_type ++ " data set type is NOT supported")
  else
    let name := match bk with inl _ => None | inr n => Some n end in
    emit (BackupCall (opt_eqb file_type "USS") source name) ;;;
    match backup_made e with
    | Some made => ret made
    | None => fail_json "creating backup has failed"
    end.

(** The variable [backup_name] of [run_module]. *)
Definition backup_name_var (p : persistent_args) : option string :=
  if backup p then
    if PyStr.truthy (backup_name p)
    then option_map Py.upper (backup_name p) else None
  else None.

(** [name.upper()] for a name that the arguments give as free text. *)
Definition upper_name (name : string) : run string :=
  if Py.is_ascii name then ret (Py.upper name) else stop NotModelled.

(** The statements under [if persistent:], as far as they act:
    [data_set_name] and, when a backup with a name is asked for,
    [backup_name] are put into upper case, then the backup is made.  The
    later steps of the run read the two names in upper case again from the
    arguments ([Py.upper (data_set_name p)], [backup_name_var]): they are
    reached only when these calls went through. *)
Definition persistent_prologue (a : mount_args) (e : env)
  : run (option string) :=
  match persistent a with
  | Some p =>
      dsn <- upper_name (data_set_name p) ;;
      if backup p then
        (match backup_name p with
         | Some name =>
             if PyStr.truthy (backup_name p)
             then upper_name name ;;; ret tt else ret tt
         | None => ret tt
         end) ;;;
        made <- mt_backupOper e dsn (inl true) ;;
        ret (Some made)
      else ret None
  | None => ret None
  end.

(** The statements under [if gonna_mount:] that look at the mount point;
    the new [comment]. *)
Definition check_mount_point (a : mount_args) (e : env) (comment : string)
  : run string :=
  if gonna_mount a then
    (if path_exists e then ret tt
     else emit (Mkdir (path a)) ;;;
          match mkdir_error e with
          | Some err => fail_json err
          | None => ret tt
          end) ;;;
    if path_exists_again e
    then ret (comment ++ "ran unmount command" ++ newline)%string
    else fail_json ("Mount destination (" ++ path a ++ ") doesn't exist")
  else ret comment.

(** The second [if gonna_unmount:] statement: [changed], [comment] and
    [currently_mounted] after it. *)
Definition unmount_step (a : mount_args) (e : env) (comment : string)
  (mounted : bool) : run (bool * string * bool) :=
  if gonna_unmount a then
    if mounted then
      if negb (check_mode e) then
        emit (RunCommand (fullumcmd a)) ;;;
        match unmount_error e with
        | Some err => fail_json err
        | None =>
            ret (true, (comment ++ "ran unmount command" ++ newline)%string,
                 false)
        end
      else
        ret (true,
             (comment ++ "(unmount) NO Action taken: ANSIBLE CHECK MODE"
              ++ newline)%string,
             mounted)
    else
      ret (false,
           (comment ++ "Unmount called on data set that is not mounted."
            ++ newline)%string,
           mounted)
  else ret (false, comment, mounted).

(** The second [if gonna_mount:] statement: [changed] and [comment] after
    it. *)
Definition mount_step (a : mount_args) (e : env) (changed : bool)
  (comment : string) (mounted : bool) : run (bool * string) :=
  if gonna_mount a then
    if negb mounted then
      if negb (check_mode e) then
        emit (RunCommand (fullcmd a)) ;;;
        match mount_error e with
        | Some err => fail_json err
        | None => ret (true, ("ran command" ++ newline)%string)
        end
      else
        ret (true,
             (comment ++ "(mount) NO Action taken: ANSIBLE CHECK MODE"
              ++ newline)%string)
    else
      ret (changed,
           (comment ++ "Mount called on data set that is already mounted."
            ++ newline)%string)
  else ret (changed, comment).

(** The statements under [if write_persistent and module.check_mode is
    False:]; the new [comment]. *)
Definition persistent_step (a : mount_args) (e : env) (text : string)
  (comment : string) : run string :=
  match persistent a with
  | Some p =>
      if write_persistent a && negb (check_mode e) then
        let dsn := Py.upper (data_set_name p) in
        let tmp := tmp_file_filename e in
        (if member_exists e then ret tt
         else fail_json ("persistent ds set member (" ++ dsn
                         ++ ") doesn't exist")) ;;;
        emit (CopyPs2Uss dsn tmp) ;;;
        comment1 <-
          (if backup p then
             emit (CopyMvs2Mvs dsn (backup_name_var p)) ;;;
             match backup_name_var p with
             | Some name =>
                 ret (comment ++ "Wrote backup to " ++ name ++ newline)%string
             | None => stop TypeError
             end
           else ret comment) ;;
        comment2 <-
          match write_back (PyStr.splitlines (member_text e)) text (src a) with
          | None => stop NotModelled
          | Some (Written newtext) =>
              emit (WriteFile tmp newtext) ;;;
              emit (CopyUss2Mvs tmp dsn) ;;;
              ret (comment1 ++ "Modified " ++ dsn ++ " in place"
                   ++ newline)%string
          | Some NotWritten => ret comment1
          end ;;
        (if tmp_is_file e then emit (Unlink tmp) else ret tt) ;;;
        ret comment2
      else ret comment
  | None => ret comment
  end.

(** [run_module(module, arg_def)] from the parsed arguments on. *)
Definition run_module (a : mount_args) (e : env) : run result :=
  made <- persistent_prologue a e ;;
  (if fs_exists e then ret tt
   else fail_json ("Mount source (" ++ src a ++ ") doesn't exist")) ;;;
  comment1 <- check_mount_point a e "starting" ;;
  emit (RunCommand "df") ;;;
  (if negb (df_rc e =? 0)
   then fail_json "Checking filesystem list failed with error"
   else ret tt) ;;;
  let mounted := currently_mounted a (df_stdout e) in
  text <- match parmtext (dtstr e) a with
          | Some t => ret t
          | None => stop NotModelled
          end ;;
  um <- unmount_step a e comment1 mounted ;;
  let '(changed1, comment2, mounted1) := um in
  mo <- mount_step a e changed1 comment2 mounted1 ;;
  let '(changed2, comment3) := mo in
  comment4 <- persistent_step a e text comment3 ;;
  ret (mk_result made changed2 comment4 (fullcmd a) 0 None None).

(** ** zos_find: the ZOAU command lines *)

(** [for pattern in ...: cmd += " '{0}'".format(pattern)]. *)
Definition add_patterns (cmd : string) (patterns : list string) : string :=
  fold_left (fun c pattern => (c ++ " '" ++ pattern ++ "'")%string)
            patterns cmd.

Definition flag (on : bool) (text : string) : string :=
  if on then text else EmptyString.

(** The command that [_dgrep_wrapper] runs. *)
Definition dgrep_cmd (data_set_pattern : list string) (content : option string)
  (ignore_case line_num verbose : bool) (context : option nat) : string :=
  add_patterns
    ("dgrep" ++ flag ignore_case " -i" ++ flag line_num " -n"
     ++ flag verbose " -v"
     ++ match context with
        | Some (S n) => " -C" ++ Py.str_of_nat (S n)
        | _ => EmptyString
        end
     ++ match content with
        | Some c => if (0 <? String.length c)%nat then " '" ++ c ++ "'"
                    else EmptyString
        | None => EmptyString
        end)%string
    data_set_pattern.

(** The command that [_dls_wrapper] runs. *)
Definition dls_cmd (data_set_pattern : list string)
  (list_details u_time size verbose migrated : bool) : string :=
  add_patterns
    ("dls"
     ++ (if migrated then " -m"
         else flag list_details " -l" ++ flag u_time " -u" ++ flag size " -s")
     ++ flag verbose " -v")%string
    data_set_pattern.

(** The command that [_vls_wrapper] runs. *)
Definition vls_cmd (patterns : list string) (details verbose : bool) : string :=
  add_patterns ("vls" ++ flag details " -l" ++ flag verbose " -v")%string
               patterns.

(** ** Relations and predicates of the further properties *)

(** [l1] is [l2] with some elements left out. *)
Inductive subseq {A : Type} : list A -> list A -> Prop :=
| subseq_nil : subseq [] []
| subseq_skip (x : A) (l1 l2 : list A) : subseq l1 l2 -> subseq l1 (x :: l2)
| subseq_keep (x : A) (l1 l2 : list A) :
    subseq l1 l2 -> subseq (x :: l1) (x :: l2).

(** An identifier whose characters all stand for themselves in the
    pattern, and that holds no single quote. *)
Fixpoint is_plain_identifier (s : string) : bool :=
  match s with
  | EmptyString => true
  | String c s' =>
      negb (Regex.unsupported c) && negb (Ascii.eqb c ".")
      && negb (Ascii.eqb c "$") && negb (Ascii.eqb c "'")
      && is_plain_identifier s'
  end.

(** The comment lines [/* C<n>:<chunk> */] for the chunks of a comment,
    numbered from [ctr]. *)
Fixpoint render_comments (ctr : nat) (chunks : list string) : string :=
  match chunks with
  | [] => EmptyString
  | chunk :: chunks' =>
      (comment_open ctr ++ chunk ++ comment_close
       ++ render_comments (ctr + 1) chunks')%string
  end.

(** The characters of a text that are not white space. *)
Fixpoint visible (s : string) : string :=
  match s with
  | EmptyString => EmptyString
  | String c s' => if Py.isspace c then visible s' else String c (visible s')
  end.

Fixpoint join_all (ls : list string) : string :=
  match ls with
  | [] => EmptyString
  | l :: ls' => (l ++ join_all ls')%string
  end.

(** Every character of the text satisfies [f]. *)
Fixpoint all_chars (f : ascii -> bool) (s : string) : bool :=
  match s with
  | EmptyString => true
  | String c s' => f c && all_chars f s'
  end.

(** The text holds no line boundary of [str.splitlines]. *)
Definition no_linebreak (s : string) : bool :=
  all_chars (fun c => negb (PyStr.is_linebreak c)) s.

(** Every chunk fits the text of one comment line. *)
Definition chunk_facts (chunks : list string) : Prop :=
  Forall (fun c => String.length c <= 60) chunks.

(** The alphabet of [strftime("%Y%m%d-%H%M%S")]: digits and [-]. *)
Definition is_timestamp (s : string) : bool :=
  all_chars (fun c => let n := nat_of_ascii c in
                      ((48 <=? n) && (n <=? 57)) || (n =? 45)) s.

Definition opt_no_linebreak (o : option string) : bool :=
  match o with
  | Some s => no_linebreak s
  | None => true
  end.

(** No argument that [run_module] puts into the block holds a line
    boundary. *)
Definition single_line_args (a : mount_args) : bool :=
  no_linebreak (src a) && no_linebreak (path a) && no_linebreak (fs_type a)
  && opt_no_linebreak (src_params a) && opt_no_linebreak (tag_untagged a)
  && opt_no_linebreak (tag_ccsid a) && opt_no_linebreak (sysname a)
  && opt_no_linebreak (automove a) && opt_no_linebreak (automove_list a)
  && match tabcomment a with
     | Some tablines => forallb no_linebreak tablines
     | None => true
     end.

(** ** The lines of a block *)

Definition begin_marker (dtstr : string) : string :=
  ("/* BEGIN ANSIBLE MANAGED BLOCK " ++ dtstr ++ " */")%string.

Definition end_marker (dtstr : string) : string :=
  ("/* END ANSIBLE MANAGED BLOCK " ++ dtstr ++ " */")%string.

Definition comment_line (ctr : nat) (chunk : string) : string :=
  (comment_open ctr ++ chunk ++ " */")%string.

Fixpoint comment_lines (ctr : nat) (chunks : list string) : list string :=
  match chunks with
  | [] => []
  | chunk :: chunks' => comment_line ctr chunk :: comment_lines (ctr + 1) chunks'
  end.

(** What [run_module] appends to [parmtext] after the directive, statement
    by statement. *)
Definition option_pieces (a : mount_args) : list string :=
  [(option_line ++ "MOUNTPOINT('" ++ path a ++ "')")%string;
   (option_line ++ "TYPE('" ++ Py.upper (fs_type a) ++ "')")%string;
   mode_option false a; parm_option false a; tag_option false a;
   setuid_option false a; wait_option false a; security_option false a;
   sysname_option false a; automove_option false a].

(** The line that a piece adds to the block: the piece without the line
    break it begins with. *)
Definition lines_of_piece (piece : string) : list string :=
  match piece with
  | EmptyString => []
  | String _ l => [l]
  end.

Definition option_lines (a : mount_args) : list string :=
  flat_map lines_of_piece (option_pieces a).

Definition block_lines (dtstr : string) (chunks : list string)
  (a : mount_args) : list string :=
  begin_marker dtstr :: comment_lines 1 chunks
  ++ directive_line a :: option_lines a ++ [end_marker dtstr].

(** A piece is empty or a line break followed by one indented line. *)
Definition piece_ok (piece : string) : Prop :=
  piece = EmptyString
  \/ exists l, piece = String Py.nl l /\ no_linebreak l = true
               /\ is_indented l = true.

(** The names of [persistent] on which the run calls [str.upper] are
    7-bit texts: [data_set_name] always, [backup_name] when a backup is
    asked for and the name is not empty. *)
Definition names_modelled (p : persistent_args) : bool :=
  Py.is_ascii (data_set_name p)
  && (if backup p
      then match backup_name p with
           | Some name => negb (PyStr.truthy (Some name)) || Py.is_ascii name
           | None => true
           end
      else true).

(** ** Vocabulary for the runs of [run_module] *)

(** What a run did, and how it ended. *)
Definition trace {A : Type} (m : run A) : list event := fst m.
Definition outcome {A : Type} (m : run A) : abort + A := snd m.

(** The event changes nothing that outlasts the run but a backup or the
    directory of the mount point: the only events of a run in check
    mode. *)
Definition is_check_mode_event (ev : event) : bool :=
  match ev with
  | BackupCall _ _ _ => true
  | Mkdir _ => true
  | RunCommand command => String.eqb command "df"
  | _ => false
  end.

Definition is_backup_call (ev : event) : bool :=
  match ev with
  | BackupCall _ _ _ => true
  | _ => false
  end.

Definition is_run_command (ev : event) : bool :=
  match ev with
  | RunCommand _ => true
  | _ => false
  end.

(** The event hands [Backup] a name for the backup. *)
Definition names_the_backup (ev : event) : bool :=
  match ev with
  | BackupCall _ _ (Some _) => true
  | _ => false
  end.

(** The event writes the member or its temporary copy. *)
Definition is_member_write (ev : event) : bool :=
  match ev with
  | WriteFile _ _ => true
  | CopyUss2Mvs _ _ => true
  | _ => false
  end.

(** The arguments with another [unmount_opts]. *)
Definition with_unmount_opts (a : mount_args) (o : option string)
  : mount_args :=
  mk_mount_args (src a) (path a) (fs_type a) (state a) (persistent a)
    (tabcomment a) o (mount_opts a) (src_params a) (tag_untagged a)
    (tag_ccsid a) (allow_uid a) (sysname a) (automove a) (automove_list a).

(** [automove] is one of its [choices], or absent. *)
Definition automove_is_choice (a : mount_args) : bool :=
  match automove a with
  | Some m => existsb (String.eqb m) ["AUTOMOVE"; "NOAUTOMOVE"; "UNMOUNT"]
  | None => true
  end.

(** ** Sample arguments and collaborators *)

(** The first example of the module's documentation, with [persistent]
    and a comment. *)
Definition sample_mount : mount_args :=
  mk_mount_args "SOMEUSER.VVV.ZFS" "/u/omvsadm/core" "zfs" "mounted"
    (Some (mk_persistent "sys1.parmlib(bpxprmaa)" false None))
    (Some ["For Tape2 project"]) (Some "NORMAL") "rw" (Some "") (Some "")
    None true (Some "") (Some "AUTOMOVE") (Some "").

(** The same, with the source in lower case. *)
Definition sample_mount_lower : mount_args :=
  mk_mount_args "someuser.vvv.zfs" "/u/omvsadm/core" "zfs" "mounted"
    (Some (mk_persistent "sys1.parmlib(bpxprmaa)" false None))
    (Some ["For Tape2 project"]) (Some "NORMAL") "rw" (Some "") (Some "")
    None true (Some "") (Some "AUTOMOVE") (Some "").

Definition sample_dtstr : string := "20210101-000000".

(** A run outside check mode in which every collaborator succeeds and
    [df] lists the source. *)
Definition sample_env : env :=
  mk_env false sample_dtstr (Some "PO") (Some "BK") true true None true 0
    "Mounted on  SOMEUSER.VVV.ZFS x" None None true "/tmp/x"
    ("HEAD" ++ newline ++ "TAIL" ++ newline) true.

(** Check mode, the mount point is missing, [df] does not list the
    source. *)
Definition sample_env_check : env :=
  mk_env true sample_dtstr (Some "PO") (Some "BK") true false None true 0
    "Mounted on  OTHER.ZFS x" None None true "/tmp/x"
    ("HEAD" ++ newline ++ "TAIL" ++ newline) true.

(** The sample arguments with [backup] asked for and no [backup_name]. *)
Definition sample_mount_backup : mount_args :=
  mk_mount_args "SOMEUSER.VVV.ZFS" "/u/omvsadm/core" "zfs" "mounted"
    (Some (mk_persistent "sys1.parmlib(bpxprmaa)" true None))
    (Some ["For Tape2 project"]) (Some "NORMAL") "rw" (Some "") (Some "")
    None true (Some "") (Some "AUTOMOVE") (Some "").

(** The sample arguments with [state: unmounted]. *)
Definition sample_unmount : mount_args :=
  mk_mount_args "SOMEUSER.VVV.ZFS" "/u/omvsadm/core" "zfs" "unmounted"
    (Some (mk_persistent "sys1.parmlib(bpxprmaa)" false None))
    None (Some "NORMAL") "rw" (Some "") (Some "")
    None true (Some "") (Some "AUTOMOVE") (Some "").

(** The source does not exist. *)
Definition sample_env_no_source : env :=
  mk_env false sample_dtstr (Some "PO") (Some "BK") false true None true 0
    "" None None true "/tmp/x" EmptyString true.

(** The text of the block that [run_module] builds for [sample_mount]. *)
Definition sample_block_text : string :=
  match parmtext sample_dtstr sample_mount with
  | Some text => text
  | None => EmptyString
  end.

(** A member with an older block for the source of [sample_mount]. *)
Definition stale_block_buffer : list string :=
  ["HEAD"; "/* BEGIN ANSIBLE MANAGED BLOCK 20200101-000000 */";
   "MOUNT FILESYSTEM('SOMEUSER.VVV.ZFS')"; "      MOUNTPOINT('/old')";
   "/* END ANSIBLE MANAGED BLOCK 20200101-000000 */"; "TAIL"].


(** ** The lines that the pattern of an identifier describes *)

(** [t] is the identifier [id] as the pattern reads it: character for
    character, a [.] of [id] standing for any character but a line
    feed. *)
Fixpoint agrees (id t : string) : bool :=
  match id, t with
  | EmptyString, EmptyString => true
  | String c id', String x t' =>
      (if Ascii.eqb c "." then negb (Ascii.eqb x Py.nl) else Ascii.eqb x c)
      && agrees id' t'
  | _, _ => false
  end.

(** Optional white space, [MOUNT], white space, [FILESYSTEM(], optional
    white space, the identifier between single quotes, optional white
    space, [)], and anything behind it. *)
Definition directive_shape (id l : string) : Prop :=
  exists ws1 ws2 ws3 t ws4 rest,
    l = (ws1 ++ "MOUNT" ++ ws2 ++ "FILESYSTEM(" ++ ws3 ++ "'" ++ t ++ "'"
         ++ ws4 ++ ")" ++ rest)%string
    /\ all_spaces ws1 = true
    /\ all_spaces ws2 = true /\ ws2 <> EmptyString
    /\ all_spaces ws3 = true /\ all_spaces ws4 = true
    /\ agrees id t = true.

(** ** Word wrap of the comment, as a rule *)





(** Right-nest every [++] of the goal. *)
Ltac app_norm :=
  repeat first [rewrite <- app_assoc | rewrite <- app_comm_cons]; cbn [app].

(** * Strings *)

Lemma prefix_cons (a b : ascii) (p l : string) :
  String.prefix (String a p) (String b l) = Ascii.eqb a b && String.prefix p l.
Proof.
  cbn [String.prefix]. destruct (ascii_dec a b) as [->|ne].
  - rewrite Ascii.eqb_refl. reflexivity.
  - apply Ascii.eqb_neq in ne. rewrite ne. reflexivity.
Qed.

Lemma prefix_empty (l : string) : String.prefix EmptyString l = true.
Proof. destruct l; reflexivity. Qed.

Lemma slice_prefix (p l : string) :
  String.eqb (Py.slice 0 (String.length p) l) p = String.prefix p l.
Proof.
  unfold Py.slice. rewrite Nat.sub_0_r. revert l.
  induction p as [|a p IH]; intros [|b l]; try reflexivity.
  rewrite prefix_cons. cbn [String.length substring String.eqb].
  rewrite IH, (Ascii.eqb_sym b a). reflexivity.
Qed.

Lemma slice_comment l : String.eqb (Py.slice 0 2 l) "/*" = is_comment l.
Proof. exact (slice_prefix "/*" l). Qed.

Lemma slice_begin l : String.eqb (Py.slice 0 6 l) "/* BEG" = is_begin_marker l.
Proof. exact (slice_prefix "/* BEG" l). Qed.

Lemma slice_end l : String.eqb (Py.slice 0 6 l) "/* END" = is_end_marker l.
Proof. exact (slice_prefix "/* END" l). Qed.

Lemma prefix_head (a : ascii) (p l : string) :
  String.prefix (String a p) l = true -> exists l', l = String a l'.
Proof.
  destruct l as [|b l]; [discriminate|]. rewrite prefix_cons.
  destruct (Ascii.eqb_spec a b) as [->|]; [eauto|discriminate].
Qed.

Lemma prefix_trans (p q l : string) :
  String.prefix p q = true -> String.prefix q l = true ->
  String.prefix p l = true.
Proof.
  revert q l. induction p as [|a p IH]; intros q l; [intros; apply prefix_empty|].
  destruct q as [|b q]; [discriminate|].
  destruct l as [|c l]; [discriminate|]. rewrite !prefix_cons.
  destruct (Ascii.eqb_spec a b) as [->|]; [|discriminate].
  destruct (Ascii.eqb_spec b c) as [->|]; [|discriminate].
  apply IH.
Qed.

Lemma begin_is_comment l : is_begin_marker l = true -> is_comment l = true.
Proof. apply (prefix_trans "/*" "/* BEG"). reflexivity. Qed.

Lemma end_is_comment l : is_end_marker l = true -> is_comment l = true.
Proof. apply (prefix_trans "/*" "/* END"). reflexivity. Qed.

Lemma end_not_begin l : is_end_marker l = true -> is_begin_marker l = false.
Proof.
  intros He. destruct (is_begin_marker l) eqn:Hb; [|reflexivity].
  apply prefix_correct in He, Hb. cbn [String.length] in He, Hb.
  rewrite He in Hb. discriminate.
Qed.

Lemma comment_not_indented l : is_comment l = true -> is_indented l = false.
Proof.
  intros H. apply prefix_head in H as [l' ->]. reflexivity.
Qed.

Lemma comment_not_blank l : is_comment l = true -> is_blank l = false.
Proof.
  intros H. apply prefix_head in H as [l' ->]. reflexivity.
Qed.

(** [doit] in the words of the specification: a blank line, an END marker
    and a top-level statement end the block; nothing else does. *)
Lemma doit_spec l :
  doit l = is_blank l || is_end_marker l || is_top_level l.
Proof.
  unfold doit, is_top_level. rewrite slice_comment, slice_end.
  destruct l as [|c l]; [reflexivity|].
  cbn [String.length Nat.ltb Nat.leb String.get is_blank is_indented negb orb andb].
  destruct (is_end_marker (String c l)) eqn:He.
  - rewrite (end_is_comment _ He).
    rewrite !andb_false_r. reflexivity.
  - rewrite negb_orb.
    destruct (negb (Ascii.eqb c " ") && negb (Ascii.eqb c Py.tab)
              && negb (is_comment (String c l))); reflexivity.
Qed.

Lemma continuation_not_doit l : is_continuation l = true -> doit l = false.
Proof.
  rewrite doit_spec. unfold is_continuation, is_top_level.
  destruct (is_indented l) eqn:Hi; simpl.
  - intros _. destruct l as [|c l]; [discriminate|]. simpl.
    destruct (is_end_marker (String c l)) eqn:He.
    + apply end_is_comment, comment_not_indented in He. congruence.
    + reflexivity.
  - intros H. apply andb_prop in H as [Hc He].
    rewrite Hc, (comment_not_blank _ Hc).
    destruct (is_end_marker l); [discriminate|]. reflexivity.
Qed.

(** ** Lines and text *)

Lemma split_nl_line (l : string) :
  has_char Py.nl l = false -> Py.split_nl l = [l].
Proof.
  induction l as [|c l IH]; [reflexivity|]. cbn [has_char Py.split_nl].
  intros H. apply orb_false_elim in H as [Hc Hl].
  now rewrite Hc, (IH Hl).
Qed.

Lemma split_nl_first_line (l t : string) :
  has_char Py.nl l = false ->
  Py.split_nl (l ++ String Py.nl t) = l :: Py.split_nl t.
Proof.
  induction l as [|c l IH]; cbn [has_char Py.split_nl String.append].
  - now rewrite Ascii.eqb_refl.
  - intros H. apply orb_false_elim in H as [Hc Hl].
    now rewrite Hc, (IH Hl).
Qed.

(** Splitting the joined text gives the lines back, when no line holds a
    newline. *)
Lemma split_join (ls : list string) :
  ls <> [] -> Forall (fun l => has_char Py.nl l = false) ls ->
  Py.split_nl (Py.join_nl ls) = ls.
Proof.
  intros Hne Hall. induction Hall as [|l ls Hl Hall IH]; [congruence|].
  destruct ls as [|l' ls].
  - now apply split_nl_line.
  - change (Py.join_nl (l :: l' :: ls))
      with (l ++ String Py.nl (Py.join_nl (l' :: ls)))%string.
    rewrite (split_nl_first_line _ _ Hl), IH; [reflexivity|discriminate].
Qed.

(** * The directive pattern *)

Section Pattern.

Import Regex.

Lemma matches_spaces (p : pattern) (s : string) :
  matches (Spaces :: p) s
  = matches p s
    || match s with
       | String x s' => Py.isspace x && matches (Spaces :: p) s'
       | EmptyString => false
       end.
Proof. destruct s; reflexivity. Qed.

Lemma matches_lit (c : ascii) (q : pattern) (t : string) :
  matches (Lit c :: q) (String c t) = matches q t.
Proof.
  change (matches (Lit c :: q) (String c t))
    with (Ascii.eqb c c && matches q t).
  now rewrite Ascii.eqb_refl.
Qed.

Lemma matches_lits (k : string) (q : pattern) (t : string) :
  matches (lits k ++ q) (k ++ t)%string = matches q t.
Proof.
  induction k as [|c k IH]; [reflexivity|].
  cbn [lits app String.append matches]. rewrite Ascii.eqb_refl. exact IH.
Qed.

Lemma matches_leading_spaces (ws : string) (q : pattern) (t : string) :
  all_spaces ws = true -> matches q t = true ->
  matches (Spaces :: q) (ws ++ t)%string = true.
Proof.
  intros Hws Ht. induction ws as [|c ws IH].
  - cbn [String.append]. rewrite matches_spaces, Ht. reflexivity.
  - cbn [all_spaces] in Hws. apply andb_prop in Hws as [Hc Hws].
    cbn [String.append]. rewrite matches_spaces, Hc, (IH Hws).
    apply orb_true_r.
Qed.

Lemma matches_some_spaces (ws : string) (q : pattern) (t : string) :
  all_spaces ws = true -> ws <> EmptyString -> matches q t = true ->
  matches (Space :: Spaces :: q) (ws ++ t)%string = true.
Proof.
  intros Hws Hne Ht. destruct ws as [|c ws]; [congruence|].
  cbn [all_spaces] in Hws. apply andb_prop in Hws as [Hc Hws].
  cbn [String.append]. change (matches (Space :: Spaces :: q) (String c (ws ++ t)))
    with (Py.isspace c && matches (Spaces :: q) (ws ++ t)).
  rewrite Hc. now apply matches_leading_spaces.
Qed.


(** No line whose first character that is not white space differs from an
    upper-case [M] is matched. *)
Lemma matches_needs_M (ws : string) (c : ascii) (rest : string) (q : pattern) :
  all_spaces ws = true -> Py.isspace c = false -> c <> "M"%char ->
  matches (Spaces :: Lit "M" :: q) (ws ++ String c rest)%string = false.
Proof.
  intros Hws Hc HM. induction ws as [|x ws IH].
  - cbn [String.append]. rewrite matches_spaces. cbn [matches].
    apply Ascii.eqb_neq in HM. rewrite HM, Hc. reflexivity.
  - cbn [all_spaces] in Hws. apply andb_prop in Hws as [Hx Hws].
    cbn [String.append]. rewrite matches_spaces, (IH Hws). cbn [matches].
    destruct (Ascii.eqb_spec x "M") as [->|_]; [discriminate Hx|].
    rewrite andb_false_r. reflexivity.
Qed.

Lemma matches_not_comment (q : pattern) (l : string) :
  matches (Spaces :: Lit "M" :: q) l = true -> is_comment l = false.
Proof.
  destruct l as [|x l]; [reflexivity|].
  unfold is_comment. rewrite prefix_cons, matches_spaces. cbn [matches].
  destruct (Ascii.eqb_spec "/" x) as [<-|_]; [|reflexivity].
  discriminate.
Qed.

Lemma upper_char_idem (c : ascii) :
  Py.upper_char (Py.upper_char c) = Py.upper_char c.
Proof. destruct c as [[] [] [] [] [] [] [] []]; reflexivity. Qed.

Lemma upper_idem (s : string) : Py.upper (Py.upper s) = Py.upper s.
Proof.
  induction s as [|c s IH]; [reflexivity|].
  cbn [Py.upper]. now rewrite upper_char_idem, IH.
Qed.

Lemma mount_pattern_shape (removing : string) (p : pattern) :
  mount_pattern removing = Some p ->
  exists ident,
    of_identifier (Py.upper removing) = Some ident
    /\ p = Spaces :: lits "MOUNT" ++ Space :: Spaces :: lits "FILESYSTEM("
           ++ Spaces :: Lit "'" :: ident ++ [Lit "'"; Spaces; Lit ")"].
Proof.
  unfold mount_pattern.
  destruct (of_identifier (Py.upper removing)) as [ident|]; [|discriminate].
  intros [= <-]. exists ident. split; reflexivity.
Qed.

End Pattern.

(** A line matched by the directive pattern of any identifier is not a
    comment. *)
Lemma ms_match_not_comment (removing : string) (ms : string -> bool)
  (l : string) :
  ms_match removing = Some ms -> ms l = true -> is_comment l = false.
Proof.
  unfold ms_match. destruct (mount_pattern removing) as [p|] eqn:Hp;
    [|discriminate].
  intros [= <-] Hl. apply mount_pattern_shape in Hp as (ident & _ & ->).
  exact (matches_not_comment _ _ Hl).
Qed.

(** * The backward walk *)

Lemma comment_walk_step (content : list string) (below start : nat) :
  comment_walk content (S below) start
  = if walk_stop (nth (S below) content EmptyString) then S below
    else comment_walk content below start.
Proof.
  cbn [comment_walk]. rewrite slice_comment, slice_begin. unfold walk_stop.
  destruct (nth (S below) content EmptyString) as [|c l]; reflexivity.
Qed.

Lemma comment_walk_bound (content : list string) (t start : nat) :
  comment_walk content t start = start
  \/ (1 <= comment_walk content t start <= t).
Proof.
  induction t as [|t IH]; [left; reflexivity|].
  rewrite comment_walk_step.
  destruct (walk_stop _); [right; lia|].
  destruct IH as [IH|IH]; [left; exact IH|right; lia].
Qed.

(** Without a line to stop at, the walk leaves the start where it was. *)
Lemma comment_walk_no_stop (content : list string) (t start : nat) :
  (forall j, 1 <= j <= t -> walk_stop (nth j content EmptyString) = false) ->
  comment_walk content t start = start.
Proof.
  induction t as [|t IH]; intros H; [reflexivity|].
  rewrite comment_walk_step, (H (S t)) by lia. apply IH.
  intros j Hj. apply H. lia.
Qed.

(** The walk stops at the first stopping line it meets. *)
Lemma comment_walk_first_stop (content : list string) (t start j : nat) :
  1 <= j <= t ->
  walk_stop (nth j content EmptyString) = true ->
  (forall k, j < k <= t -> walk_stop (nth k content EmptyString) = false) ->
  comment_walk content t start = j.
Proof.
  induction t as [|t IH]; intros Hj Hs Hk; [lia|].
  rewrite comment_walk_step.
  destruct (Nat.eq_dec j (S t)) as [->|ne].
  - now rewrite Hs.
  - rewrite (Hk (S t)) by lia. apply IH; [lia|exact Hs|].
    intros k Hk'. apply Hk. lia.
Qed.

(** The walk never passes a stopping line. *)
Lemma comment_walk_above_stop (content : list string) (t start j : nat) :
  j <= t -> j <= start ->
  walk_stop (nth j content EmptyString) = true ->
  j <= comment_walk content t start.
Proof.
  induction t as [|t IH]; intros Hj Hst Hs; [exact Hst|].
  rewrite comment_walk_step.
  destruct (walk_stop (nth (S t) content EmptyString)) eqn:E; [exact Hj|].
  apply IH; [|exact Hst|exact Hs].
  destruct (Nat.eq_dec j (S t)) as [->|]; [congruence|lia].
Qed.

Lemma block_start_le (content : list string) (index : nat) :
  block_start content index <= index.
Proof.
  unfold block_start. destruct index as [|i]; [reflexivity|].
  cbn [Nat.ltb Nat.leb]. rewrite Nat.sub_succ, Nat.sub_0_r.
  destruct (comment_walk_bound content i (S i)); lia.
Qed.

Lemma block_start_above_stop (content : list string) (index j : nat) :
  j < index -> walk_stop (nth j content EmptyString) = true ->
  j <= block_start content index.
Proof.
  intros Hj Hs. unfold block_start. destruct index as [|i]; [lia|].
  cbn [Nat.ltb Nat.leb]. rewrite Nat.sub_succ, Nat.sub_0_r.
  apply comment_walk_above_stop; [lia|lia|exact Hs].
Qed.

Lemma plain_comment_no_stop (l : string) :
  is_plain_comment l = true -> walk_stop l = false.
Proof.
  unfold is_plain_comment, walk_stop. intros H.
  apply andb_prop in H as [Hc Hb]. rewrite Hc, (comment_not_blank _ Hc).
  destruct (is_begin_marker l); [discriminate|reflexivity].
Qed.

Lemma nth_middle_app {A} (pre : list A) (x : A) (post : list A) (d : A) :
  nth (List.length pre) (pre ++ x :: post) d = x.
Proof. rewrite app_nth2, Nat.sub_diag by lia. reflexivity. Qed.

Lemma nth_Forall {A} (P : A -> Prop) (l : list A) (d : A) (j : nat) :
  Forall P l -> j < List.length l -> P (nth j l d).
Proof. intros H Hj. rewrite Forall_forall in H. apply H, nth_In, Hj. Qed.

(** Above a directive that follows a BEGIN marker and plain comments, the
    walk stops at the marker, unless the marker is line 0. *)
Lemma block_start_at_marker (pre : list string) (b : string)
  (cmts rest : list string) :
  pre <> [] -> walk_stop b = true ->
  Forall (fun l => is_plain_comment l = true) cmts ->
  block_start (pre ++ b :: cmts ++ rest)
              (List.length pre + 1 + List.length cmts)
  = List.length pre.
Proof.
  intros Hpre Hb Hc. unfold block_start.
  assert (Hlen : 1 <= List.length pre) by (destruct pre; [congruence|simpl; lia]).
  replace (0 <? List.length pre + 1 + List.length cmts) with true
    by (symmetry; apply Nat.ltb_lt; lia).
  apply comment_walk_first_stop.
  - lia.
  - now rewrite nth_middle_app.
  - intros k Hk. rewrite app_nth2 by lia.
    replace (k - List.length pre) with (S (k - List.length pre - 1)) by lia.
    cbn [nth]. rewrite app_nth1 by lia.
    apply plain_comment_no_stop.
    apply (nth_Forall (fun l => is_plain_comment l = true)); [exact Hc|lia].
Qed.

(** [swap_text] in terms of the lines it leaves. *)
Lemma swap_text_lines (removing : string) (ms : string -> bool)
  (original : list string) (adding : string) :
  ms_match removing = Some ms ->
  swap_text original adding removing
  = Some (Py.join_nl (swap_lines ms original adding),
          swap_lines ms original adding).
Proof. unfold swap_text. now intros ->. Qed.

(** * The scan *)

Section ScanFacts.

Variable ms : string -> bool.

Lemma scan_from_app (content : list string) (i : nat) (a b : list string)
  (st : scan_state) :
  scan_from ms content i (a ++ b) st
  = scan_from ms content (i + List.length a) b (scan_from ms content i a st).
Proof.
  revert i st. induction a as [|l a IH]; intros i st.
  - cbn. now rewrite Nat.add_0_r.
  - cbn [app scan_from List.length]. rewrite IH. f_equal. lia.
Qed.

(** Lines without a directive leave a closed scan as it is. *)
Lemma scan_closed_skip (content : list string) (i : nat) (a : list string)
  (st : scan_state) :
  no_match ms a -> remove_starting_at_index st = None ->
  scan_from ms content i a st = st.
Proof.
  intros Ha. revert i. induction Ha as [|l a Hl Ha IH]; intros i Hst.
  - reflexivity.
  - cbn [scan_from]. unfold scan_step. rewrite Hst, Hl. now apply IH.
Qed.

(** Lines that do not end the block move the end of an open span only. *)
Lemma scan_open_continue (content : list string) (i : nat) (a : list string)
  (d : Py.dict) (s e : nat) :
  Forall (fun l => doit l = false) a ->
  scan_from ms content i a (mk_scan d (Some s) (Some e))
  = mk_scan d (Some s)
            (Some (match a with [] => e | _ => i + List.length a - 1 end)).
Proof.
  intros Ha. revert i e. induction Ha as [|l a Hl Ha IH]; intros i e.
  - reflexivity.
  - cbn [scan_from]. unfold scan_step.
    cbn [remove_starting_at_index boneyard]. rewrite Hl, IH.
    do 2 f_equal. destruct a; cbn [List.length]; lia.
Qed.

(** A directive met by a closed scan, the lines that continue its block
    and the line that ends it. *)
Lemma scan_block (content : list string) (i : nat) (m : string)
  (body : list string) (c : string) (d : Py.dict) :
  ms m = true -> Forall (fun l => doit l = false) body -> doit c = true ->
  scan_from ms content i (m :: body ++ [c]) (mk_scan d None None)
  = mk_scan (Py.dict_set (block_start content i)
                         (i + List.length body + 1) d) None None.
Proof.
  intros Hm Hb Hc. cbn [scan_from]. unfold scan_step.
  cbn [remove_starting_at_index boneyard]. rewrite Hm.
  rewrite scan_from_app, (scan_open_continue _ _ _ _ _ _ Hb).
  cbn [scan_from]. unfold scan_step.
  cbn [remove_starting_at_index boneyard]. rewrite Hc.
  do 2 f_equal. lia.
Qed.

(** A directive met by a closed scan and followed to the end of the
    buffer by lines that continue its block. *)
Lemma scan_open_tail (content : list string) (i : nat) (m : string)
  (body : list string) (d : Py.dict) :
  ms m = true -> Forall (fun l => doit l = false) body ->
  scan_from ms content i (m :: body) (mk_scan d None None)
  = mk_scan d (Some (block_start content i)) (Some (i + List.length body)).
Proof.
  intros Hm Hb. cbn [scan_from]. unfold scan_step.
  cbn [remove_starting_at_index boneyard]. rewrite Hm.
  rewrite (scan_open_continue _ _ _ _ _ _ Hb).
  do 2 f_equal. destruct body; cbn [List.length]; lia.
Qed.

End ScanFacts.

(** * Deleting the recorded spans *)

Lemma delete_spans_nil (ls : list string) : delete_spans [] ls = ls.
Proof. reflexivity. Qed.

Lemma delete_spans_snoc (d : Py.dict) (s e : nat) (ls : list string) :
  delete_spans (d ++ [(s, e)]) ls
  = delete_spans d (Py.del_slice s (e + 1) ls).
Proof.
  unfold delete_spans, Py.reversed_items. rewrite rev_app_distr. reflexivity.
Qed.

Lemma delete_spans_cons (s e : nat) (d : Py.dict) (ls : list string) :
  delete_spans ((s, e) :: d) ls
  = Py.del_slice s (e + 1) (delete_spans d ls).
Proof.
  unfold delete_spans, Py.reversed_items. cbn [rev].
  rewrite fold_left_app. reflexivity.
Qed.

(** Deleting a span that starts inside [pre] and ends with [mid]. *)
Lemma del_slice_middle (pre mid post : list string) (s e : nat) :
  s <= List.length pre -> e + 1 = List.length pre + List.length mid ->
  Py.del_slice s (e + 1) (pre ++ mid ++ post) = firstn s pre ++ post.
Proof.
  intros Hs He. unfold Py.del_slice.
  rewrite Nat.max_r by lia. rewrite firstn_app.
  replace (s - List.length pre) with 0 by lia.
  cbn [firstn]. rewrite app_nil_r. f_equal.
  rewrite app_assoc, skipn_app, He, <- length_app.
  rewrite skipn_all, Nat.sub_diag. reflexivity.
Qed.

Lemma swap_lines_delete_only (ms : string -> bool) (content : list string) :
  swap_lines ms content EmptyString = remove_blocks ms content.
Proof. reflexivity. Qed.

(** * A buffer with one block *)

Section OneBlock.

Variable ms : string -> bool.
Variables (pre : list string) (m : string) (body : list string) (c : string)
          (post content : list string).

Hypothesis content_shape : content = pre ++ (m :: body ++ [c]) ++ post.
Hypothesis pre_clear : no_match ms pre.
Hypothesis m_matches : ms m = true.
Hypothesis body_continues : Forall (fun l => doit l = false) body.
Hypothesis c_closes : doit c = true.
Hypothesis post_clear : no_match ms post.

Lemma scan_one_block :
  scan ms content
  = mk_scan [(block_start content (List.length pre),
              List.length pre + List.length body + 1)] None None.
Proof.
  unfold scan. rewrite content_shape at 2.
  rewrite scan_from_app.
  rewrite (scan_closed_skip ms _ _ _ scan_init pre_clear eq_refl).
  rewrite scan_from_app. unfold scan_init.
  rewrite (scan_block ms _ _ _ _ _ _ m_matches body_continues c_closes).
  now rewrite (scan_closed_skip ms _ _ _ _ post_clear).
Qed.

Lemma spans_one_block :
  spans ms content
  = [(block_start content (List.length pre),
      List.length pre + List.length body + 1)].
Proof. unfold spans. rewrite scan_one_block. reflexivity. Qed.

Lemma remove_one_block :
  remove_blocks ms content
  = firstn (block_start content (List.length pre)) pre ++ post.
Proof.
  unfold remove_blocks. rewrite spans_one_block.
  change (delete_spans [?x] ?l) with (delete_spans ([] ++ [x]) l).
  rewrite delete_spans_snoc, delete_spans_nil.
  rewrite content_shape at 2. apply del_slice_middle.
  - apply block_start_le.
  - rewrite length_cons, length_app. cbn [List.length]. lia.
Qed.

End OneBlock.

Lemma continuation_lines_continue (body : list string) :
  Forall (fun l => is_continuation l = true) body ->
  Forall (fun l => doit l = false) body.
Proof.
  apply Forall_impl. exact continuation_not_doit.
Qed.

Lemma comments_do_not_match (removing : string) (ms : string -> bool)
  (ls : list string) :
  ms_match removing = Some ms ->
  Forall (fun l => is_comment l = true) ls -> no_match ms ls.
Proof.
  intros Hms. apply Forall_impl. intros l Hl.
  destruct (ms l) eqn:E; [|reflexivity].
  rewrite (ms_match_not_comment _ _ _ Hms E) in Hl. discriminate.
Qed.

(** * The claims about one block *)

(** C5 (counterexample).  In [statement_buffer] the block of A is ended by
    the top-level statement at index 2; the recorded span is [0..2], so the
    statement is deleted with the block and only ["TAIL"] is left. *)
Lemma top_level_statement_is_deleted :
  is_top_level (nth 2 statement_buffer EmptyString) = true
  /\ spans (matcher "A") statement_buffer = [(0, 2)]
  /\ swap_text statement_buffer EmptyString "A" = Some ("TAIL", ["TAIL"]).
Proof. repeat split; reflexivity. Qed.

(** C5 (amended).  From a directive matched while no block is open, the
    forward scan passes over the lines that begin with a space or a tab or
    that are comments other than an END marker, and ends the block at the
    first line that is blank, an END marker or a top-level statement.  In
    all three cases the line that ends the block is the end of the span put
    into the boneyard; where the block is the only one of the buffer, the
    lines from its start to that line, that line included, are deleted. *)
Theorem forward_scan_block_end :
  forall (removing : string) (ms : string -> bool) (pre : list string)
         (m : string) (body : list string) (c : string) (post : list string)
         (d : Py.dict),
    let content := pre ++ m :: body ++ c :: post in
    let start := block_start content (List.length pre) in
    let last := List.length pre + List.length body + 1 in
    ms_match removing = Some ms ->
    scan_from ms content 0 pre scan_init = mk_scan d None None ->
    ms m = true ->
    Forall (fun l => is_continuation l = true) body ->
    is_blank c || is_end_marker c || is_top_level c = true ->
    scan_from ms content 0 (pre ++ m :: body ++ [c]) scan_init
    = mk_scan (Py.dict_set start last d) None None
    /\ nth last content EmptyString = c
    /\ (no_match ms pre -> no_match ms post ->
        spans ms content = [(start, last)]
        /\ swap_lines ms content EmptyString = firstn start pre ++ post).
Proof.
  intros removing ms pre m body c post d content start last
         _ Hpre Hm Hbody Hc.
  apply continuation_lines_continue in Hbody. rewrite <- doit_spec in Hc.
  split; [|split].
  - rewrite scan_from_app, Hpre. now apply scan_block.
  - unfold content, last.
    replace (pre ++ m :: body ++ c :: post)
      with ((pre ++ m :: body) ++ c :: post) by (app_norm; reflexivity).
    replace (List.length pre + List.length body + 1)
      with (List.length (pre ++ m :: body))
      by (rewrite length_app; cbn [List.length]; lia).
    apply nth_middle_app.
  - intros Hclear Hpost.
    assert (Hcontent : content = pre ++ (m :: body ++ [c]) ++ post).
    { unfold content. app_norm. reflexivity. }
    rewrite swap_lines_delete_only. split.
    + now apply (spans_one_block ms pre m body c post).
    + now apply (remove_one_block ms pre m body c post).
Qed.

Lemma forward_scan_block_end_witness :
  swap_lines (matcher "A") statement_buffer EmptyString = ["TAIL"].
Proof.
  refine (proj2 (proj2 (proj2 (forward_scan_block_end "A" (matcher "A") []
                   "MOUNT FILESYSTEM('A')" ["      MOUNTPOINT('/a')"]
                   "NEXT STATEMENT" ["TAIL"] []
                   eq_refl eq_refl eq_refl _ eq_refl)) _ _)).
  - repeat constructor.
  - repeat constructor.
  - repeat constructor.
Defined.

(** C4 (counterexample).  In [adjacent_buffer] the comment of B follows the
    END marker of A.  The walk back from the directive of B (index 6) passes
    the comment and the END marker (index 4) and stops at the continuation
    line of A (index 3): deleting B takes the last lines of A with it. *)
Lemma backward_walk_passes_end_marker :
  is_end_marker (nth 4 adjacent_buffer EmptyString) = true
  /\ is_comment (nth 5 adjacent_buffer EmptyString) = true
  /\ matcher "B" (nth 6 adjacent_buffer EmptyString) = true
  /\ block_start adjacent_buffer 6 = 3
  /\ swap_lines (matcher "B") adjacent_buffer EmptyString
     = ["HEAD"; begin_2021; "MOUNT FILESYSTEM('A')"].
Proof. repeat split; reflexivity. Qed.

Lemma end_marker_no_stop (e : string) :
  is_end_marker e = true -> walk_stop e = false.
Proof.
  intros He. unfold walk_stop.
  now rewrite (end_is_comment _ He), (end_not_begin _ He),
    (comment_not_blank _ (end_is_comment _ He)).
Qed.

Lemma begin_marker_stop (b : string) :
  is_begin_marker b = true -> walk_stop b = true.
Proof. intros Hb. unfold walk_stop. rewrite Hb. apply orb_true_r. Qed.

(** A block that opens with a BEGIN marker below line 0 and closes with an
    END marker is deleted as a whole when it is the only one. *)
Lemma remove_marked_block (removing : string) (ms : string -> bool)
  (pre : list string) (b : string) (cmts : list string) (m : string)
  (conts : list string) (e : string) (rest : list string) :
  ms_match removing = Some ms ->
  pre <> [] -> no_match ms pre ->
  is_begin_marker b = true ->
  Forall (fun l => is_plain_comment l = true) cmts ->
  ms m = true ->
  Forall (fun l => is_continuation l = true) conts ->
  is_end_marker e = true ->
  no_match ms rest ->
  remove_blocks ms (pre ++ (b :: cmts ++ m :: conts ++ [e]) ++ rest)
  = pre ++ rest.
Proof.
  intros Hms Hne Hpre Hb Hcmts Hm Hconts He Hrest.
  assert (Hclear : no_match ms (pre ++ b :: cmts)).
  { apply Forall_app. split; [exact Hpre|].
    apply (comments_do_not_match removing); [exact Hms|].
    constructor; [now apply begin_is_comment|].
    revert Hcmts. apply Forall_impl. intros l Hl.
    now apply andb_prop in Hl as [Hl _]. }
  assert (Hcontent :
    pre ++ (b :: cmts ++ m :: conts ++ [e]) ++ rest
    = (pre ++ b :: cmts) ++ (m :: conts ++ [e]) ++ rest).
  { app_norm. reflexivity. }
  rewrite (remove_one_block ms (pre ++ b :: cmts) m conts e rest _ Hcontent);
    [|assumption|assumption|now apply continuation_lines_continue
     |rewrite doit_spec, He, orb_true_r; reflexivity|assumption].
  replace (List.length (pre ++ b :: cmts))
    with (List.length pre + 1 + List.length cmts)
    by (rewrite length_app; cbn [List.length]; lia).
  replace (pre ++ (b :: cmts ++ m :: conts ++ [e]) ++ rest)
    with (pre ++ b :: cmts ++ (m :: conts ++ [e]) ++ rest)
    by (app_norm; reflexivity).
  rewrite (block_start_at_marker pre b cmts _ Hne (begin_marker_stop _ Hb) Hcmts).
  rewrite firstn_app, firstn_all, Nat.sub_diag. cbn [firstn].
  now rewrite app_nil_r.
Qed.

(** C4 (amended).  Let the block of A be a BEGIN marker that is not line 0,
    comments, the directive, continuation lines and an END marker, and let
    no other line of the buffer match the pattern of A.  Then
    [swap_text(buffer, "", A)] deletes exactly that block; the block of B
    behind it, comments included, stays as it is.  The backward walk stops
    at the BEGIN marker of the block itself; an END marker does not stop
    it. *)
Theorem adjacent_block_kept :
  forall (removing : string) (ms : string -> bool) (pre : list string)
         (b : string) (cmts : list string) (m : string)
         (conts : list string) (e : string) (block_b post : list string),
    ms_match removing = Some ms ->
    pre <> [] -> no_match ms pre ->
    is_begin_marker b = true ->
    Forall (fun l => is_plain_comment l = true) cmts ->
    ms m = true ->
    Forall (fun l => is_continuation l = true) conts ->
    is_end_marker e = true ->
    no_match ms (block_b ++ post) ->
    swap_lines ms (pre ++ (b :: cmts ++ m :: conts ++ [e]) ++ block_b ++ post)
               EmptyString
    = pre ++ block_b ++ post
    /\ walk_stop b = true /\ walk_stop e = false.
Proof.
  intros removing ms pre b cmts m conts e block_b post
         Hms Hne Hpre Hb Hcmts Hm Hconts He Hrest.
  split; [|split].
  - rewrite swap_lines_delete_only.
    now apply (remove_marked_block removing).
  - now apply begin_marker_stop.
  - now apply end_marker_no_stop.
Qed.

Lemma adjacent_block_kept_witness :
  swap_lines (matcher "A") adjacent_buffer EmptyString
  = ["HEAD"; "/* C1:notes for B */"; "MOUNT FILESYSTEM('B')";
     "      MOUNTPOINT('/b')"; end_2022].
Proof.
  refine (proj1 (adjacent_block_kept "A" (matcher "A") ["HEAD"]
                   begin_2021 [] "MOUNT FILESYSTEM('A')"
                   ["      MOUNTPOINT('/a')"] end_2021
                   ["/* C1:notes for B */"; "MOUNT FILESYSTEM('B')";
                    "      MOUNTPOINT('/b')"; end_2022] []
                   eq_refl _ _ eq_refl (Forall_nil _) eq_refl _ eq_refl _)).
  - discriminate.
  - repeat constructor.
  - repeat constructor.
  - repeat constructor.
Defined.

(** C7 (the code at the failing input).  In [comments_first_buffer] every
    line above the directive at index 2 is a comment that is not a BEGIN
    marker.  The walk visits index 1 only, finds nothing to stop at, and
    the block starts at the directive itself: both comments stay in the
    buffer. *)
Theorem comments_from_line_0_are_kept :
  is_plain_comment (nth 0 comments_first_buffer EmptyString) = true
  /\ is_plain_comment (nth 1 comments_first_buffer EmptyString) = true
  /\ matcher "A" (nth 2 comments_first_buffer EmptyString) = true
  /\ block_start comments_first_buffer 2 = 2
  /\ spans (matcher "A") comments_first_buffer = [(2, 4)]
  /\ swap_lines (matcher "A") comments_first_buffer EmptyString
     = ["/* C1:one */"; "/* C2:two */"].
Proof. repeat split; reflexivity. Qed.

(** Whatever the buffer, comments that reach from line 0 to the directive
    leave the start of the block at the directive. *)
Lemma block_start_below_comments (content : list string) (index : nat) :
  (forall j, j < index ->
             is_plain_comment (nth j content EmptyString) = true) ->
  block_start content index = index.
Proof.
  intros H. unfold block_start. destruct index as [|i]; [reflexivity|].
  cbn [Nat.ltb Nat.leb]. rewrite Nat.sub_succ, Nat.sub_0_r.
  apply comment_walk_no_stop. intros j Hj.
  apply plain_comment_no_stop, H. lia.
Qed.

(** * The invariant of the scan *)

Lemma ordered_tail (x : nat * nat) (d : Py.dict) :
  ordered (x :: d) -> ordered d.
Proof. intros H. now inversion H. Qed.

Lemma ordered_head (x y : nat * nat) (d : Py.dict) :
  ordered (x :: d) -> In y d -> span_lt x y.
Proof.
  intros H Hy. inversion H as [|? ? _ Hall]; subst.
  rewrite Forall_forall in Hall. now apply Hall.
Qed.

(** Assigning a span whose start is not below any key: the dict ends with
    that span, and only an entry with the same start has gone. *)
Lemma dict_set_last (s e : nat) (d : Py.dict) :
  ordered d ->
  (forall s' e', In (s', e') d -> s' <= s /\ e' < e) ->
  exists d',
    Py.dict_set s e d = d' ++ [(s, e)]
    /\ (forall x, In x d' -> In x d)
    /\ (forall x, In x d -> In x d' \/ fst x = s)
    /\ ordered (d' ++ [(s, e)]).
Proof.
  induction d as [|[k v] d IH]; intros Hord Hle.
  - exists []. repeat split; try (intros x []).
    repeat constructor.
  - cbn [Py.dict_set]. destruct (Nat.eqb_spec s k) as [->|ne].
    + assert (d = []) as ->.
      { destruct d as [|[k2 v2] d]; [reflexivity|exfalso].
        pose proof (ordered_head _ (k2, v2) _ Hord (or_introl eq_refl)) as [H _].
        destruct (Hle k2 v2 (or_intror (or_introl eq_refl))) as [H' _].
        cbn in H. lia. }
      exists []. repeat split.
      * intros x [].
      * intros x [<-|[]]. now right.
      * repeat constructor.
    + destruct IH as (d' & Hset & Hsub & Hin & Hord').
      * now apply ordered_tail in Hord.
      * intros s' e' H. apply Hle. now right.
      * exists ((k, v) :: d'). rewrite Hset. repeat split.
        -- intros x [<-|Hx]; [now left|right; now apply Hsub].
        -- intros x [<-|Hx]; [left; now left|].
           destruct (Hin x Hx) as [H|H]; [left; now right|now right].
        -- cbn [app]. constructor; [exact Hord'|].
           apply Forall_app. split.
           ++ apply Forall_forall. intros y Hy.
              apply (ordered_head _ _ _ Hord), Hsub, Hy.
           ++ constructor; [|constructor].
              destruct (Hle k v (or_introl eq_refl)). split; cbn; lia.
Qed.

Section Invariant.

Variable ms : string -> bool.
Hypothesis ms_not_comment : forall l, ms l = true -> is_comment l = false.
Variable content : list string.

Lemma match_stops_walk (j : nat) :
  ms (nth j content EmptyString) = true ->
  walk_stop (nth j content EmptyString) = true.
Proof.
  intros H. unfold walk_stop. rewrite (ms_not_comment _ H).
  cbn [negb]. now rewrite orb_true_r.
Qed.

Lemma holds_match_wider (s e e' : nat) :
  e <= e' -> holds_match ms content s e -> holds_match ms content s e'.
Proof. intros He (m & Hm & H). exists m. split; [lia|exact H]. Qed.

Lemma scan_inv_init : scan_inv ms content 0 scan_init.
Proof.
  constructor; cbn.
  - constructor.
  - intros s e [].
  - exact I.
  - intros j Hj. lia.
Qed.

(** Recording the open span [s..i] when line [i] ends it, or when the
    buffer has ended. *)
Lemma record_span (i s e : nat) (d : Py.dict) :
  ordered d ->
  (forall s' e', In (s', e') d ->
                 s' <= e' /\ e' < i /\ holds_match ms content s' e') ->
  s <= e -> e <= i -> holds_match ms content s e ->
  (forall s' e', In (s', e') d -> s' <= s /\ e' < e) ->
  exists d',
    Py.dict_set s i d = d' ++ [(s, i)]
    /\ ordered (Py.dict_set s i d)
    /\ (forall s' e', In (s', e') (Py.dict_set s i d) ->
                      s' <= e' /\ e' < S i /\ holds_match ms content s' e')
    /\ (forall j, covered d j \/ s <= j <= i ->
                  covered (Py.dict_set s i d) j).
Proof.
  intros Hord Hsp Hse Hei Hm Hle.
  destruct (dict_set_last s i d Hord) as (d' & Hset & Hsub & Hin & Hord').
  { intros s' e' H. destruct (Hle s' e' H). lia. }
  exists d'. rewrite Hset. repeat split.
  - exact Hord'.
  - apply in_app_or in H as [H|[[= <- <-]|[]]]; [|lia].
    apply Hsub, Hsp in H. lia.
  - apply in_app_or in H as [H|[[= <- <-]|[]]]; [|lia].
    apply Hsub, Hsp in H. lia.
  - apply in_app_or in H as [H|[[= <- <-]|[]]].
    + now apply Hsub, Hsp in H.
    + now apply (holds_match_wider s e).
  - intros j [(s' & e' & Hin' & Hj)|Hj].
    + destruct (Hin _ Hin') as [H|H].
      * exists s', e'. split; [apply in_or_app; now left|exact Hj].
      * cbn in H. subst s'. destruct (Hle s e' Hin').
        exists s, i. split; [apply in_or_app; right; now left|lia].
    + exists s, i. split; [apply in_or_app; right; now left|exact Hj].
Qed.

Lemma scan_step_inv (i : nat) (st : scan_state) :
  scan_inv ms content i st ->
  scan_inv ms content (S i)
           (scan_step ms content i (nth i content EmptyString) st).
Proof.
  intros [Hord Hsp Hopen Hcov]. unfold scan_step.
  destruct st as [d [s|] [e|]]; cbn in *; try contradiction.
  - (* a block is open *)
    destruct Hopen as (Hi & Hse & Hm & Hle).
    destruct (doit (nth i content EmptyString)).
    + destruct (record_span i s e d Hord Hsp Hse ltac:(lia) Hm Hle)
        as (d' & _ & Hord' & Hsp' & Hcov').
      constructor; cbn.
      * exact Hord'.
      * exact Hsp'.
      * exact I.
      * intros j Hj Hmj. left. apply Hcov'.
        destruct (Nat.eq_dec j i) as [->|ne]; [right; lia|].
        destruct (Hcov j ltac:(lia) Hmj) as [H|(s0 & [= <-] & H)];
          [now left|right; lia].
    + constructor; cbn.
      * exact Hord.
      * intros s' e' H. destruct (Hsp s' e' H) as (? & ? & ?).
        repeat split; [lia|lia|assumption].
      * repeat split; [lia|now apply (holds_match_wider s e); [lia|]| |];
          destruct (Hle s' e' H); lia.
      * intros j Hj Hmj.
        destruct (Nat.eq_dec j i) as [->|ne];
          [right; exists s; split; [reflexivity|lia]|].
        apply Hcov; [lia|exact Hmj].
  - (* no block is open *)
    destruct (ms (nth i content EmptyString)) eqn:Hmi.
    + constructor; cbn.
      * exact Hord.
      * intros s' e' H. destruct (Hsp s' e' H) as (? & ? & ?).
        repeat split; [lia|lia|assumption].
      * pose proof (block_start_le content i).
        repeat split; [assumption|exists i; split; [lia|exact Hmi]| |].
        -- destruct (Hsp s' e' H0) as (? & ? & m & ? & Hm).
           apply match_stops_walk in Hm.
           pose proof (block_start_above_stop content i m ltac:(lia) Hm). lia.
        -- destruct (Hsp s' e' H0) as (? & ? & ?). lia.
      * intros j Hj Hmj.
        destruct (Nat.eq_dec j i) as [->|ne].
        -- right. eexists. split; [reflexivity|apply block_start_le].
        -- destruct (Hcov j ltac:(lia) Hmj) as [H|(s0 & [=] & _)]. now left.
    + constructor; cbn.
      * exact Hord.
      * intros s' e' H. destruct (Hsp s' e' H) as (? & ? & ?).
        repeat split; [lia|lia|assumption].
      * exact I.
      * intros j Hj Hmj.
        destruct (Nat.eq_dec j i) as [->|ne]; [congruence|].
        apply Hcov; [lia|exact Hmj].
Qed.

Lemma scan_from_inv (pre rest : list string) (st : scan_state) :
  content = pre ++ rest ->
  scan_inv ms content (List.length pre) st ->
  scan_inv ms content (List.length content)
           (scan_from ms content (List.length pre) rest st).
Proof.
  revert pre st. induction rest as [|l rest IH]; intros pre st Hc Hinv.
  - cbn [scan_from].
    replace (List.length content) with (List.length pre)
      by (rewrite Hc, app_nil_r; reflexivity).
    exact Hinv.
  - cbn [scan_from].
    replace (S (List.length pre)) with (List.length (pre ++ [l]))
      by (rewrite length_app; cbn; lia).
    apply IH; [rewrite Hc; now rewrite <- app_assoc|].
    rewrite length_app, Nat.add_1_r.
    replace l with (nth (List.length pre) content EmptyString) at 1
      by (rewrite Hc; apply nth_middle_app).
    now apply scan_step_inv.
Qed.

Lemma scan_invariant : scan_inv ms content (List.length content) (scan ms content).
Proof. apply (scan_from_inv [] content); [reflexivity|apply scan_inv_init]. Qed.

End Invariant.

(** * The recorded spans at the end of the scan *)

Section Spans.

Variable ms : string -> bool.
Hypothesis ms_not_comment : forall l, ms l = true -> is_comment l = false.
Variable content : list string.

(** The spans are ordered, lie inside the buffer, and cover every
    directive line unless the scan ended on a bare directive. *)
Lemma spans_facts :
  ordered (spans ms content)
  /\ (forall s e, In (s, e) (spans ms content) ->
                  s <= e /\ e < List.length content)
  /\ (ends_on_bare_directive (scan ms content) = false ->
      forall j, j < List.length content ->
                ms (nth j content EmptyString) = true ->
                covered (spans ms content) j).
Proof.
  destruct (scan_invariant ms ms_not_comment content)
    as [Hord Hsp Hopen Hcov].
  unfold spans, close_open, ends_on_bare_directive.
  destruct (scan ms content) as [d [s|] [e|]]; cbn in *; try contradiction.
  - destruct Hopen as (Hi & Hse & Hm & Hle).
    destruct (Nat.eqb_spec s e) as [->|ne]; cbn [negb].
    + repeat split; [exact Hord|apply (Hsp _ _ H)|apply (Hsp _ _ H)|discriminate].
    + destruct (record_span ms content e s e d Hord) as (d' & _ & Ho & Hs & Hc);
        try assumption; try lia.
      { intros s' e' H. destruct (Hsp s' e' H) as (? & ? & ?).
        destruct (Hle s' e' H). repeat split; [lia|lia|assumption]. }
      repeat split; [exact Ho|apply (Hs _ _ H)| |].
      * destruct (Hs _ _ H) as (_ & ? & _). lia.
      * intros _ j Hj Hmj. apply Hc.
        destruct (Hcov j Hj Hmj) as [?|(s0 & [= <-] & ?)]; [now left|right; lia].
  - repeat split; [exact Hord|apply (Hsp _ _ H)|apply (Hsp _ _ H)|].
    intros _ j Hj Hmj.
    destruct (Hcov j Hj Hmj) as [?|(s0 & [=] & _)]. assumption.
Qed.

End Spans.

(** * Deleting ordered spans *)

Lemma Forall_skipn_nth {A} (P : A -> Prop) (n : nat) (l : list A) (d : A) :
  (forall j, n <= j -> j < List.length l -> P (nth j l d)) ->
  Forall P (skipn n l).
Proof.
  intros H. apply Forall_nth. intros i d' Hi.
  rewrite length_skipn in Hi.
  rewrite (nth_indep _ d' d) by (rewrite length_skipn; lia).
  rewrite nth_skipn. apply H; lia.
Qed.

Lemma Forall_skipn_firstn_nth {A} (P : A -> Prop) (n s : nat) (l : list A)
  (d : A) :
  (forall j, n <= j -> j < s -> j < List.length l -> P (nth j l d)) ->
  Forall P (skipn n (firstn s l)).
Proof.
  intros H. apply (Forall_skipn_nth P n _ d). intros j Hn Hj.
  rewrite length_firstn in Hj. rewrite nth_firstn.
  replace (j <? s) with true by (symmetry; apply Nat.ltb_lt; lia).
  apply H; lia.
Qed.

Lemma Forall_skipn_keep {A} (P : A -> Prop) (n : nat) (l : list A) :
  Forall P l -> Forall P (skipn n l).
Proof.
  intros H. rewrite <- (firstn_skipn n l) in H.
  now apply Forall_app in H as [_ H].
Qed.

Section Deletion.

Variable ms : string -> bool.

(** Deleting ordered spans from the last to the first leaves the lines
    below the first start alone, and leaves no directive among the lines
    from [Nat.max k x] on, when every directive line from [k] on is below
    [x] or in a span. *)
Lemma delete_spans_clears (d : Py.dict) :
  ordered d ->
  forall (ls : list string) (k x : nat),
    (forall s e, In (s, e) d ->
                 k <= s /\ s <= e /\ e < List.length ls /\ x <= S e) ->
    (forall j, k <= j -> j < List.length ls ->
               ms (nth j ls EmptyString) = true -> j < x \/ covered d j) ->
    firstn k (delete_spans d ls) = firstn k ls
    /\ no_match ms (skipn (Nat.max k x) (delete_spans d ls)).
Proof.
  induction d as [|[s e] d IH]; intros Hord ls k x Hb Hcov.
  - rewrite delete_spans_nil. split; [reflexivity|].
    apply (Forall_skipn_nth _ _ _ EmptyString). intros j Hj Hlen.
    destruct (ms (nth j ls EmptyString)) eqn:E; [|reflexivity].
    destruct (Hcov j ltac:(lia) Hlen E) as [?|(? & ? & [] & _)]. lia.
  - rewrite delete_spans_cons.
    destruct (Hb s e (or_introl eq_refl)) as (Hks & Hse & Hel & Hxe).
    destruct (IH (ordered_tail _ _ Hord) ls (S s) (S e)) as [Hfirst Hclear].
    { intros s' e' H.
      destruct (ordered_head _ (s', e') _ Hord H) as [H1 H2]. cbn in H1, H2.
      destruct (Hb s' e' (or_intror H)) as (_ & ? & ? & _). lia. }
    { intros j Hj Hlen E.
      destruct (Hcov j ltac:(lia) Hlen E) as [?|(s' & e' & [[= <- <-]|H] & ?)];
        [left; lia|left; lia|right; now exists s', e']. }
    rewrite Nat.max_r in Hclear by lia.
    set (rest := delete_spans d ls) in *.
    assert (Hs : firstn s rest = firstn s ls).
    { rewrite <- (Nat.min_l s (S s)) by lia.
      rewrite <- !firstn_firstn. now rewrite Hfirst. }
    unfold Py.del_slice. rewrite Nat.max_r by lia. rewrite Hs.
    assert (Hlen : List.length (firstn s ls) = s)
      by (rewrite length_firstn; lia).
    split.
    + rewrite firstn_app, Hlen.
      replace (k - s) with 0 by lia. cbn [firstn]. rewrite app_nil_r.
      rewrite firstn_firstn. f_equal. lia.
    + rewrite skipn_app, Hlen. apply Forall_app. split.
      * apply (Forall_skipn_firstn_nth _ _ _ _ EmptyString).
        intros j Hj Hjs Hjl.
        destruct (ms (nth j ls EmptyString)) eqn:E; [|reflexivity].
        destruct (Hcov j ltac:(lia) Hjl E)
          as [?|(s' & e' & [[= <- <-]|H] & ?)]; [lia|lia|].
        destruct (ordered_head _ (s', e') _ Hord H) as [H1 _]. cbn in H1. lia.
      * rewrite skipn_skipn. replace (e + 1) with (S e) by lia.
        replace (Nat.max k x - s + S e) with ((Nat.max k x - s) + S e) by lia.
        rewrite <- skipn_skipn. now apply Forall_skipn_keep.
Qed.

End Deletion.

(** No directive line is left by the deletion, unless the scan ended on a
    bare directive. *)
Lemma remove_blocks_clear (removing : string) (ms : string -> bool)
  (content : list string) :
  ms_match removing = Some ms ->
  ends_on_bare_directive (scan ms content) = false ->
  no_match ms (remove_blocks ms content).
Proof.
  intros Hms Hbare.
  destruct (spans_facts ms (fun l => ms_match_not_comment removing ms l Hms)
              content) as (Hord & Hb & Hcov).
  destruct (delete_spans_clears ms _ Hord content 0 0) as [_ H].
  - intros s e Hin. destruct (Hb s e Hin). lia.
  - intros j _ Hj E. right. now apply Hcov.
  - exact H.
Qed.

(** * One block per identifier *)

Lemma count_matches_app (ms : string -> bool) (a b : list string) :
  count_matches ms (a ++ b) = count_matches ms a + count_matches ms b.
Proof. unfold count_matches. now rewrite filter_app, length_app. Qed.

Lemma count_matches_none (ms : string -> bool) (ls : list string) :
  no_match ms ls -> count_matches ms ls = 0.
Proof.
  unfold count_matches. induction 1 as [|l ls Hl _ IH]; [reflexivity|].
  cbn [filter]. now rewrite Hl.
Qed.

Lemma ms_match_not_blank (removing : string) (ms : string -> bool) :
  ms_match removing = Some ms -> ms EmptyString = false.
Proof.
  unfold ms_match. destruct (mount_pattern removing) as [p|] eqn:Hp;
    [|discriminate].
  intros [= <-]. apply mount_pattern_shape in Hp as (ident & _ & ->).
  reflexivity.
Qed.

(** C2 (counterexample).  The last line of [bare_directive_buffer] is a
    directive for A that is an open span by itself; no span is recorded for
    it, it is not deleted, and after the new block is appended two lines
    match the pattern. *)
Lemma last_line_directive_survives :
  matcher "A" (nth 1 bare_directive_buffer EmptyString) = true
  /\ spans (matcher "A") bare_directive_buffer = []
  /\ count_matches (matcher "A")
       (swap_lines (matcher "A") bare_directive_buffer block_text_A) = 2.
Proof. repeat split; reflexivity. Qed.

(** C2 (amended).  Let exactly one line of [new_text] match the directive
    pattern of the identifier, and let the scan of the buffer not end on a
    directive line that is an open span by itself (a bare directive on the
    last line).  Then no line kept from the buffer matches the pattern, and
    exactly one line of the result does. *)
Theorem single_block_after_swap :
  forall (removing : string) (ms : string -> bool) (original : list string)
         (adding : string),
    ms_match removing = Some ms ->
    count_matches ms (Py.split_nl adding) = 1 ->
    ends_on_bare_directive (scan ms original) = false ->
    no_match ms (remove_blocks ms original)
    /\ count_matches ms (swap_lines ms original adding) = 1.
Proof.
  intros removing ms original adding Hms Hadd Hbare.
  pose proof (remove_blocks_clear removing ms original Hms Hbare) as Hclear.
  split; [exact Hclear|].
  unfold swap_lines. destruct adding as [|c adding].
  - cbn in Hadd. rewrite (ms_match_not_blank _ _ Hms) in Hadd. discriminate.
  - cbn [String.length Nat.ltb Nat.leb].
    now rewrite count_matches_app, (count_matches_none _ _ Hclear).
Qed.

Lemma single_block_after_swap_witness :
  count_matches (matcher "A")
    (swap_lines (matcher "A") adjacent_buffer block_text_A) = 1.
Proof.
  exact (proj2 (single_block_after_swap "A" (matcher "A") adjacent_buffer
                  block_text_A eq_refl eq_refl eq_refl)).
Defined.

(** * A block still open at the end of the buffer *)

(** C6 (counterexample).  In [bare_directive_buffer] the block opened by
    the directive on the last line is still open when the buffer ends; the
    open span is that line alone, nothing is recorded and the buffer comes
    back unchanged. *)
Lemma bare_directive_is_not_deleted :
  remove_starting_at_index (scan (matcher "A") bare_directive_buffer) = Some 1
  /\ remove_ending_at_index (scan (matcher "A") bare_directive_buffer) = Some 1
  /\ spans (matcher "A") bare_directive_buffer = []
  /\ swap_lines (matcher "A") bare_directive_buffer EmptyString
     = bare_directive_buffer.
Proof. repeat split; reflexivity. Qed.

(** C6 (amended).  When a block is still open at the end of the buffer, its
    span ends at the last line.  If the span starts above the last line it
    is recorded as the last entry of the boneyard and deleted first, as a
    whole: the result is what the earlier spans leave of the lines above its
    start.  If the span is the directive on the last line alone, no span is
    recorded for it. *)
Theorem trailing_open_block :
  forall (removing : string) (ms : string -> bool) (content : list string)
         (s e : nat),
    ms_match removing = Some ms ->
    remove_starting_at_index (scan ms content) = Some s ->
    remove_ending_at_index (scan ms content) = Some e ->
    S e = List.length content /\ s <= e
    /\ (s < e ->
        exists d, spans ms content = d ++ [(s, e)]
                  /\ remove_blocks ms content
                     = delete_spans d (firstn s content))
    /\ (s = e -> spans ms content = boneyard (scan ms content)).
Proof.
  intros removing ms content s e Hms Hs He.
  destruct (scan_invariant ms (fun l => ms_match_not_comment removing ms l Hms)
              content) as [Hord Hsp Hopen _].
  unfold remove_blocks, spans, close_open. rewrite Hs, He in *.
  destruct Hopen as (Hi & Hse & Hm & Hle).
  repeat split; [exact Hi|exact Hse| |].
  - intros Hlt.
    destruct (dict_set_last s e _ Hord Hle) as (d & Hset & _).
    exists d. replace (s =? e) with false by (symmetry; apply Nat.eqb_neq; lia).
    cbn [negb]. rewrite Hset. split; [reflexivity|].
    rewrite delete_spans_snoc. f_equal. unfold Py.del_slice.
    rewrite Nat.max_r by lia.
    rewrite skipn_all2 by lia. apply app_nil_r.
  - intros ->. now rewrite Nat.eqb_refl.
Qed.

Lemma trailing_open_block_witness :
  exists d, spans (matcher "A") open_block_buffer = d ++ [(1, 4)]
            /\ remove_blocks (matcher "A") open_block_buffer
               = delete_spans d (firstn 1 open_block_buffer).
Proof.
  refine (proj1 (proj2 (proj2 (trailing_open_block "A" (matcher "A")
            open_block_buffer 1 4 eq_refl eq_refl eq_refl))) _).
  lia.
Defined.

(** * Applying the editor twice *)

Lemma split_nl_nonempty (adding : string) (l1 l2 : string)
  (ls : list string) :
  Py.split_nl adding = l1 :: l2 :: ls -> (0 <? String.length adding) = true.
Proof. destruct adding; [discriminate|reflexivity]. Qed.

(** * The span bookkeeping *)

(** C10 (the code at the failing input).  In [touching_buffer] the first
    block of A is ended by the blank line at index 2; the walk back from the
    second directive of A stops at that same blank line and makes it the
    start of the second span.  The spans [0..2] and [2..5] share line 2.
    Deleting [2..5] first moves the lines behind it up, and deleting
    [0..2] then takes the directive of B, which is in no span. *)
Theorem overlapping_spans_delete_too_much :
  spans (matcher "A") touching_buffer = [(0, 2); (2, 5)]
  /\ ~ covered (spans (matcher "A") touching_buffer) 6
  /\ nth 6 touching_buffer EmptyString = "MOUNT FILESYSTEM('B')"
  /\ swap_lines (matcher "A") touching_buffer EmptyString
     = ["      MOUNTPOINT('/b')"].
Proof.
  split; [reflexivity|]. split; [|split; reflexivity].
  intros (s & e & Hin & Hj).
  destruct Hin as [[= <- <-]|[[= <- <-]|[]]]; lia.
Qed.

(** The part of the invariant that does hold: every recorded span starts
    at or below its end and ends inside the buffer, and the starts grow
    along the insertion order. *)
Lemma spans_well_formed (removing : string) (ms : string -> bool)
  (content : list string) :
  ms_match removing = Some ms ->
  ordered (spans ms content)
  /\ forall s e, In (s, e) (spans ms content) ->
                 s <= e /\ e < List.length content.
Proof.
  intros Hms.
  destruct (spans_facts ms (fun l => ms_match_not_comment removing ms l Hms)
              content) as (Hord & Hb & _).
  split; assumption.
Qed.

(** * Matching the directive *)

Lemma upper_char_dollar (c : ascii) :
  Ascii.eqb (Py.upper_char c) "$" = Ascii.eqb c "$".
Proof. destruct c as [[] [] [] [] [] [] [] []]; reflexivity. Qed.

Lemma has_dollar_upper (s : string) :
  has_char "$" (Py.upper s) = has_char "$" s.
Proof.
  induction s as [|c s IH]; [reflexivity|].
  cbn [Py.upper has_char]. now rewrite upper_char_dollar, IH.
Qed.

(** * Writing the member back *)

(** A [str] and a [list] are never equal. *)
Lemma write_back_always_writes (content : list string) (parmtext src : string)
  (r : write_back_result) :
  write_back content parmtext src = Some r ->
  exists content',
    swap_text content parmtext src = Some (Py.join_nl content', content')
    /\ r = Written (Py.join_nl content').
Proof.
  unfold write_back, swap_text.
  destruct (ms_match src) as [ms|]; [|discriminate].
  cbn. intros [= <-]. eexists. split; reflexivity.
Qed.

(** C3 (the code at the failing input).  For the member [["X"]], an
    identifier without a block in it and nothing to add, the editor returns
    the text of the member as it was read, and the text is written back all
    the same: the comparison is between a [str] and a [list], and no
    member, text or identifier makes it come out equal. *)
Theorem unchanged_member_is_written :
  swap_text ["X"] EmptyString "A" = Some ("X", ["X"])
  /\ Py.value_neb (Py.VStr "X") (Py.VList ["X"]) = true
  /\ write_back ["X"] EmptyString "A" = Some (Written "X")
  /\ forall (content : list string) (parmtext src : string),
       write_back content parmtext src <> Some NotWritten.
Proof.
  repeat split; try reflexivity.
  intros content parmtext src H.
  apply write_back_always_writes in H as (content' & _ & H). discriminate.
Qed.

(** * Wrapping the comment lines *)




Lemma substring_all (t : string) : substring 0 (String.length t) t = t.
Proof. induction t as [|c t IH]; cbn; [reflexivity|now rewrite IH]. Qed.



Lemma length_substring_le (n m : nat) (s : string) :
  String.length (substring n m s) <= String.length s - n.
Proof.
  revert n m. induction s as [|c s IH]; intros [|n] [|m]; cbn; try lia.
  - specialize (IH 0 m). lia.
  - apply IH.
  - apply IH.
Qed.

Lemma length_substring_budget (m : nat) (s : string) :
  String.length (substring 0 m s) <= m.
Proof.
  revert s. induction m as [|m IH]; intros [|c s]; cbn; try lia.
  specialize (IH s). lia.
Qed.


(** The scan for a space from index 59 down to index 49. *)
Lemma find_stopper_spec (extra : string) (i n : nat) :
  n <= i + 1 ->
  (find_stopper extra i n = 60
   /\ forall j, i + 1 - n <= j <= i -> String.get j extra <> Some " "%char)
  \/ (i + 1 - n <= find_stopper extra i n <= i
      /\ String.get (find_stopper extra i n) extra = Some " "%char
      /\ forall j, find_stopper extra i n < j <= i ->
                   String.get j extra <> Some " "%char).
Proof.
  revert i. induction n as [|n IH]; intros i Hn.
  - left. split; [reflexivity|]. intros j Hj. lia.
  - cbn [find_stopper].
    assert (Hrec : forall j, i + 1 - S n <= j <= i -> j <> i ->
                             i - 1 + 1 - n <= j <= i - 1) by (intros; lia).
    destruct (String.get i extra) as [c|] eqn:Hg.
    + destruct (Ascii.eqb_spec c " ") as [->|ne].
      * right. repeat split; [lia|lia|exact Hg|]. intros j Hj. lia.
      * destruct (IH (i - 1) ltac:(lia)) as [[H60 Hno]|(Hr & Hsp & Hno)].
        -- left. split; [exact H60|]. intros j Hj.
           destruct (Nat.eq_dec j i) as [->|Hji];
             [rewrite Hg; congruence|apply Hno, Hrec; assumption].
        -- right. repeat split; [lia|lia|exact Hsp|]. intros j Hj.
           destruct (Nat.eq_dec j i) as [->|Hji];
             [rewrite Hg; congruence|apply Hno; lia].
    + destruct (IH (i - 1) ltac:(lia)) as [[H60 Hno]|(Hr & Hsp & Hno)].
      * left. split; [exact H60|]. intros j Hj.
        destruct (Nat.eq_dec j i) as [->|Hji];
          [rewrite Hg; discriminate|apply Hno, Hrec; assumption].
      * right. repeat split; [lia|lia|exact Hsp|]. intros j Hj.
        destruct (Nat.eq_dec j i) as [->|Hji];
          [rewrite Hg; discriminate|apply Hno; lia].
Qed.

Lemma stopper_spec (extra : string) :
  (stopper extra = 60
   /\ forall j, 49 <= j <= 59 -> String.get j extra <> Some " "%char)
  \/ (49 <= stopper extra <= 59
      /\ String.get (stopper extra) extra = Some " "%char
      /\ forall j, stopper extra < j <= 59 ->
                   String.get j extra <> Some " "%char).
Proof. exact (find_stopper_spec extra 59 11 ltac:(lia)). Qed.



Lemma length_lstrip_le (s : string) :
  String.length (Py.lstrip s) <= String.length s.
Proof.
  induction s as [|c s IH]; cbn; [lia|]. destruct (Py.isspace c); cbn; lia.
Qed.

Lemma length_rstrip_le (s : string) :
  String.length (Py.rstrip s) <= String.length s.
Proof.
  induction s as [|c s IH]; cbn; [lia|].
  destruct (Py.rstrip s); [destruct (Py.isspace c)|]; cbn in *; lia.
Qed.

Lemma length_strip_le (s : string) :
  String.length (Py.strip s) <= String.length s.
Proof.
  unfold Py.strip. pose proof (length_rstrip_le (Py.lstrip s)).
  pose proof (length_lstrip_le s). lia.
Qed.






Lemma stopper_range (extra : string) : 49 <= stopper extra <= 60.
Proof.
  destruct (stopper_spec extra) as [[H _]|(Hr & _)]; lia.
Qed.

Lemma emit_comment_long (parmtext extra : string) (ctr : nat) :
  60 < String.length extra ->
  emit_comment parmtext extra ctr
  = ((parmtext ++ comment_open ctr
      ++ substring 0 (stopper extra) extra ++ comment_close)%string,
     Py.strip (substring (stopper extra)
                         (String.length extra - stopper extra) extra)).
Proof.
  intros H. unfold emit_comment, Py.slice, Py.slice_from.
  replace (60 <? String.length extra) with true
    by (symmetry; now apply Nat.ltb_lt).
  now rewrite Nat.sub_0_r.
Qed.

Lemma emit_comment_short (parmtext extra : string) (ctr : nat) :
  String.length extra <= 60 ->
  emit_comment parmtext extra ctr
  = ((parmtext ++ comment_open ctr ++ extra ++ comment_close)%string,
     EmptyString).
Proof.
  intros H. unfold emit_comment.
  now replace (60 <? String.length extra) with false
    by (symmetry; apply Nat.ltb_ge; lia).
Qed.

(** The overflow loop ends: each round shortens [extra]. *)
Lemma overflow_loop_total (fuel : nat) (parmtext extra : string) (ctr : nat) :
  String.length extra <= fuel ->
  exists st, overflow_loop fuel (parmtext, extra, ctr) = Some st.
Proof.
  revert parmtext extra ctr.
  induction fuel as [|fuel IH]; intros parmtext extra ctr Hlen.
  - destruct extra; [eexists; reflexivity|cbn in Hlen; lia].
  - cbn [overflow_loop].
    destruct (0 <? String.length extra) eqn:E; [|eexists; reflexivity].
    destruct (Nat.le_gt_cases (String.length extra) 60) as [Hs|Hl].
    + rewrite (emit_comment_short _ _ _ Hs). apply IH. cbn. lia.
    + rewrite (emit_comment_long _ _ _ Hl). apply IH.
      pose proof (length_strip_le
        (substring (stopper extra) (String.length extra - stopper extra) extra)).
      pose proof (length_substring_le (stopper extra)
        (String.length extra - stopper extra) extra).
      pose proof (stopper_range extra). lia.
Qed.

(** The comment builder always returns a text. *)
Lemma add_comments_total (parmtext : string) (tabcomment : option (list string)) :
  exists parmtext', add_comments parmtext tabcomment = Some parmtext'.
Proof.
  destruct tabcomment as [tablines|]; [|eexists; reflexivity].
  unfold add_comments.
  destruct (fold_left tabline_step tablines (parmtext, EmptyString, 1))
    as [[p extra] ctr].
  destruct (overflow_loop_total (String.length extra) p extra ctr (le_n _))
    as [[[p' e'] c'] H].
  cbn [fst snd]. rewrite H. eexists. reflexivity.
Qed.


(** * Further properties of swap_text *)

Lemma subseq_refl {A} (l : list A) : subseq l l.
Proof. induction l; [apply subseq_nil|now apply subseq_keep]. Qed.

Lemma subseq_nil_l {A} (l : list A) : subseq [] l.
Proof. induction l; [apply subseq_nil|now apply subseq_skip]. Qed.

Lemma subseq_app {A} (a a' b b' : list A) :
  subseq a a' -> subseq b b' -> subseq (a ++ b) (a' ++ b').
Proof.
  induction 1 as [|x l1 l2 H IH|x l1 l2 H IH]; intros Hb; cbn.
  - exact Hb.
  - apply subseq_skip. now apply IH.
  - apply subseq_keep. now apply IH.
Qed.

Lemma subseq_trans {A} (a b c : list A) :
  subseq a b -> subseq b c -> subseq a c.
Proof.
  intros Hab Hbc. revert a Hab.
  induction Hbc as [|x b c Hbc IH|x b c Hbc IH]; intros a Hab.
  - exact Hab.
  - apply subseq_skip. now apply IH.
  - inversion Hab as [|y a1 b1 H1|y a1 b1 H1]; subst.
    + apply subseq_skip. now apply IH.
    + apply subseq_keep. now apply IH.
Qed.

Lemma subseq_skipn {A} (n : nat) (l : list A) : subseq (skipn n l) l.
Proof.
  revert l. induction n as [|n IH]; intros [|x l]; cbn;
    try apply subseq_refl.
  apply subseq_skip. apply IH.
Qed.

Lemma subseq_Forall {A} (P : A -> Prop) (a b : list A) :
  subseq a b -> Forall P b -> Forall P a.
Proof.
  induction 1; intros Hb; [constructor| |]; inversion Hb; subst; auto.
Qed.

Lemma subseq_length {A} (a b : list A) :
  subseq a b -> List.length a <= List.length b.
Proof. induction 1; cbn; lia. Qed.

Lemma del_slice_subseq {A} (lo hi : nat) (l : list A) :
  subseq (Py.del_slice lo hi l) l.
Proof.
  unfold Py.del_slice.
  rewrite <- (firstn_skipn lo l) at 3.
  apply subseq_app; [apply subseq_refl|].
  replace (Nat.max lo hi) with ((Nat.max lo hi - lo) + lo) by lia.
  rewrite <- skipn_skipn. apply subseq_skipn.
Qed.

Lemma delete_spans_subseq (d : Py.dict) (ls : list string) :
  subseq (delete_spans d ls) ls.
Proof.
  induction d as [|[s e] d IH].
  - apply subseq_refl.
  - rewrite delete_spans_cons.
    eapply subseq_trans; [apply del_slice_subseq|exact IH].
Qed.

(** X2.  The lines that the deletion keeps are lines of the buffer, in the
    order of the buffer: [swap_text] invents no line and moves none.  What
    it returns is those lines followed by the lines of [adding]. *)
Theorem swap_text_keeps_order :
  forall (removing : string) (original : list string) (adding text : string)
         (content_lines : list string),
    swap_text original adding removing = Some (text, content_lines) ->
    exists kept,
      subseq kept original
      /\ content_lines
         = kept ++ (if 0 <? String.length adding then Py.split_nl adding
                    else [])
      /\ text = Py.join_nl content_lines.
Proof.
  intros removing original adding text content_lines H.
  unfold swap_text in H. destruct (ms_match removing) as [ms|]; [|discriminate].
  injection H as <- <-. exists (remove_blocks ms original).
  split; [apply delete_spans_subseq|]. split; [|reflexivity].
  unfold swap_lines. destruct (0 <? String.length adding);
    [reflexivity|now rewrite app_nil_r].
Qed.

Lemma swap_text_keeps_order_witness :
  exists kept,
    subseq kept touching_buffer
    /\ ["      MOUNTPOINT('/b')"] = kept ++ []
    /\ "      MOUNTPOINT('/b')" = Py.join_nl ["      MOUNTPOINT('/b')"].
Proof.
  exact (swap_text_keeps_order "A" touching_buffer EmptyString _ _ eq_refl).
Defined.

Lemma scan_without_directive (ms : string -> bool) (content : list string) :
  no_match ms content -> scan ms content = scan_init.
Proof. intros H. now apply scan_closed_skip. Qed.

(** X1.  When no line of the buffer matches the directive pattern,
    [swap_text] deletes nothing: with an empty [adding] the buffer comes
    back as it is, otherwise the lines of [adding] are put behind it. *)
Theorem swap_text_without_directive :
  forall (removing : string) (ms : string -> bool) (original : list string)
         (adding : string),
    ms_match removing = Some ms ->
    no_match ms original ->
    swap_text original EmptyString removing
    = Some (Py.join_nl original, original)
    /\ (adding <> EmptyString ->
        swap_text original adding removing
        = Some (Py.join_nl (original ++ Py.split_nl adding),
                original ++ Py.split_nl adding)).
Proof.
  intros removing ms original adding Hms Hclear.
  assert (Hkeep : remove_blocks ms original = original).
  { unfold remove_blocks, spans.
    now rewrite (scan_without_directive _ _ Hclear). }
  rewrite !(swap_text_lines _ _ _ _ Hms). unfold swap_lines. rewrite Hkeep.
  split; [reflexivity|]. intros Hne.
  destruct adding; [congruence|reflexivity].
Qed.

Lemma swap_text_without_directive_witness :
  swap_text ["HEAD"; "TAIL"] EmptyString "NONEXISTENT"
  = Some (Py.join_nl ["HEAD"; "TAIL"], ["HEAD"; "TAIL"]).
Proof.
  refine (proj1 (swap_text_without_directive "NONEXISTENT" _ ["HEAD"; "TAIL"]
                   EmptyString eq_refl _)).
  repeat constructor.
Defined.

Lemma del_slice_prefix {A} (k lo hi : nat) (l : list A) :
  k <= lo -> firstn k (Py.del_slice lo hi l) = firstn k l.
Proof.
  intros Hk. unfold Py.del_slice.
  destruct (Nat.le_gt_cases lo (List.length l)) as [Hl|Hl].
  - rewrite firstn_app, length_firstn, Nat.min_l by exact Hl.
    replace (k - lo) with 0 by lia. cbn [firstn].
    rewrite app_nil_r, firstn_firstn. f_equal. lia.
  - replace (firstn lo l) with l by (symmetry; apply firstn_all2; lia).
    replace (skipn (Nat.max lo hi) l) with (@nil A)
      by (symmetry; apply skipn_all2; lia).
    now rewrite app_nil_r.
Qed.

Lemma delete_spans_prefix (d : Py.dict) (k : nat) (ls : list string) :
  (forall s e, In (s, e) d -> k <= s) ->
  firstn k (delete_spans d ls) = firstn k ls.
Proof.
  induction d as [|[s e] d IH]; intros Hk; [reflexivity|].
  rewrite delete_spans_cons, del_slice_prefix.
  - apply IH. intros s' e' H. apply (Hk s' e'). now right.
  - apply (Hk s e). now left.
Qed.

(** X3.  The lines above the recorded spans stay where they are: if no
    span starts above index [k], the first [k] lines of the result are the
    first [k] lines of the buffer. *)
Theorem lines_above_spans_stay :
  forall (removing : string) (ms : string -> bool) (original : list string)
         (adding : string) (k : nat),
    ms_match removing = Some ms ->
    k <= List.length original ->
    (forall s e, In (s, e) (spans ms original) -> k <= s) ->
    firstn k (swap_lines ms original adding) = firstn k original.
Proof.
  intros removing ms original adding k _ Hlen Hk.
  pose proof (delete_spans_prefix _ k original Hk) as Hpre.
  fold (remove_blocks ms original) in Hpre.
  assert (Hkept : k <= List.length (remove_blocks ms original)).
  { rewrite <- (firstn_skipn k (remove_blocks ms original)), length_app, Hpre.
    rewrite length_firstn. lia. }
  unfold swap_lines. destruct (0 <? String.length adding); [|exact Hpre].
  rewrite firstn_app. replace (k - _) with 0 by lia.
  cbn [firstn]. now rewrite app_nil_r.
Qed.

Lemma lines_above_spans_stay_witness :
  firstn 1 (swap_lines (matcher "A") adjacent_buffer block_text_A)
  = firstn 1 adjacent_buffer.
Proof.
  refine (lines_above_spans_stay "A" (matcher "A") adjacent_buffer
            block_text_A 1 eq_refl _ _).
  - cbn. lia.
  - intros s e H. change (In (s, e) [(1, 4)]) in H.
    destruct H as [[= <- <-]|[]]. lia.
Defined.

(** X4.  Whatever the buffer, the spans of the boneyard are well formed:
    every span starts at or below its end, ends inside the buffer and holds
    a line that the pattern matches; along the insertion order the starts
    grow, and so do the ends. *)
Theorem boneyard_spans_well_formed :
  forall (removing : string) (ms : string -> bool) (content : list string),
    ms_match removing = Some ms ->
    ordered (spans ms content)
    /\ forall s e, In (s, e) (spans ms content) ->
                   s <= e /\ e < List.length content
                   /\ holds_match ms content s e.
Proof.
  intros removing ms content Hms.
  pose proof (fun l => ms_match_not_comment removing ms l Hms) as Hnc.
  destruct (spans_facts ms Hnc content) as (Hord & Hb & _).
  split; [exact Hord|]. intros s e Hin.
  destruct (Hb s e Hin) as [Hse He]. repeat split; [exact Hse|exact He|].
  destruct (scan_invariant ms Hnc content) as [Ho Hsp Hopen _].
  revert Hin. unfold spans, close_open.
  destruct (scan ms content) as [d [s0|] [e0|]]; cbn in *; try contradiction;
    try (intros Hin; now apply Hsp in Hin).
  destruct Hopen as (Hi & Hse0 & Hm & Hle).
  destruct (negb (s0 =? e0)); [|intros Hin; now apply Hsp in Hin].
  destruct (record_span ms content e0 s0 e0 d Ho) as (_ & _ & _ & Hs & _);
    try assumption; try lia.
  { intros s' e' H. destruct (Hsp s' e' H) as (? & ? & ?).
    destruct (Hle s' e' H). repeat split; [lia|lia|assumption]. }
  intros Hin. now apply Hs in Hin.
Qed.

Lemma boneyard_spans_well_formed_witness :
  ordered (spans (matcher "A") touching_buffer).
Proof.
  exact (proj1 (boneyard_spans_well_formed "A" (matcher "A") touching_buffer
                  eq_refl)).
Defined.


(** * Further properties of the directive pattern *)

Section PatternMore.

Import Regex.

Lemma of_identifier_plain (s : string) :
  is_plain_identifier s = true -> of_identifier s = Some (lits s).
Proof.
  induction s as [|c s IH]; [reflexivity|]. cbn [is_plain_identifier].
  intros H. repeat (apply andb_prop in H as [H ?]).
  cbn [of_identifier lits]. rewrite IH by assumption.
  destruct (unsupported c); [discriminate|].
  destruct (Ascii.eqb c "."); [discriminate|].
  destruct (Ascii.eqb c "$"); [discriminate|]. reflexivity.
Qed.

(** A plain identifier matches the quoted text of the line only when the
    two are equal. *)
Lemma matches_plain_exact (id t : string) (q : pattern) (r : string) :
  is_plain_identifier id = true -> has_char "'" t = false ->
  matches (lits id ++ Lit "'" :: q) (t ++ String "'" r)
  = String.eqb t id && matches q r.
Proof.
  revert t. induction id as [|a id IH]; intros t Hid Ht.
  - destruct t as [|c t]; cbn [lits app String.append].
    + now rewrite matches_lit.
    + cbn [has_char] in Ht. apply orb_false_elim in Ht as [Hc _].
      cbn [matches String.eqb]. now rewrite Hc.
  - cbn [is_plain_identifier] in Hid.
    apply andb_prop in Hid as [Hid Hrest].
    apply andb_prop in Hid as [_ Hq].
    destruct t as [|c t]; cbn [lits app String.append].
    + cbn [matches String.eqb]. rewrite Ascii.eqb_sym.
      now destruct (Ascii.eqb a "'").
    + cbn [has_char] in Ht. apply orb_false_elim in Ht as [_ Ht].
      change (matches (Lit a :: lits id ++ Lit "'" :: q)
                (String c (t ++ String "'" r)))
        with (Ascii.eqb c a
              && matches (lits id ++ Lit "'" :: q) (t ++ String "'" r)).
      rewrite (IH t Hrest Ht). cbn [String.eqb]. apply andb_assoc.
Qed.

Lemma matches_spaces_skip (c : ascii) (q : pattern) (s : string) :
  Py.isspace c = false ->
  matches (Spaces :: q) (String c s) = matches q (String c s).
Proof.
  intros H. rewrite matches_spaces, H. apply orb_false_r.
Qed.


Lemma has_char_app (c : ascii) (a b : string) :
  has_char c (a ++ b) = has_char c a || has_char c b.
Proof.
  induction a as [|x a IH]; cbn; [reflexivity|].
  now rewrite IH, orb_assoc.
Qed.


End PatternMore.

(** X5.  For an identifier made of characters that stand for themselves
    (no [.], no [$], no quote), a directive line
    [MOUNT FILESYSTEM('<name>')] is matched exactly when [<name>] is the
    identifier in upper case: a longer or a shorter name does not match. *)
Theorem directive_name_is_exact :
  forall (removing : string) (p : Regex.pattern) (t rest : string),
    mount_pattern removing = Some p ->
    is_plain_identifier (Py.upper removing) = true ->
    has_char "'" t = false ->
    Regex.matches p ("MOUNT FILESYSTEM('" ++ t ++ "')" ++ rest)%string
    = String.eqb t (Py.upper removing).
Proof.
  intros removing p t rest Hp Hplain Ht.
  apply mount_pattern_shape in Hp as (ident & Hid & ->).
  rewrite (of_identifier_plain _ Hplain) in Hid. injection Hid as <-.
  change ("MOUNT FILESYSTEM('" ++ t ++ "')" ++ rest)%string
    with ("MOUNT" ++ String " " ("FILESYSTEM("
          ++ String "'" (t ++ String "'" (String ")" rest))))%string.
  change ("MOUNT" ++ ?x)%string with (String "M" ("OUNT" ++ x))%string.
  rewrite matches_spaces_skip by reflexivity.
  change (String "M" ("OUNT" ++ ?x))%string with ("MOUNT" ++ x)%string.
  rewrite matches_lits.
  change (Regex.matches (Regex.Space :: ?q) (String " " ?x))
    with (Py.isspace " " && Regex.matches q x).
  change (Py.isspace " ") with true. cbn [andb].
  change ("FILESYSTEM(" ++ ?x)%string
    with (String "F" ("ILESYSTEM(" ++ x))%string.
  rewrite matches_spaces_skip by reflexivity.
  change (String "F" ("ILESYSTEM(" ++ ?x))%string
    with ("FILESYSTEM(" ++ x)%string.
  rewrite matches_lits.
  rewrite matches_spaces_skip by reflexivity.
  rewrite matches_lit.
  rewrite (matches_plain_exact _ _ _ _ Hplain Ht).
  rewrite matches_spaces_skip by reflexivity.
  rewrite matches_lit. apply andb_true_r.
Qed.

Lemma directive_name_is_exact_witness :
  matcher "sys1.x" "MOUNT FILESYSTEM('SYS1')" = false
  /\ matcher "usr" "MOUNT FILESYSTEM('USR2') MODE(RDWR)" = false.
Proof.
  split.
  - reflexivity.
  - exact (directive_name_is_exact "usr" _ "USR2" " MODE(RDWR)"
             eq_refl eq_refl eq_refl).
Defined.




(** * Further properties of the comment builder *)

Lemma append_assoc (a b c : string) :
  ((a ++ b) ++ c = a ++ (b ++ c))%string.
Proof. induction a as [|x a IH]; cbn; [reflexivity|now rewrite IH]. Qed.

Lemma append_empty_r (a : string) : (a ++ "")%string = a.
Proof. induction a as [|x a IH]; cbn; [reflexivity|now rewrite IH]. Qed.

Lemma visible_app (a b : string) :
  visible (a ++ b) = (visible a ++ visible b)%string.
Proof.
  induction a as [|x a IH]; cbn; [reflexivity|].
  destruct (Py.isspace x); cbn; now rewrite IH.
Qed.

Lemma visible_lstrip (s : string) : visible (Py.lstrip s) = visible s.
Proof.
  induction s as [|c s IH]; cbn; [reflexivity|].
  destruct (Py.isspace c) eqn:E; [exact IH|]. cbn. now rewrite E.
Qed.

Lemma visible_cons (c : ascii) (s : string) :
  visible (String c s)
  = if Py.isspace c then visible s else String c (visible s).
Proof. reflexivity. Qed.

Lemma visible_rstrip (s : string) : visible (Py.rstrip s) = visible s.
Proof.
  induction s as [|c s IH]; [reflexivity|]. cbn [Py.rstrip].
  rewrite (visible_cons c s), <- IH.
  destruct (Py.rstrip s) as [|x t].
  - destruct (Py.isspace c) eqn:Ec; [reflexivity|].
    rewrite visible_cons, Ec. reflexivity.
  - now rewrite (visible_cons c (String x t)).
Qed.

Lemma visible_strip (s : string) : visible (Py.strip s) = visible s.
Proof. unfold Py.strip. now rewrite visible_rstrip, visible_lstrip. Qed.

Lemma substring_split (k : nat) (s : string) :
  k <= String.length s ->
  s = (substring 0 k s ++ substring k (String.length s - k) s)%string.
Proof.
  revert k. induction s as [|c s IH]; intros [|k] Hk; cbn in *; try lia.
  - reflexivity.
  - now rewrite substring_all.
  - now rewrite <- IH by lia.
Qed.

Lemma all_chars_app (f : ascii -> bool) (a b : string) :
  all_chars f (a ++ b) = all_chars f a && all_chars f b.
Proof.
  induction a as [|x a IH]; cbn; [reflexivity|].
  now rewrite IH, andb_assoc.
Qed.

Lemma all_chars_substring (f : ascii -> bool) (n m : nat) (s : string) :
  all_chars f s = true -> all_chars f (substring n m s) = true.
Proof.
  revert n m. induction s as [|x s IH]; intros n m H.
  - now destruct n, m.
  - cbn [all_chars] in H. apply andb_prop in H as [Hx Hs].
    destruct n, m; cbn [substring all_chars]; rewrite ?Hx; cbn [andb]; auto.
Qed.

Lemma all_chars_lstrip (f : ascii -> bool) (s : string) :
  all_chars f s = true -> all_chars f (Py.lstrip s) = true.
Proof.
  induction s as [|x s IH]; intros H; [reflexivity|]. cbn [Py.lstrip].
  destruct (Py.isspace x); [|exact H].
  cbn [all_chars] in H. apply andb_prop in H as [_ Hs]. auto.
Qed.

Lemma all_chars_rstrip (f : ascii -> bool) (s : string) :
  all_chars f s = true -> all_chars f (Py.rstrip s) = true.
Proof.
  induction s as [|x s IH]; intros H; [reflexivity|]. cbn [Py.rstrip].
  cbn [all_chars] in H. apply andb_prop in H as [Hx Hs].
  specialize (IH Hs).
  destruct (Py.rstrip s) as [|y t].
  - destruct (Py.isspace x); cbn [all_chars]; now rewrite ?Hx.
  - cbn [all_chars] in *. now rewrite Hx, IH.
Qed.

Lemma all_chars_strip (f : ascii -> bool) (s : string) :
  all_chars f s = true -> all_chars f (Py.strip s) = true.
Proof.
  intros H. unfold Py.strip. now apply all_chars_rstrip, all_chars_lstrip.
Qed.

Lemma render_comments_app (ctr : nat) (a b : list string) :
  render_comments ctr (a ++ b)
  = (render_comments ctr a
     ++ render_comments (ctr + List.length a) b)%string.
Proof.
  revert ctr. induction a as [|x a IH]; intros ctr; cbn [app render_comments].
  - now rewrite Nat.add_0_r.
  - rewrite IH, !append_assoc. cbn [List.length].
    now replace (ctr + 1 + List.length a) with (ctr + S (List.length a)) by lia.
Qed.

Lemma join_all_app (a b : list string) :
  join_all (a ++ b) = (join_all a ++ join_all b)%string.
Proof.
  induction a as [|x a IH]; cbn; [reflexivity|].
  now rewrite IH, append_assoc.
Qed.

(** What one [if len(extra) > 60: ... else: ...] statement does: it puts
    out one chunk of at most 60 characters and keeps the rest, shorter than
    before, without losing a visible character. *)
Lemma emit_comment_spec (parmtext extra : string) (ctr : nat) :
  exists chunk rest,
    emit_comment parmtext extra ctr
    = ((parmtext ++ comment_open ctr ++ chunk ++ comment_close)%string, rest)
    /\ String.length chunk <= 60
    /\ visible extra = (visible chunk ++ visible rest)%string
    /\ (0 < String.length extra -> String.length rest < String.length extra)
    /\ (forall f, all_chars f extra = true ->
                  all_chars f chunk = true /\ all_chars f rest = true).
Proof.
  destruct (Nat.le_gt_cases (String.length extra) 60) as [Hs|Hl].
  - exists extra, EmptyString. rewrite (emit_comment_short _ _ _ Hs).
    repeat split; try assumption.
    + now rewrite append_empty_r.
    + cbn. lia.
  - pose proof (stopper_range extra) as Hk.
    eexists _, _. rewrite (emit_comment_long _ _ _ Hl).
    split; [reflexivity|]. repeat split.
    + pose proof (length_substring_budget (stopper extra) extra). lia.
    + rewrite visible_strip, <- visible_app.
      now rewrite <- substring_split by lia.
    + intros _. pose proof (length_strip_le
        (substring (stopper extra) (String.length extra - stopper extra) extra)).
      pose proof (length_substring_le (stopper extra)
        (String.length extra - stopper extra) extra). lia.
    + now apply all_chars_substring.
    + now apply all_chars_strip, all_chars_substring.
Qed.

(** The [for] loop over [tabcomment]. *)
Lemma tabline_loop_spec (tablines : list string) :
  forall (parmtext extra : string) (ctr : nat),
  exists chunks rest,
    fold_left tabline_step tablines (parmtext, extra, ctr)
    = ((parmtext ++ render_comments ctr chunks)%string, rest,
       ctr + List.length chunks)
    /\ chunk_facts chunks
    /\ List.length chunks = List.length tablines
    /\ visible (extra ++ join_all tablines)
       = visible (join_all chunks ++ rest)
    /\ (forall f, f " "%char = true -> all_chars f extra = true ->
        Forall (fun t => all_chars f t = true) tablines ->
        Forall (fun c => all_chars f c = true) chunks
        /\ all_chars f rest = true).
Proof.
  induction tablines as [|t ts IH]; intros parmtext extra ctr.
  - exists [], extra. cbn. rewrite !append_empty_r, Nat.add_0_r.
    repeat split; try constructor; assumption.
  - cbn [fold_left]. unfold tabline_step at 2.
    set (extra1 := if 0 <? String.length extra then (extra ++ " ")%string
                   else extra).
    destruct (emit_comment_spec parmtext (extra1 ++ Py.strip t) ctr)
      as (chunk & rest1 & Hemit & Hlen & Hvis & _ & Hnl).
    rewrite Hemit.
    destruct (IH (parmtext ++ comment_open ctr ++ chunk ++ comment_close)%string
                 rest1 (ctr + 1))
      as (chunks & rest & Hfold & Hc & Hn & Hv & Hnl').
    exists (chunk :: chunks), rest. rewrite Hfold.
    assert (H1 : visible extra1 = visible extra).
    { unfold extra1. destruct (0 <? String.length extra); [|reflexivity].
      rewrite visible_app. cbn. apply append_empty_r. }
    assert (H2 : forall f, f " "%char = true -> all_chars f extra = true ->
                           all_chars f extra1 = true).
    { intros f Hf H. unfold extra1.
      destruct (0 <? String.length extra); [|exact H].
      rewrite all_chars_app, H. cbn. now rewrite Hf. }
    split; [|split; [|split; [|split]]].
    + cbn [render_comments List.length]. rewrite !append_assoc.
      f_equal. lia.
    + constructor; assumption.
    + cbn [List.length]. now rewrite Hn.
    + rewrite visible_app, visible_strip, H1 in Hvis.
      cbn [join_all]. rewrite !visible_app in *.
      rewrite (append_assoc (visible chunk)), <- Hv.
      rewrite <- !append_assoc. now rewrite Hvis.
    + intros f Hf Hex Hts. inversion Hts as [|t' ts' Ht Hts']; subst.
      destruct (Hnl f) as [Hnc Hnr].
      { now rewrite all_chars_app, (H2 f Hf Hex), (all_chars_strip _ _ Ht). }
      destruct (Hnl' f Hf Hnr Hts') as [Hcs Hr].
      split; [constructor; assumption|exact Hr].
Qed.


(** The [while] loop behind it. *)
Lemma overflow_loop_spec (fuel : nat) :
  forall (parmtext extra : string) (ctr : nat),
    String.length extra <= fuel ->
    exists chunks,
      overflow_loop fuel (parmtext, extra, ctr)
      = Some ((parmtext ++ render_comments ctr chunks)%string, EmptyString,
              ctr + List.length chunks)
      /\ chunk_facts chunks
      /\ visible extra = visible (join_all chunks)
      /\ (forall f, all_chars f extra = true ->
                    Forall (fun c => all_chars f c = true) chunks).
Proof.
  induction fuel as [|fuel IH]; intros parmtext extra ctr Hlen.
  - destruct extra; [|cbn in Hlen; lia]. exists []. cbn.
    rewrite append_empty_r, Nat.add_0_r. repeat split; constructor.
  - cbn [overflow_loop]. destruct extra as [|c extra'] eqn:E.
    + exists []. cbn. rewrite append_empty_r, Nat.add_0_r.
      repeat split; constructor.
    + rewrite <- E in *. replace (0 <? String.length extra) with true
        by (rewrite E; reflexivity).
      destruct (emit_comment_spec parmtext extra ctr)
        as (chunk & rest & Hemit & Hc & Hvis & Hshort & Hnl).
      rewrite Hemit.
      destruct (IH (parmtext ++ comment_open ctr ++ chunk ++ comment_close)%string
                   rest (ctr + 1))
        as (chunks & Hloop & Hcs & Hv & Hnl').
      { assert (0 < String.length extra) by (rewrite E; cbn; lia).
        specialize (Hshort H). lia. }
      exists (chunk :: chunks). rewrite Hloop.
      split; [|split; [|split]].
      * cbn [render_comments List.length]. rewrite !append_assoc.
        do 2 f_equal. lia.
      * constructor; assumption.
      * cbn [join_all]. now rewrite visible_app, <- Hv.
      * intros f Hex. destruct (Hnl f Hex) as [Hnc Hnr].
        constructor; [exact Hnc|now apply Hnl'].
Qed.

Lemma add_comments_chunks (parmtext : string) (tablines : list string) :
  exists chunks,
    add_comments parmtext (Some tablines)
    = Some (parmtext ++ render_comments 1 chunks)%string
    /\ chunk_facts chunks
    /\ List.length tablines <= List.length chunks
    /\ visible (join_all chunks) = visible (join_all tablines)
    /\ (forall f, f " "%char = true ->
        Forall (fun t => all_chars f t = true) tablines ->
        Forall (fun c => all_chars f c = true) chunks).
Proof.
  unfold add_comments.
  destruct (tabline_loop_spec tablines parmtext EmptyString 1)
    as (chunks1 & rest & Hfold & Hc1 & Hn & Hv1 & Hnl1).
  rewrite Hfold. cbn [fst snd].
  destruct (overflow_loop_spec (String.length rest)
              (parmtext ++ render_comments 1 chunks1)%string rest
              (1 + List.length chunks1) (le_n _))
    as (chunks2 & Hloop & Hc2 & Hv2 & Hnl2).
  rewrite Hloop. exists (chunks1 ++ chunks2).
  split; [|split; [|split; [|split]]].
  - now rewrite render_comments_app, append_assoc.
  - now apply Forall_app.
  - rewrite length_app. lia.
  - cbn [String.append] in Hv1.
    now rewrite join_all_app, visible_app, <- Hv2, <- visible_app.
  - intros f Hf Hts. destruct (Hnl1 f Hf eq_refl Hts) as [H1 Hr].
    apply Forall_app. split; [exact H1|now apply Hnl2].
Qed.

(** X7.  Whatever [tabcomment] holds, the builder ends and puts out
    comment lines [/* C1:... */], [/* C2:... */], ... numbered from 1 without
    a gap, at least one for each element of [tabcomment].  No line holds
    more than 60 characters of the comment, and read one after the other
    the lines hold the characters of the comment that are not white space,
    all of them and in their order. *)
Theorem comment_lines_hold_the_text :
  forall (parmtext : string) (tablines : list string),
  exists chunks,
    add_comments parmtext (Some tablines)
    = Some (parmtext ++ render_comments 1 chunks)%string
    /\ Forall (fun c => String.length c <= 60) chunks
    /\ List.length tablines <= List.length chunks
    /\ visible (join_all chunks) = visible (join_all tablines).
Proof.
  intros parmtext tablines.
  destruct (add_comments_chunks parmtext tablines)
    as (chunks & H1 & H2 & H3 & H4 & _).
  exists chunks. repeat split; assumption.
Qed.

Lemma tabline_loop_short (tablines : list string) :
  forall (parmtext : string) (ctr : nat),
    Forall (fun t => String.length (Py.strip t) <= 60) tablines ->
    fold_left tabline_step tablines (parmtext, EmptyString, ctr)
    = ((parmtext ++ render_comments ctr (map Py.strip tablines))%string,
       EmptyString, ctr + List.length tablines).
Proof.
  induction tablines as [|t ts IH]; intros parmtext ctr Hall.
  - cbn. now rewrite append_empty_r, Nat.add_0_r.
  - inversion Hall as [|t' ts' Ht Hts]; subst.
    cbn [fold_left]. unfold tabline_step at 2.
    cbn [String.length Nat.ltb Nat.leb String.append].
    rewrite (emit_comment_short _ _ _ Ht), (IH _ _ Hts).
    cbn [map render_comments List.length]. rewrite !append_assoc.
    f_equal. lia.
Qed.

(** X8.  When no element of [tabcomment] is longer than 60 characters once
    the white space around it is stripped, each element gives one comment
    line, the stripped element itself. *)
Theorem short_comments_one_line_each :
  forall (parmtext : string) (tablines : list string),
    Forall (fun t => String.length (Py.strip t) <= 60) tablines ->
    add_comments parmtext (Some tablines)
    = Some (parmtext ++ render_comments 1 (map Py.strip tablines))%string.
Proof.
  intros parmtext tablines Hall. unfold add_comments.
  now rewrite (tabline_loop_short _ _ _ Hall).
Qed.

Lemma short_comments_one_line_each_witness :
  add_comments "" (Some ["  For Tape2 project "; "owner: storage"])
  = Some (render_comments 1 ["For Tape2 project"; "owner: storage"]).
Proof.
  refine (short_comments_one_line_each "" ["  For Tape2 project ";
                                           "owner: storage"] _).
  repeat constructor.
Defined.



(** * The text of a block, line by line *)

Lemma no_linebreak_no_nl (s : string) :
  no_linebreak s = true -> has_char Py.nl s = false.
Proof.
  unfold no_linebreak. induction s as [|c s IH]; [reflexivity|].
  cbn [all_chars has_char]. intros H. apply andb_prop in H as [Hc Hs].
  rewrite (IH Hs), orb_false_r.
  destruct (Ascii.eqb_spec c Py.nl) as [->|_]; [discriminate Hc|reflexivity].
Qed.

Lemma join_nl_cons (l : string) (ls : list string) :
  ls <> [] -> Py.join_nl (l :: ls) = (l ++ String Py.nl (Py.join_nl ls))%string.
Proof. destruct ls; [congruence|reflexivity]. Qed.

Lemma splitlines_first_line (l t : string) :
  no_linebreak l = true ->
  PyStr.splitlines_from false (l ++ String Py.nl t)
  = l :: PyStr.splitlines_from false t.
Proof.
  unfold no_linebreak. induction l as [|c l IH]; intros H.
  - reflexivity.
  - cbn [all_chars] in H. apply andb_prop in H as [Hc Hl].
    apply negb_true_iff in Hc.
    cbn [String.append PyStr.splitlines_from andb]. rewrite Hc, (IH Hl).
    reflexivity.
Qed.

(** [splitlines] gives back the lines of a text that ends with a line
    break, when no line holds a line boundary. *)
Lemma splitlines_join (ls : list string) :
  Forall (fun l => no_linebreak l = true) ls ->
  PyStr.splitlines (Py.join_nl (ls ++ [EmptyString])) = ls.
Proof.
  unfold PyStr.splitlines. induction 1 as [|l ls Hl Hls IH]; [reflexivity|].
  cbn [app]. rewrite join_nl_cons by (now destruct ls).
  now rewrite splitlines_first_line, IH.
Qed.

Lemma split_nl_join (ls : list string) :
  Forall (fun l => no_linebreak l = true) ls ->
  Py.split_nl (Py.join_nl (ls ++ [EmptyString])) = ls ++ [EmptyString].
Proof.
  intros H. apply split_join; [now destruct ls|].
  apply Forall_app. split; [|now constructor].
  revert H. apply Forall_impl. exact no_linebreak_no_nl.
Qed.

Lemma join_pieces (pieces : list string) (tail : list string) :
  Forall piece_ok pieces -> tail <> [] ->
  forall x,
    Py.join_nl (x :: flat_map lines_of_piece pieces ++ tail)
    = (x ++ join_all pieces ++ String Py.nl (Py.join_nl tail))%string.
Proof.
  intros Hp Ht. induction Hp as [|p ps Hp Hps IH]; intros x.
  - cbn [flat_map app join_all String.append]. now apply join_nl_cons.
  - destruct Hp as [->|(l & -> & _ & _)].
    + cbn [flat_map lines_of_piece app join_all String.append]. apply IH.
    + cbn [flat_map lines_of_piece app join_all String.append].
      rewrite join_nl_cons by discriminate. now rewrite IH, append_assoc.
Qed.

Lemma join_comment_lines (chunks : list string) (rest : list string) :
  rest <> [] ->
  forall ctr,
    (render_comments ctr chunks ++ Py.join_nl rest)%string
    = Py.join_nl (comment_lines ctr chunks ++ rest).
Proof.
  intros Hr. induction chunks as [|c cs IH]; intros ctr; [reflexivity|].
  cbn [render_comments comment_lines app].
  rewrite join_nl_cons by (now destruct (comment_lines (ctr + 1) cs)).
  rewrite <- IH. unfold comment_line, comment_close.
  rewrite !append_assoc. reflexivity.
Qed.

Lemma all_chars_impl (f g : ascii -> bool) (s : string) :
  (forall c, f c = true -> g c = true) ->
  all_chars f s = true -> all_chars g s = true.
Proof.
  intros Hfg. induction s as [|c s IH]; [reflexivity|]. cbn [all_chars].
  intros H. apply andb_prop in H as [Hc Hs]. now rewrite (Hfg c Hc), IH.
Qed.

Lemma timestamp_no_linebreak (dtstr : string) :
  is_timestamp dtstr = true -> no_linebreak dtstr = true.
Proof.
  apply all_chars_impl. intros c H.
  destruct c as [[] [] [] [] [] [] [] []]; try reflexivity;
    vm_compute in H; discriminate H.
Qed.

Lemma no_linebreak_app (a b : string) :
  no_linebreak (a ++ b) = no_linebreak a && no_linebreak b.
Proof. apply all_chars_app. Qed.

Lemma no_linebreak_upper (s : string) :
  no_linebreak s = true -> no_linebreak (Py.upper s) = true.
Proof.
  unfold no_linebreak. induction s as [|c s IH]; [reflexivity|].
  cbn [Py.upper all_chars]. intros H. apply andb_prop in H as [Hc Hs].
  rewrite (IH Hs), andb_true_r.
  destruct c as [[] [] [] [] [] [] [] []]; try reflexivity;
    vm_compute in Hc; discriminate Hc.
Qed.

Lemma no_linebreak_digits (d : Decimal.uint) :
  no_linebreak (NilEmpty.string_of_uint d) = true.
Proof. induction d; cbn; auto. Qed.

Lemma no_linebreak_str_of_nat (n : nat) :
  no_linebreak (Py.str_of_nat n) = true.
Proof.
  unfold Py.str_of_nat, NilZero.string_of_uint.
  pose proof (no_linebreak_digits (Nat.to_uint n)) as H.
  destruct (Nat.to_uint n); exact H.
Qed.

(** ** The markers and the comment lines *)

Lemma replace_step (c : ascii) (s new : string) :
  String.prefix "BEGIN" (String c s) = false ->
  PyStr.replace_from 0 "BEGIN" new (String c s)
  = String c (PyStr.replace_from 0 "BEGIN" new s).
Proof. intros H. cbn [PyStr.replace_from]. now rewrite H. Qed.

Lemma replace_timestamp (dtstr new t : string) :
  is_timestamp dtstr = true ->
  PyStr.replace_from 0 "BEGIN" new t = t ->
  PyStr.replace_from 0 "BEGIN" new (dtstr ++ t) = (dtstr ++ t)%string.
Proof.
  unfold is_timestamp. intros H Ht. induction dtstr as [|c s IH].
  - exact Ht.
  - cbn [all_chars] in H. apply andb_prop in H as [Hc Hs].
    cbn [String.append]. rewrite replace_step, (IH Hs); [reflexivity|].
    rewrite prefix_cons.
    destruct (Ascii.eqb_spec "B" c) as [<-|_]; [discriminate Hc|reflexivity].
Qed.

Lemma replace_hit (c : ascii) (s new : string) :
  String.prefix "BEGIN" (String c s) = true ->
  PyStr.replace_from 0 "BEGIN" new (String c s)
  = (new ++ PyStr.replace_from 4 "BEGIN" new s)%string.
Proof. intros H. cbn [PyStr.replace_from]. now rewrite H. Qed.

Lemma replace_skip (k : nat) (c : ascii) (s old new : string) :
  PyStr.replace_from (S k) old new (String c s)
  = PyStr.replace_from k old new s.
Proof. reflexivity. Qed.

(** [parmtail] is a line break, the END marker and a line break. *)
Lemma parmtail_end_marker (dtstr : string) :
  is_timestamp dtstr = true ->
  parmtail dtstr = (newline ++ end_marker dtstr ++ newline)%string.
Proof.
  intros H. unfold parmtail, begin_line, end_marker, PyStr.replace.
  f_equal. rewrite !append_assoc.
  change ("/* BEGIN ANSIBLE MANAGED BLOCK " ++ ?x)%string
    with (String "/" (String "*" (String " "
           (String "B" ("EGIN" ++ " ANSIBLE MANAGED BLOCK " ++ x)))))%string.
  do 3 (rewrite replace_step by (rewrite ?prefix_cons; reflexivity)).
  rewrite replace_hit by (rewrite ?prefix_cons; reflexivity).
  cbn [String.append]. rewrite !replace_skip.
  repeat (rewrite replace_step by (rewrite ?prefix_cons; reflexivity)).
  rewrite replace_timestamp; [reflexivity|exact H|].
  unfold newline.
  repeat (rewrite replace_step by (rewrite ?prefix_cons; reflexivity)).
  reflexivity.
Qed.

Lemma begin_marker_facts (dtstr : string) :
  is_timestamp dtstr = true ->
  is_begin_marker (begin_marker dtstr) = true
  /\ no_linebreak (begin_marker dtstr) = true.
Proof.
  intros H. split.
  - unfold is_begin_marker, begin_marker. cbn [String.append].
    rewrite !prefix_cons. reflexivity.
  - unfold begin_marker. rewrite !no_linebreak_app.
    now rewrite (timestamp_no_linebreak _ H).
Qed.

Lemma end_marker_facts (dtstr : string) :
  is_timestamp dtstr = true ->
  is_end_marker (end_marker dtstr) = true
  /\ no_linebreak (end_marker dtstr) = true.
Proof.
  intros H. split.
  - unfold is_end_marker, end_marker. cbn [String.append].
    rewrite !prefix_cons. reflexivity.
  - unfold end_marker. rewrite !no_linebreak_app.
    now rewrite (timestamp_no_linebreak _ H).
Qed.

Lemma comment_line_facts (ctr : nat) (chunk : string) :
  is_plain_comment (comment_line ctr chunk) = true
  /\ (no_linebreak chunk = true ->
      no_linebreak (comment_line ctr chunk) = true).
Proof.
  split.
  - unfold is_plain_comment, is_comment, is_begin_marker, comment_line,
      comment_open. cbn [String.append]. rewrite !prefix_cons. reflexivity.
  - intros H. unfold comment_line, comment_open.
    rewrite !no_linebreak_app, H, no_linebreak_str_of_nat. reflexivity.
Qed.

Lemma comment_lines_facts (chunks : list string) (ctr : nat) :
  Forall (fun l => is_plain_comment l = true) (comment_lines ctr chunks)
  /\ (Forall (fun c => no_linebreak c = true) chunks ->
      Forall (fun l => no_linebreak l = true) (comment_lines ctr chunks)).
Proof.
  revert ctr. induction chunks as [|c cs IH]; intros ctr.
  - split; constructor.
  - destruct (IH (ctr + 1)) as [IH1 IH2].
    destruct (comment_line_facts ctr c) as [H1 H2].
    split; [now constructor|].
    intros H. inversion H; subst. constructor; auto.
Qed.

(** ** The option lines *)

Ltac piece_line :=
  right; eexists; split; [reflexivity|]; split;
  [unfold no_linebreak, format_opt in *; cbn [all_chars];
   rewrite ?all_chars_app;
   repeat match goal with H : _ = true |- _ => rewrite H end; reflexivity
  |reflexivity].

Lemma option_pieces_ok (a : mount_args) :
  single_line_args a = true -> Forall piece_ok (option_pieces a).
Proof.
  unfold single_line_args. intros H.
  repeat (apply andb_prop in H as [H ?]).
  unfold option_pieces, opt_no_linebreak in *.
  assert (Hfs : no_linebreak (Py.upper (fs_type a)) = true)
    by now apply no_linebreak_upper.
  repeat apply Forall_cons; [..|apply Forall_nil].
  - piece_line.
  - piece_line.
  - unfold mode_option, subcmd.
    destruct (_ || _); piece_line.
  - unfold parm_option. destruct (src_params a) as [p|]; [|now left].
    destruct (1 <? String.length p); [piece_line|now left].
  - unfold tag_option. destruct (tag_untagged a) as [t|]; [|now left].
    destruct (0 <? String.length t); [|now left].
    destruct (tag_ccsid a); piece_line.
  - unfold setuid_option. destruct (allow_uid a); piece_line.
  - unfold wait_option. destruct (_ || _); piece_line.
  - unfold security_option. destruct (_ || _); piece_line.
  - unfold sysname_option. destruct (sysname a) as [n|]; [|now left].
    destruct (_ && _); [piece_line|now left].
  - unfold automove_option. destruct (automove a) as [m|]; [|now left].
    destruct (1 <? String.length m); [|now left].
    destruct (automove_list a) as [l|]; [|piece_line].
    destruct (1 <? String.length l)%nat; piece_line.
Qed.

Lemma option_lines_facts (a : mount_args) :
  single_line_args a = true ->
  Forall (fun l => no_linebreak l = true) (option_lines a)
  /\ Forall (fun l => is_indented l = true) (option_lines a).
Proof.
  intros H. apply option_pieces_ok in H. unfold option_lines.
  induction H as [|p ps Hp Hps [IH1 IH2]]; [split; constructor|].
  destruct Hp as [->|(l & -> & Hl & Hi)]; cbn [flat_map lines_of_piece app].
  - now split.
  - split; now constructor.
Qed.

Lemma join_option_pieces (a : mount_args) :
  join_all (option_pieces a)
  = (option_line ++ "MOUNTPOINT('" ++ path a ++ "')"
     ++ option_line ++ "TYPE('" ++ Py.upper (fs_type a) ++ "')"
     ++ mount_options false a)%string.
Proof.
  unfold option_pieces, mount_options. cbn [join_all].
  rewrite !append_assoc, append_empty_r. reflexivity.
Qed.

(** The text that [run_module] builds from the chunks of the comment is the
    lines of the block, each closed by a line break. *)
Lemma block_text_lines (dtstr : string) (chunks : list string)
  (a : mount_args) :
  is_timestamp dtstr = true -> single_line_args a = true ->
  ((begin_line dtstr ++ render_comments 1 chunks) ++ directive_line a
   ++ option_line ++ "MOUNTPOINT('" ++ path a ++ "')"
   ++ option_line ++ "TYPE('" ++ Py.upper (fs_type a) ++ "')"
   ++ mount_options false a ++ parmtail dtstr)%string
  = Py.join_nl (block_lines dtstr chunks a ++ [EmptyString]).
Proof.
  intros Ht Ha. unfold block_lines, option_lines.
  cbn [app]. rewrite join_nl_cons by (now destruct (comment_lines 1 chunks)).
  rewrite <- app_assoc. cbn [app].
  rewrite <- join_comment_lines by discriminate.
  rewrite <- app_assoc. cbn [app].
  rewrite (join_pieces _ _ (option_pieces_ok a Ha)) by discriminate.
  rewrite join_option_pieces, (parmtail_end_marker _ Ht).
  unfold begin_line, begin_marker, newline.
  cbn [Py.join_nl]. rewrite !append_assoc. reflexivity.
Qed.

Lemma forallb_Forall_true {A : Type} (f : A -> bool) (l : list A) :
  forallb f l = true -> Forall (fun x => f x = true) l.
Proof.
  induction l as [|x l IH]; [constructor|]. cbn [forallb]. intros H.
  apply andb_prop in H as [Hx Hl]. constructor; auto.
Qed.

Lemma single_line_tabcomment (a : mount_args) (tablines : list string) :
  single_line_args a = true -> tabcomment a = Some tablines ->
  Forall (fun t => no_linebreak t = true) tablines.
Proof.
  unfold single_line_args. intros H Ht. rewrite Ht in H.
  apply andb_prop in H as [_ H]. now apply forallb_Forall_true.
Qed.

Lemma single_line_src (a : mount_args) :
  single_line_args a = true -> no_linebreak (src a) = true.
Proof.
  unfold single_line_args. intros H.
  repeat (apply andb_prop in H as [H _]). exact H.
Qed.

Lemma block_lines_no_linebreak (dtstr : string) (chunks : list string)
  (a : mount_args) :
  is_timestamp dtstr = true -> single_line_args a = true ->
  Forall (fun c => no_linebreak c = true) chunks ->
  Forall (fun l => no_linebreak l = true) (block_lines dtstr chunks a).
Proof.
  intros Ht Ha Hc. unfold block_lines.
  constructor; [apply (begin_marker_facts _ Ht)|].
  apply Forall_app. split; [now apply comment_lines_facts|].
  constructor.
  - unfold directive_line. rewrite !no_linebreak_app.
    now rewrite (single_line_src _ Ha).
  - apply Forall_app. split; [apply (option_lines_facts _ Ha)|].
    constructor; [apply (end_marker_facts _ Ht)|constructor].
Qed.

(** The chunks of the comment lines of the block of [a]. *)
Lemma parmtext_chunks (dtstr : string) (a : mount_args) :
  gonna_mount a = true -> is_timestamp dtstr = true ->
  single_line_args a = true ->
  exists chunks,
    parmtext dtstr a
    = Some (Py.join_nl (block_lines dtstr chunks a ++ [EmptyString]))
    /\ chunk_facts chunks
    /\ Forall (fun c => no_linebreak c = true) chunks
    /\ (tabcomment a = None -> chunks = []).
Proof.
  intros Hg Ht Ha. unfold parmtext. rewrite Hg.
  destruct (tabcomment a) as [tablines|] eqn:Htab.
  - destruct (add_comments_chunks (begin_line dtstr) tablines)
      as (chunks & -> & Hf & _ & _ & Hnl).
    exists chunks. rewrite (block_text_lines _ _ _ Ht Ha).
    repeat split; [exact Hf| |discriminate].
    apply (Hnl (fun c => negb (PyStr.is_linebreak c)) eq_refl).
    now apply (single_line_tabcomment a).
  - exists []. cbn [add_comments].
    rewrite <- (block_text_lines _ _ _ Ht Ha). cbn [render_comments].
    rewrite append_empty_r. repeat split; constructor.
Qed.

(** X9.  The text that [run_module] builds for a mount is, line by line:
    the BEGIN marker, the numbered comment lines, the directive, the
    option lines, each indented, and the END marker.  It ends with a line
    break, so [split] at line feeds gives one more, empty, line. *)
Theorem block_text_is_block_lines :
  forall (dtstr : string) (a : mount_args),
    gonna_mount a = true -> is_timestamp dtstr = true ->
    single_line_args a = true ->
    exists chunks text,
      parmtext dtstr a = Some text
      /\ PyStr.splitlines text = block_lines dtstr chunks a
      /\ Py.split_nl text = block_lines dtstr chunks a ++ [EmptyString]
      /\ Forall (fun c => String.length c <= 60) chunks
      /\ Forall (fun l => is_indented l = true) (option_lines a).
Proof.
  intros dtstr a Hg Ht Ha.
  destruct (parmtext_chunks dtstr a Hg Ht Ha) as (chunks & Htext & Hf & Hnl & _).
  pose proof (block_lines_no_linebreak dtstr chunks a Ht Ha Hnl) as Hbl.
  exists chunks, (Py.join_nl (block_lines dtstr chunks a ++ [EmptyString])).
  split; [exact Htext|]. split; [now apply splitlines_join|].
  split; [now apply split_nl_join|]. split; [exact Hf|].
  apply (option_lines_facts _ Ha).
Qed.

Lemma block_text_is_block_lines_witness :
  exists chunks text,
    parmtext sample_dtstr sample_mount = Some text
    /\ PyStr.splitlines text = block_lines sample_dtstr chunks sample_mount
    /\ Py.split_nl text
       = block_lines sample_dtstr chunks sample_mount ++ [EmptyString]
    /\ Forall (fun c => String.length c <= 60) chunks
    /\ Forall (fun l => is_indented l = true) (option_lines sample_mount).
Proof.
  exact (block_text_is_block_lines sample_dtstr sample_mount
           eq_refl eq_refl eq_refl).
Defined.

(** * The block that [run_module] writes and the scan of [swap_text] *)

Section OwnName.

Import Regex.

Lemma upper_char_dot (c : ascii) :
  Ascii.eqb (Py.upper_char c) "." = Ascii.eqb c ".".
Proof. destruct c as [[] [] [] [] [] [] [] []]; reflexivity. Qed.

(** The items of the upper-cased identifier match the identifier itself
    only when it is in upper case already. *)
Lemma matches_own_name (s : string) (p q : pattern) (t : string) :
  of_identifier (Py.upper s) = Some p -> has_char "$" s = false ->
  matches (p ++ q) (s ++ t)%string
  = String.eqb (Py.upper s) s && matches q t.
Proof.
  revert p. induction s as [|c s IH]; intros p Hp Hd.
  - injection Hp as <-. reflexivity.
  - cbn [Py.upper of_identifier] in Hp.
    destruct (unsupported (Py.upper_char c)); [discriminate|].
    destruct (of_identifier (Py.upper s)) as [p'|] eqn:Hs; [|discriminate].
    injection Hp as <-. cbn [has_char] in Hd.
    apply orb_false_elim in Hd as [Hc Hd].
    rewrite upper_char_dot, upper_char_dollar, Hc.
    cbn [Py.upper String.append app String.eqb].
    destruct (Ascii.eqb_spec c ".") as [->|Hdot].
    + change (matches (AnyChar :: ?x) (String "." ?y))
        with (matches x y).
      rewrite (IH p' eq_refl Hd). reflexivity.
    + change (matches (Lit ?u :: ?x) (String c ?y))
        with (Ascii.eqb c u && matches x y).
      rewrite (IH p' eq_refl Hd), (Ascii.eqb_sym c), andb_assoc. reflexivity.
Qed.

Lemma matches_directive_head (q : pattern) (x : string) :
  matches (Spaces :: lits "MOUNT" ++ Space :: Spaces :: lits "FILESYSTEM("
           ++ Spaces :: Lit "'" :: q)
          ("MOUNT FILESYSTEM('" ++ x)%string
  = matches q x.
Proof.
  change ("MOUNT FILESYSTEM('" ++ x)%string
    with (String "M" ("OUNT" ++ String " " ("FILESYSTEM("
          ++ String "'" x)))%string.
  rewrite matches_spaces_skip by reflexivity.
  change (String "M" ("OUNT" ++ ?y))%string with ("MOUNT" ++ y)%string.
  rewrite matches_lits.
  change (matches (Space :: ?r) (String " " ?y))
    with (Py.isspace " " && matches r y).
  change (Py.isspace " ") with true. cbn [andb].
  change ("FILESYSTEM(" ++ ?y)%string
    with (String "F" ("ILESYSTEM(" ++ y))%string.
  rewrite matches_spaces_skip by reflexivity.
  change (String "F" ("ILESYSTEM(" ++ ?y))%string
    with ("FILESYSTEM(" ++ y)%string.
  rewrite matches_lits.
  rewrite matches_spaces_skip by reflexivity.
  now rewrite matches_lit.
Qed.

End OwnName.

Lemma own_directive (a : mount_args) (ms : string -> bool) :
  ms_match (src a) = Some ms -> has_char "$" (src a) = false ->
  ms (directive_line a) = String.eqb (Py.upper (src a)) (src a).
Proof.
  unfold ms_match. destruct (mount_pattern (src a)) as [p|] eqn:Hp;
    [|discriminate].
  intros [= <-] Hd. apply mount_pattern_shape in Hp as (ident & Hid & ->).
  unfold directive_line. rewrite matches_directive_head.
  rewrite (matches_own_name _ _ _ _ Hid Hd).
  destruct (String.eqb (Py.upper (src a)) (src a)); reflexivity.
Qed.



Lemma remove_blocks_without_directive (ms : string -> bool)
  (content : list string) :
  no_match ms content -> remove_blocks ms content = content.
Proof.
  intros H. unfold remove_blocks, spans.
  now rewrite (scan_without_directive _ _ H).
Qed.





(** * A source in lower case *)

Section OptionLines.

Import Regex.

Lemma matches_spaces_pass (x m : ascii) (q : pattern) (s : string) :
  Py.isspace x = true -> Py.isspace m = false ->
  matches (Spaces :: Lit m :: q) (String x s)
  = matches (Spaces :: Lit m :: q) s.
Proof.
  intros Hx Hm. rewrite matches_spaces, Hx. cbn [andb].
  change (matches (Lit m :: q) (String x s))
    with (Ascii.eqb x m && matches q s).
  destruct (Ascii.eqb_spec x m) as [->|_]; [congruence|reflexivity].
Qed.

End OptionLines.

Ltac piece_no_match :=
  right; eexists; split; [reflexivity|];
  cbn [String.append];
  rewrite !matches_spaces_pass by reflexivity;
  rewrite matches_spaces_skip by reflexivity;
  reflexivity.

Lemma option_lines_no_match (a : mount_args) (ms : string -> bool) :
  ms_match (src a) = Some ms -> automove_is_choice a = true ->
  no_match ms (option_lines a).
Proof.
  unfold ms_match. destruct (mount_pattern (src a)) as [p|] eqn:Hp;
    [|discriminate].
  intros [= <-] Hauto. apply mount_pattern_shape in Hp as (ident & _ & ->).
  assert (H : Forall (fun piece =>
                piece = EmptyString
                \/ exists l, piece = String Py.nl l
                     /\ Regex.matches
                          (Regex.Spaces :: Regex.lits "MOUNT"
                           ++ Regex.Space :: Regex.Spaces
                              :: Regex.lits "FILESYSTEM("
                           ++ Regex.Spaces :: Regex.Lit "'"
                              :: ident ++ [Regex.Lit "'"; Regex.Spaces;
                                           Regex.Lit ")"]) l = false)
              (option_pieces a)).
  { unfold option_pieces. cbn [Regex.lits app].
    repeat apply Forall_cons; [..|apply Forall_nil].
    - piece_no_match.
    - piece_no_match.
    - unfold mode_option. piece_no_match.
    - unfold parm_option. destruct (src_params a) as [s|]; [|now left].
      destruct (1 <? String.length s); [piece_no_match|now left].
    - unfold tag_option. destruct (tag_untagged a) as [t|]; [|now left].
      destruct (0 <? String.length t); [piece_no_match|now left].
    - unfold setuid_option. destruct (allow_uid a); piece_no_match.
    - unfold wait_option. destruct (_ || _); piece_no_match.
    - unfold security_option. destruct (_ || _); piece_no_match.
    - unfold sysname_option. destruct (sysname a) as [n|]; [|now left].
      destruct (_ && _); [piece_no_match|now left].
    - unfold automove_option, automove_is_choice in *.
      destruct (automove a) as [m|]; [|now left].
      destruct (1 <? String.length m); [|now left].
      cbn [existsb] in Hauto.
      repeat (apply orb_prop in Hauto as [Hauto|Hauto];
              [apply String.eqb_eq in Hauto; subst m; piece_no_match|]).
      discriminate Hauto. }
  unfold no_match, option_lines.
  induction H as [|piece ps Hpiece Hps IH]; [constructor|].
  destruct Hpiece as [->|(l & -> & Hl)]; cbn [flat_map lines_of_piece app].
  - exact IH.
  - now constructor.
Qed.

Lemma plain_comment_is_comment (l : string) :
  is_plain_comment l = true -> is_comment l = true.
Proof. unfold is_plain_comment. intros H. now apply andb_prop in H. Qed.

(** No line of the block of a source with a lower-case letter is matched
    by the pattern of that source. *)
Lemma block_lines_no_match (a : mount_args) (ms : string -> bool)
  (dtstr : string) (chunks : list string) :
  ms_match (src a) = Some ms -> has_char "$" (src a) = false ->
  Py.upper (src a) <> src a -> automove_is_choice a = true ->
  no_match ms (block_lines dtstr chunks a).
Proof.
  intros Hms Hd Hlow Hauto. unfold block_lines, no_match.
  pose proof (comments_do_not_match (src a) ms) as Hcmt.
  specialize (fun ls => Hcmt ls Hms). unfold no_match in Hcmt.
  rewrite app_comm_cons. apply Forall_app. split.
  - apply Hcmt. constructor; [reflexivity|].
    destruct (comment_lines_facts chunks 1) as [H _].
    revert H. apply Forall_impl. exact plain_comment_is_comment.
  - constructor.
    + rewrite (own_directive a ms Hms Hd). now apply String.eqb_neq.
    + apply Forall_app. split; [now apply option_lines_no_match|].
      apply Hcmt. constructor; [reflexivity|constructor].
Qed.

(** X12.  A source given in lower case.  The block that [run_module]
    builds for it holds no line that [swap_text] takes for the directive
    of the source, so once the block is in the member, a later
    [swap_text] for the same source deletes nothing: a further mount adds
    a second block behind the first, and a removal leaves the block where
    it is. *)
Theorem lower_case_block_is_never_removed :
  forall (dtstr : string) (a : mount_args) (ms : string -> bool)
         (kept : list string),
    ms_match (src a) = Some ms ->
    Py.upper (src a) <> src a -> has_char "$" (src a) = false ->
    gonna_mount a = true -> is_timestamp dtstr = true ->
    single_line_args a = true -> automove_is_choice a = true ->
    no_match ms kept ->
    Forall (fun l => no_linebreak l = true) kept ->
    exists text,
      parmtext dtstr a = Some text
      /\ PyStr.splitlines (Py.join_nl (swap_lines ms kept text))
         = kept ++ PyStr.splitlines text
      /\ (forall adding,
            adding <> EmptyString ->
            swap_lines ms (kept ++ PyStr.splitlines text) adding
            = kept ++ PyStr.splitlines text ++ Py.split_nl adding)
      /\ swap_lines ms (kept ++ PyStr.splitlines text) EmptyString
         = kept ++ PyStr.splitlines text.
Proof.
  intros dtstr a ms kept Hms Hlow Hd Hg Ht Ha Hauto Hkept Hnl.
  destruct (parmtext_chunks dtstr a Hg Ht Ha) as (chunks & Htext & _ & Hc & _).
  pose proof (block_lines_no_linebreak dtstr chunks a Ht Ha Hc) as Hbl.
  exists (Py.join_nl (block_lines dtstr chunks a ++ [EmptyString])).
  split; [exact Htext|].
  rewrite (splitlines_join _ Hbl).
  assert (Hall : no_match ms (kept ++ block_lines dtstr chunks a)).
  { apply Forall_app. split; [exact Hkept|].
    now apply block_lines_no_match. }
  split; [|split].
  - unfold swap_lines. rewrite (remove_blocks_without_directive _ _ Hkept).
    rewrite (split_nl_join _ Hbl).
    replace (0 <? String.length
                    (Py.join_nl (block_lines dtstr chunks a ++ [EmptyString])))
      with true.
    + rewrite app_assoc. apply splitlines_join.
      apply Forall_app. now split.
    + unfold block_lines. cbn [app].
      rewrite join_nl_cons by (now destruct (comment_lines 1 chunks)).
      reflexivity.
  - intros adding Hadd. unfold swap_lines.
    rewrite (remove_blocks_without_directive _ _ Hall).
    destruct adding; [congruence|]. now rewrite <- app_assoc.
  - unfold swap_lines. cbn [String.length Nat.ltb Nat.leb].
    now apply remove_blocks_without_directive.
Qed.

Lemma lower_case_block_is_never_removed_witness :
  exists text,
    parmtext sample_dtstr sample_mount_lower = Some text
    /\ PyStr.splitlines
         (Py.join_nl
            (swap_lines (matcher (src sample_mount_lower)) ["HEAD"] text))
       = ["HEAD"] ++ PyStr.splitlines text
    /\ (forall adding,
          adding <> EmptyString ->
          swap_lines (matcher (src sample_mount_lower))
            (["HEAD"] ++ PyStr.splitlines text) adding
          = ["HEAD"] ++ PyStr.splitlines text ++ Py.split_nl adding)
    /\ swap_lines (matcher (src sample_mount_lower))
         (["HEAD"] ++ PyStr.splitlines text) EmptyString
       = ["HEAD"] ++ PyStr.splitlines text.
Proof.
  refine (lower_case_block_is_never_removed sample_dtstr sample_mount_lower
            (matcher (src sample_mount_lower)) ["HEAD"]
            eq_refl _ eq_refl eq_refl eq_refl eq_refl eq_refl _ _).
  - discriminate.
  - repeat constructor.
  - repeat constructor.
Defined.

(** * The runs of run_module *)

Section Runs.

Context {A B : Type}.

Lemma bind_trace (P : event -> Prop) (m : run A) (k : A -> run B) :
  Forall P (trace m) -> (forall x, Forall P (trace (k x))) ->
  Forall P (trace (bind m k)).
Proof.
  destruct m as [t [e|x]]; cbn; intros Hm Hk; [exact Hm|].
  specialize (Hk x). destruct (k x) as [t' r]. cbn in *.
  apply Forall_app. now split.
Qed.

Lemma bind_returns (m : run A) (k : A -> run B) (t : list event) (r : B) :
  bind m k = (t, inr r) ->
  exists t1 x t2, m = (t1, inr x) /\ k x = (t2, inr r) /\ t = t1 ++ t2.
Proof.
  destruct m as [t1 [e|x]]; cbn; [discriminate|].
  destruct (k x) as [t2 r'] eqn:Hk. intros [= <- ->].
  now exists t1, x, t2.
Qed.

Lemma bind_stops (m : run A) (k : A -> run B) :
  (forall x, exists err, outcome (k x) = inl err) ->
  exists err, outcome (bind m k) = inl err.
Proof.
  intros Hk. destruct m as [t [e|x]]; cbn; [now exists e|].
  destruct (Hk x) as [err Herr]. destruct (k x) as [t' r]. cbn in *.
  now exists err.
Qed.

Lemma bind_stopped (m : run A) (k : A -> run B) :
  (exists err, outcome m = inl err) ->
  exists err, outcome (bind m k) = inl err.
Proof.
  intros [err H]. destruct m as [t [e|x]]; cbn in *; [now exists e|].
  discriminate.
Qed.

Lemma bind_in_left (ev : event) (m : run A) (k : A -> run B) :
  In ev (trace m) -> In ev (trace (bind m k)).
Proof.
  destruct m as [t [e|x]]; cbn; [auto|]. intros H.
  destruct (k x) as [t' r]. cbn. apply in_or_app. now left.
Qed.

Lemma bind_in_right (ev : event) (m : run A) (k : A -> run B)
  (t : list event) (x : A) :
  m = (t, inr x) -> In ev (trace (k x)) -> In ev (trace (bind m k)).
Proof.
  intros -> H. cbn. destruct (k x) as [t' r]. cbn in *.
  apply in_or_app. now right.
Qed.

End Runs.

Lemma mt_backupOper_trace (e : env) (source : string) (bk : bool + string) :
  Forall (fun ev => is_backup_call ev = true) (trace (mt_backupOper e source bk)).
Proof.
  unfold mt_backupOper. destruct (_ && _); [constructor|].
  destruct (backup_made e); repeat constructor.
Qed.

(** [persistent_prologue] stops on a name outside the modelled alphabet
    and makes the backup otherwise. *)
Lemma persistent_prologue_cases (a : mount_args) (e : env) :
  persistent_prologue a e
  = match persistent a with
    | Some p =>
        if names_modelled p then
          if backup p then
            made <- mt_backupOper e (Py.upper (data_set_name p)) (inl true) ;;
            ret (Some made)
          else ret None
        else stop NotModelled
    | None => ret None
    end.
Proof.
  unfold persistent_prologue, names_modelled, upper_name.
  destruct (persistent a) as [p|]; [|reflexivity].
  destruct (Py.is_ascii (data_set_name p)); [|reflexivity].
  destruct (backup p); [|reflexivity].
  destruct (backup_name p) as [name|]; cbn [andb bind ret app].
  - destruct (PyStr.truthy (Some name)); cbn [negb orb bind ret app].
    + destruct (Py.is_ascii name); cbn [bind ret stop app]; [|reflexivity].
      now destruct (mt_backupOper e _ _) as [t [err|made]].
    + now destruct (mt_backupOper e _ _) as [t [err|made]].
  - now destruct (mt_backupOper e _ _) as [t [err|made]].
Qed.

Lemma persistent_prologue_trace (a : mount_args) (e : env) :
  Forall (fun ev => is_backup_call ev = true) (trace (persistent_prologue a e)).
Proof.
  rewrite persistent_prologue_cases.
  destruct (persistent a) as [p|]; [|constructor].
  destruct (names_modelled p); [|constructor].
  destruct (backup p); [|constructor].
  apply bind_trace; [apply mt_backupOper_trace|]. intros; constructor.
Qed.

Lemma check_mount_point_trace (a : mount_args) (e : env) (c : string) :
  Forall (fun ev => is_check_mode_event ev = true)
         (trace (check_mount_point a e c)).
Proof.
  unfold check_mount_point. destruct (gonna_mount a); [|constructor].
  destruct (path_exists e), (mkdir_error e), (path_exists_again e);
    repeat constructor.
Qed.

Lemma unmount_step_check_mode (a : mount_args) (e : env) (c : string)
  (m : bool) :
  check_mode e = true -> trace (unmount_step a e c m) = [].
Proof.
  intros H. unfold unmount_step. rewrite H.
  now destruct (gonna_unmount a), m.
Qed.

Lemma mount_step_check_mode (a : mount_args) (e : env) (ch : bool)
  (c : string) (m : bool) :
  check_mode e = true -> trace (mount_step a e ch c m) = [].
Proof.
  intros H. unfold mount_step. rewrite H.
  now destruct (gonna_mount a), m.
Qed.

Lemma persistent_step_check_mode (a : mount_args) (e : env) (text c : string) :
  check_mode e = true -> trace (persistent_step a e text c) = [].
Proof.
  intros H. unfold persistent_step. rewrite H, andb_false_r.
  now destruct (persistent a).
Qed.

Lemma backup_is_check_mode_event (ev : event) :
  is_backup_call ev = true -> is_check_mode_event ev = true.
Proof. now destruct ev. Qed.

(** X13.  In check mode [run_module] runs no command but [df] and does
    not touch the member; what it still does is make the backup and create
    the directory of the mount point. *)
Theorem check_mode_events :
  forall (a : mount_args) (e : env),
    check_mode e = true ->
    Forall (fun ev => is_check_mode_event ev = true) (trace (run_module a e)).
Proof.
  intros a e Hc. unfold run_module.
  apply bind_trace.
  { generalize (persistent_prologue_trace a e). apply Forall_impl.
    exact backup_is_check_mode_event. }
  intros made. apply bind_trace; [destruct (fs_exists e); constructor|].
  intros _. apply bind_trace; [apply check_mount_point_trace|].
  intros comment1. apply bind_trace; [repeat constructor|].
  intros _. apply bind_trace; [destruct (negb _); constructor|].
  intros _. apply bind_trace; [destruct (parmtext _ _); constructor|].
  intros text. apply bind_trace.
  { rewrite (unmount_step_check_mode _ _ _ _ Hc). constructor. }
  intros [[changed1 comment2] mounted1]. apply bind_trace.
  { rewrite (mount_step_check_mode _ _ _ _ _ Hc). constructor. }
  intros [changed2 comment3]. apply bind_trace.
  { rewrite (persistent_step_check_mode _ _ _ _ Hc). constructor. }
  intros; constructor.
Qed.

Lemma check_mode_events_witness :
  Forall (fun ev => is_check_mode_event ev = true)
         (trace (run_module sample_mount sample_env_check)).
Proof. exact (check_mode_events sample_mount sample_env_check eq_refl). Defined.

(** X14.  When the mount point is missing, [run_module] creates it before
    it looks at anything else of the mount, whether it runs in check mode
    or not. *)
Theorem missing_mount_point_is_created :
  forall (a : mount_args) (e : env) (made : option string),
    outcome (persistent_prologue a e) = inr made ->
    fs_exists e = true -> gonna_mount a = true -> path_exists e = false ->
    In (Mkdir (path a)) (trace (run_module a e)).
Proof.
  intros a e made Hp Hfs Hg Hpath. unfold run_module.
  destruct (persistent_prologue a e) as [t0 [err|made']] eqn:Hpro;
    [discriminate Hp|].
  apply (bind_in_right _ _ _ t0 made' eq_refl). rewrite Hfs.
  apply (bind_in_right _ _ _ [] tt eq_refl). apply bind_in_left.
  unfold check_mount_point. rewrite Hg, Hpath.
  destruct (mkdir_error e), (path_exists_again e); cbn; auto.
Qed.

Lemma missing_mount_point_is_created_witness :
  check_mode sample_env_check = true
  /\ In (Mkdir (path sample_mount))
        (trace (run_module sample_mount sample_env_check)).
Proof.
  split; [reflexivity|].
  exact (missing_mount_point_is_created sample_mount sample_env_check None
           eq_refl eq_refl eq_refl eq_refl).
Defined.

Ltac run_inv H t1 x t2 Hm :=
  apply bind_returns in H as (t1 & x & t2 & Hm & H & ->).

Lemma unmount_step_returns (a : mount_args) (e : env) (c : string) (m : bool)
  (t : list event) (ch : bool) (c' : string) (m' : bool) :
  unmount_step a e c m = (t, inr (ch, c', m')) ->
  ch = gonna_unmount a && m
  /\ m' = m && (negb (gonna_unmount a) || check_mode e).
Proof.
  unfold unmount_step.
  destruct (gonna_unmount a), m, (check_mode e), (unmount_error e);
    cbn; intros [= ]; subst; auto.
Qed.

Lemma mount_step_returns (a : mount_args) (e : env) (ch : bool) (c : string)
  (m : bool) (t : list event) (ch' : bool) (c' : string) :
  mount_step a e ch c m = (t, inr (ch', c')) ->
  ch' = ch || (gonna_mount a && negb m).
Proof.
  unfold mount_step.
  destruct (gonna_mount a), m, (check_mode e), (mount_error e);
    cbn; intros [= ]; subst; rewrite ?orb_false_r, ?orb_true_r; auto.
Qed.

(** The steps of a run that returns. *)
Lemma run_module_returns (a : mount_args) (e : env) (t : list event)
  (r : result) :
  run_module a e = (t, inr r) ->
  exists made t0 c1 t1 text ch1 c2 m1 t2 ch2 c3 t3 c4 t4,
    persistent_prologue a e = (t0, inr made)
    /\ fs_exists e = true
    /\ check_mount_point a e "starting" = (t1, inr c1)
    /\ df_rc e = 0
    /\ parmtext (dtstr e) a = Some text
    /\ unmount_step a e c1 (currently_mounted a (df_stdout e))
       = (t2, inr (ch1, c2, m1))
    /\ mount_step a e ch1 c2 m1 = (t3, inr (ch2, c3))
    /\ persistent_step a e text c3 = (t4, inr c4)
    /\ r = mk_result made ch2 c4 (fullcmd a) 0 None None
    /\ t = t0 ++ t1 ++ [RunCommand "df"] ++ t2 ++ t3 ++ t4.
Proof.
  unfold run_module. intros H.
  run_inv H t0 made t0' Epro.
  run_inv H tf xf tf' Efs. destruct (fs_exists e); [|discriminate Efs].
  injection Efs as <-.
  run_inv H t1 c1 t1' Ecmp.
  run_inv H td xd td' Edf. injection Edf as <-.
  run_inv H tr xr tr' Erc. destruct (df_rc e =? 0) eqn:Hrc; [|discriminate Erc].
  injection Erc as <-. apply Nat.eqb_eq in Hrc.
  run_inv H tp text tp' Etx.
  destruct (parmtext (dtstr e) a) as [text'|]; [|discriminate Etx].
  injection Etx as <- <-.
  run_inv H t2 um t2' Eum. destruct um as [[ch1 c2] m1].
  run_inv H t3 mo t3' Emo. destruct mo as [ch2 c3].
  run_inv H t4 c4 t4' Eps. injection H as <- <-.
  exists made, t0, c1, t1, text', ch1, c2, m1, t2, ch2, c3, t3, c4, t4.
  repeat split; try assumption.
  cbn [app]. now rewrite app_nil_r.
Qed.

(** X15.  [changed] after a run that returns: it says whether the file
    system was mounted or unmounted (or, in check mode, would have been),
    and nothing else; whether the member was edited has no part in it.
    Without an unmount ([mounted], [present]) it is true when the source
    was not mounted; without a mount ([unmounted], [absent]) it is true
    when the source was mounted; with both ([remounted]) it is always
    true. *)
Theorem changed_after_run :
  forall (a : mount_args) (e : env) (t : list event) (r : result),
    run_module a e = (t, inr r) ->
    (gonna_unmount a = false ->
     changed r = gonna_mount a && negb (currently_mounted a (df_stdout e)))
    /\ (gonna_mount a = false ->
        changed r = gonna_unmount a && currently_mounted a (df_stdout e))
    /\ (gonna_mount a = true -> gonna_unmount a = true -> changed r = true).
Proof.
  intros a e t r H.
  apply run_module_returns in H
    as (made & t0 & c1 & t1 & text & ch1 & c2 & m1 & t2 & ch2 & c3 & t3 & c4
        & t4 & _ & _ & _ & _ & _ & Hum & Hmo & _ & -> & _).
  apply unmount_step_returns in Hum as [-> ->].
  apply mount_step_returns in Hmo as ->. cbn [changed].
  destruct (gonna_unmount a), (gonna_mount a),
    (currently_mounted a (df_stdout e)), (check_mode e);
    repeat split; intros; try reflexivity; discriminate.
Qed.

Lemma changed_after_run_witness :
  exists t r,
    run_module sample_mount sample_env = (t, inr r) /\ changed r = false.
Proof.
  eexists _, _. split; [reflexivity|].
  exact (proj1 (changed_after_run sample_mount sample_env _ _ eq_refl)
           eq_refl).
Defined.

(** Every value of [state] holds one of the words that the test for the
    persistent write looks for. *)
Lemma write_persistent_any_state (a : mount_args) (p : persistent_args) :
  In (state a) state_choices -> persistent a = Some p ->
  data_set_name p <> EmptyString -> write_persistent a = true.
Proof.
  intros Hst Hp Hname. unfold write_persistent. rewrite Hp.
  assert (Hlen : (0 <? String.length (Py.upper (data_set_name p))) = true).
  { destruct (data_set_name p); [congruence|reflexivity]. }
  rewrite Hlen. cbn [andb]. rewrite andb_true_r.
  unfold state_choices in Hst. cbn [In] in Hst.
  repeat (destruct Hst as [<-|Hst]; [reflexivity|]). contradiction.
Qed.

Lemma persistent_step_returns (a : mount_args) (e : env)
  (p : persistent_args) (text c c' : string) (t : list event) :
  persistent a = Some p -> write_persistent a = true ->
  check_mode e = false ->
  persistent_step a e text c = (t, inr c') ->
  exists ms,
    ms_match (src a) = Some ms
    /\ In (WriteFile (tmp_file_filename e)
             (Py.join_nl
                (swap_lines ms (PyStr.splitlines (member_text e)) text))) t
    /\ In (CopyUss2Mvs (tmp_file_filename e) (Py.upper (data_set_name p))) t.
Proof.
  intros Hp Hw Hc. unfold persistent_step. rewrite Hp, Hw, Hc.
  cbn [negb andb]. unfold write_back, swap_text.
  destruct (ms_match (src a)) as [ms|].
  - intros H. exists ms. split; [reflexivity|].
    destruct (member_exists e); [|discriminate H].
    destruct (backup p); [destruct (backup_name_var p)|];
      try discriminate H;
      destruct (tmp_is_file e); cbn in H; injection H as <- _;
      cbn; auto 10.
  - intros H. exfalso.
    destruct (member_exists e); [|discriminate H].
    destruct (backup p); [destruct (backup_name_var p)|]; discriminate H.
Qed.

(** X16.  Outside check mode, a run that returns has written the member
    whenever [persistent] names one, in every state: the states
    [unmounted] and [remounted] hold the word [mounted], which is what the
    test looks for.  The text written is what [swap_text] makes of the
    member and the block of the run; it is copied to the data set named in
    upper case.  The name is a 7-bit text, on which [Py.upper] is
    [str.upper]. *)
Theorem member_written_in_every_state :
  forall (a : mount_args) (e : env) (p : persistent_args) (t : list event)
         (r : result),
    In (state a) state_choices -> persistent a = Some p ->
    data_set_name p <> EmptyString -> Py.is_ascii (data_set_name p) = true ->
    check_mode e = false ->
    run_module a e = (t, inr r) ->
    exists ms text,
      ms_match (src a) = Some ms
      /\ parmtext (dtstr e) a = Some text
      /\ In (WriteFile (tmp_file_filename e)
               (Py.join_nl
                  (swap_lines ms (PyStr.splitlines (member_text e)) text))) t
      /\ In (CopyUss2Mvs (tmp_file_filename e) (Py.upper (data_set_name p))) t.
Proof.
  intros a e p t r Hst Hp Hname _ Hc H.
  apply run_module_returns in H
    as (made & t0 & c1 & t1 & text & ch1 & c2 & m1 & t2 & ch2 & c3 & t3 & c4
        & t4 & _ & _ & _ & _ & Htext & _ & _ & Hps & _ & ->).
  pose proof (write_persistent_any_state a p Hst Hp Hname) as Hw.
  destruct (persistent_step_returns a e p text c3 c4 t4 Hp Hw Hc Hps)
    as (ms & Hms & Hwr & Hcp).
  exists ms, text. repeat split; try assumption;
    repeat (apply in_or_app; right); assumption.
Qed.

Lemma member_written_in_every_state_witness :
  exists t r ms text,
    run_module sample_unmount sample_env = (t, inr r)
    /\ ms_match (src sample_unmount) = Some ms
    /\ parmtext (dtstr sample_env) sample_unmount = Some text
    /\ In (WriteFile (tmp_file_filename sample_env)
             (Py.join_nl
                (swap_lines ms (PyStr.splitlines (member_text sample_env))
                   text))) t
    /\ In (CopyUss2Mvs (tmp_file_filename sample_env) "SYS1.PARMLIB(BPXPRMAA)")
          t.
Proof.
  destruct (member_written_in_every_state sample_unmount sample_env
              (mk_persistent "sys1.parmlib(bpxprmaa)" false None) _ _
              (or_intror (or_intror (or_introl eq_refl))) eq_refl
              ltac:(discriminate) eq_refl eq_refl eq_refl)
    as (ms & text & H).
  eexists _, _, ms, text. split; [reflexivity|exact H].
Defined.

Lemma unmount_step_trace (a : mount_args) (e : env) (c : string) (m : bool) :
  Forall (fun ev => is_run_command ev = true) (trace (unmount_step a e c m)).
Proof.
  unfold unmount_step.
  destruct (gonna_unmount a), m, (check_mode e), (unmount_error e);
    repeat constructor.
Qed.

Lemma mount_step_trace (a : mount_args) (e : env) (ch : bool) (c : string)
  (m : bool) :
  Forall (fun ev => is_run_command ev = true) (trace (mount_step a e ch c m)).
Proof.
  unfold mount_step.
  destruct (gonna_mount a), m, (check_mode e), (mount_error e);
    repeat constructor.
Qed.

Lemma persistent_step_trace (a : mount_args) (e : env) (text c : string) :
  Forall (fun ev => is_backup_call ev = false)
         (trace (persistent_step a e text c)).
Proof.
  unfold persistent_step. destruct (persistent a) as [p|]; [|constructor].
  destruct (_ && _); [|constructor].
  destruct (member_exists e); [|constructor].
  destruct (backup p); [destruct (backup_name_var p)|];
    destruct (write_back _ _ _) as [[newtext|]|];
    destruct (tmp_is_file e); repeat constructor.
Qed.

(** The events of a run when each step keeps to a set of events. *)
Lemma run_module_trace (P : event -> Prop) (a : mount_args) (e : env) :
  Forall P (trace (persistent_prologue a e)) ->
  (forall c, Forall P (trace (check_mount_point a e c))) ->
  P (RunCommand "df") ->
  (forall c m, Forall P (trace (unmount_step a e c m))) ->
  (forall ch c m, Forall P (trace (mount_step a e ch c m))) ->
  (forall text c, Forall P (trace (persistent_step a e text c))) ->
  Forall P (trace (run_module a e)).
Proof.
  intros Hpro Hcmp Hdf Hum Hmo Hps. unfold run_module.
  apply bind_trace; [exact Hpro|].
  intros made. apply bind_trace; [destruct (fs_exists e); constructor|].
  intros _. apply bind_trace; [apply Hcmp|].
  intros comment1. apply bind_trace; [repeat constructor; exact Hdf|].
  intros _. apply bind_trace; [destruct (negb _); constructor|].
  intros _. apply bind_trace; [destruct (parmtext _ _); constructor|].
  intros text. apply bind_trace; [apply Hum|].
  intros [[changed1 comment2] mounted1]. apply bind_trace; [apply Hmo|].
  intros [changed2 comment3]. apply bind_trace; [apply Hps|].
  intros; constructor.
Qed.

Lemma check_mount_point_mkdir (a : mount_args) (e : env) (c : string) :
  Forall (fun ev => ev = Mkdir (path a)) (trace (check_mount_point a e c)).
Proof.
  unfold check_mount_point. destruct (gonna_mount a); [|constructor].
  destruct (path_exists e), (mkdir_error e), (path_exists_again e);
    repeat constructor.
Qed.

Lemma persistent_prologue_backup (a : mount_args) (e : env) :
  Forall (fun ev => exists uss dsn, ev = BackupCall uss dsn None)
         (trace (persistent_prologue a e)).
Proof.
  rewrite persistent_prologue_cases.
  destruct (persistent a) as [p|]; [|constructor].
  destruct (names_modelled p); [|constructor].
  destruct (backup p); [|constructor]. unfold mt_backupOper.
  destruct (_ && _); [constructor|].
  destruct (backup_made e); repeat econstructor.
Qed.

(** X17.  The backup that [run_module] asks [mt_backupOper] for never
    carries the [backup_name] of the arguments: [run_module] passes the
    flag [backup], and [mt_backupOper] turns a flag into no name. *)
Theorem backup_name_never_reaches_the_backup :
  forall (a : mount_args) (e : env),
    Forall (fun ev => names_the_backup ev = false) (trace (run_module a e)).
Proof.
  intros a e. apply run_module_trace.
  - generalize (persistent_prologue_backup a e). apply Forall_impl.
    now intros ev (uss & dsn & ->).
  - intros c. generalize (check_mount_point_mkdir a e c).
    apply Forall_impl. now intros ev ->.
  - reflexivity.
  - intros c m. generalize (unmount_step_trace a e c m).
    apply Forall_impl. now intros [].
  - intros ch c m. generalize (mount_step_trace a e ch c m).
    apply Forall_impl. now intros [].
  - intros text c. generalize (persistent_step_trace a e text c).
    apply Forall_impl. now intros [].
Qed.

Lemma backup_without_name (p : persistent_args) :
  backup p = true -> PyStr.truthy (backup_name p) = false ->
  backup_name_var p = None.
Proof. unfold backup_name_var. now intros -> ->. Qed.

Lemma persistent_step_without_name (a : mount_args) (e : env)
  (p : persistent_args) (text c : string) :
  persistent a = Some p -> backup p = true ->
  PyStr.truthy (backup_name p) = false ->
  write_persistent a = true -> check_mode e = false ->
  (exists err, outcome (persistent_step a e text c) = inl err)
  /\ Forall (fun ev => is_member_write ev = false)
            (trace (persistent_step a e text c)).
Proof.
  intros Hp Hb Hn Hw Hc. unfold persistent_step.
  rewrite Hp, Hw, Hc, Hb, (backup_without_name p Hb Hn). cbn [negb andb].
  destruct (member_exists e); cbn.
  - split; [now exists TypeError|repeat constructor].
  - split; [eexists; reflexivity|constructor].
Qed.

(** X18.  [backup: true] without a [backup_name].  Outside check mode,
    when the member is to be written, the run never returns: once all
    else has gone well it copies the member to a backup without a name
    and then stops in the concatenation of the comment with [None].  The
    member is not written. *)
Theorem backup_without_name_never_returns :
  forall (a : mount_args) (e : env) (p : persistent_args),
    persistent a = Some p -> backup p = true ->
    PyStr.truthy (backup_name p) = false ->
    write_persistent a = true -> check_mode e = false ->
    (exists err, outcome (run_module a e) = inl err)
    /\ Forall (fun ev => is_member_write ev = false) (trace (run_module a e))
    /\ (member_exists e = true ->
        forall text c, outcome (persistent_step a e text c) = inl TypeError).
Proof.
  intros a e p Hp Hb Hn Hw Hc. split; [|split].
  - unfold run_module.
    do 6 (apply bind_stops; intros ?).
    apply bind_stops. intros [[changed1 comment2] mounted1].
    apply bind_stops. intros [changed2 comment3].
    apply bind_stopped.
    apply (persistent_step_without_name a e p _ _ Hp Hb Hn Hw Hc).
  - apply run_module_trace.
    + generalize (persistent_prologue_trace a e). apply Forall_impl.
      now intros [].
    + intros c. generalize (check_mount_point_mkdir a e c).
      apply Forall_impl. now intros ev ->.
    + reflexivity.
    + intros c m. generalize (unmount_step_trace a e c m).
      apply Forall_impl. now intros [].
    + intros ch c m. generalize (mount_step_trace a e ch c m).
      apply Forall_impl. now intros [].
    + intros text c.
      apply (persistent_step_without_name a e p _ _ Hp Hb Hn Hw Hc).
  - intros Hm text c. unfold persistent_step.
    rewrite Hp, Hw, Hc, Hb, (backup_without_name p Hb Hn), Hm. reflexivity.
Qed.

Lemma backup_without_name_never_returns_witness :
  outcome (run_module sample_mount_backup sample_env) = inl TypeError
  /\ (exists err, outcome (run_module sample_mount_backup sample_env) = inl err)
  /\ Forall (fun ev => is_member_write ev = false)
            (trace (run_module sample_mount_backup sample_env))
  /\ (member_exists sample_env = true ->
      forall text c,
        outcome (persistent_step sample_mount_backup sample_env text c)
        = inl TypeError).
Proof.
  split; [reflexivity|].
  exact (backup_without_name_never_returns sample_mount_backup sample_env
           (mk_persistent "sys1.parmlib(bpxprmaa)" true None)
           eq_refl eq_refl eq_refl eq_refl eq_refl).
Defined.

Lemma persistent_prologue_fails (a : mount_args) (e : env) (err : abort) :
  (forall p, persistent a = Some p -> names_modelled p = true) ->
  outcome (persistent_prologue a e) = inl err -> exists msg, err = FailJson msg.
Proof.
  intros Hnames. rewrite persistent_prologue_cases.
  destruct (persistent a) as [p|]; [|discriminate].
  rewrite (Hnames p eq_refl).
  destruct (backup p); [|discriminate]. unfold mt_backupOper.
  destruct (_ && _); cbn; [intros [= <-]; eexists; reflexivity|].
  destruct (backup_made e); cbn; [discriminate|].
  intros [= <-]. eexists; reflexivity.
Qed.

(** X19.  When the source does not exist the run ends in [fail_json]
    before it looks at the mount point, runs a command or reads the
    member; the backup of the member, when asked for, has been made by
    then.  The names of [persistent] are 7-bit texts, on which [Py.upper]
    is [str.upper]. *)
Theorem missing_source_stops_the_run :
  forall (a : mount_args) (e : env),
    fs_exists e = false ->
    (forall p, persistent a = Some p -> names_modelled p = true) ->
    (exists msg, outcome (run_module a e) = inl (FailJson msg))
    /\ Forall (fun ev => is_backup_call ev = true) (trace (run_module a e))
    /\ (forall p, persistent a = Some p -> backup p = true ->
        (opt_eqb (ds_type e) "USS" || opt_eqb (ds_type e) "PS"
         || opt_eqb (ds_type e) "PO") = true ->
        trace (run_module a e)
        = [BackupCall (opt_eqb (ds_type e) "USS")
             (Py.upper (data_set_name p)) None]).
Proof.
  intros a e Hfs Hnames. unfold run_module. rewrite Hfs.
  pose proof (persistent_prologue_trace a e) as Htr.
  pose proof (persistent_prologue_fails a e) as Hfail.
  split; [|split].
  - destruct (persistent_prologue a e) as [t0 [err|made]]; cbn in *.
    + destruct (Hfail err Hnames eq_refl) as [msg ->]. now exists msg.
    + eexists; reflexivity.
  - destruct (persistent_prologue a e) as [t0 [err|made]]; cbn in *.
    + exact Htr.
    + now rewrite app_nil_r.
  - intros p Hp Hb Hty. clear Htr Hfail.
    rewrite persistent_prologue_cases, Hp, (Hnames p Hp), Hb.
    unfold mt_backupOper.
    destruct (opt_eqb (ds_type e) "USS"); cbn in Hty |- *.
    + now destruct (backup_made e).
    + rewrite Hty. cbn. now destruct (backup_made e).
Qed.

Lemma missing_source_stops_the_run_witness :
  (exists msg,
     outcome (run_module sample_mount_backup sample_env_no_source)
     = inl (FailJson msg))
  /\ Forall (fun ev => is_backup_call ev = true)
            (trace (run_module sample_mount_backup sample_env_no_source))
  /\ (forall p, persistent sample_mount_backup = Some p -> backup p = true ->
      (opt_eqb (ds_type sample_env_no_source) "USS"
       || opt_eqb (ds_type sample_env_no_source) "PS"
       || opt_eqb (ds_type sample_env_no_source) "PO") = true ->
      trace (run_module sample_mount_backup sample_env_no_source)
      = [BackupCall (opt_eqb (ds_type sample_env_no_source) "USS")
           (Py.upper (data_set_name p)) None]).
Proof.
  refine (missing_source_stops_the_run sample_mount_backup
            sample_env_no_source eq_refl _).
  intros p [= <-]. reflexivity.
Defined.


(** X20.  [unmount_opts] is read and never used: for any two values of
    two characters or more, which all its choices are, the run is the
    same, events and result. *)
Theorem unmount_opts_changes_nothing :
  forall (a : mount_args) (e : env) (o o' : string),
    2 <= String.length o -> 2 <= String.length o' ->
    run_module (with_unmount_opts a (Some o)) e
    = run_module (with_unmount_opts a (Some o')) e.
Proof.
  intros a e o o' Ho Ho'.
  assert (Hcmd : forall x, 2 <= String.length x ->
            fullumcmd (with_unmount_opts a (Some x))
            = if gonna_unmount a
              then ("tsocmd UNMOUNT FILESYSTEM\( '" ++ src a ++ "' \)")%string
              else EmptyString).
  { intros x Hx. unfold fullumcmd. cbn [unmount_opts with_unmount_opts].
    change (gonna_unmount (with_unmount_opts a (Some x)))
      with (gonna_unmount a).
    apply Nat.ltb_ge in Hx. now rewrite Hx. }
  unfold run_module, unmount_step. rewrite (Hcmd o Ho), (Hcmd o' Ho').
  reflexivity.
Qed.

Lemma unmount_opts_changes_nothing_witness :
  run_module (with_unmount_opts sample_unmount (Some "FORCE")) sample_env
  = run_module (with_unmount_opts sample_unmount (Some "NORMAL")) sample_env.
Proof.
  apply (unmount_opts_changes_nothing sample_unmount sample_env
           "FORCE" "NORMAL"); cbn; lia.
Defined.

(** * The test for a mounted source *)

Lemma prefix_app (x l : string) : String.prefix x (x ++ l) = true.
Proof.
  induction x as [|c x IH]; [now destruct l|].
  cbn [String.append]. now rewrite prefix_cons, Ascii.eqb_refl.
Qed.

Lemma contains_app (x l : string) : PyStr.contains x (x ++ l) = true.
Proof.
  destruct (x ++ l)%string eqn:E; cbn [PyStr.contains];
    rewrite <- E, prefix_app; reflexivity.
Qed.

Lemma contains_cons (x l : string) (c : ascii) :
  PyStr.contains x l = true -> PyStr.contains x (String c l) = true.
Proof. intros H. cbn [PyStr.contains]. rewrite H. apply orb_true_r. Qed.

Lemma existsb_push_char (x : string) (c : ascii) (ls : list string) :
  existsb (PyStr.contains x) ls = true ->
  existsb (PyStr.contains x) (PyStr.push_char c ls) = true.
Proof.
  destruct ls as [|l ls]; [discriminate|]. cbn [PyStr.push_char existsb].
  intros H. apply orb_prop in H as [H|H].
  - now rewrite (contains_cons _ _ _ H).
  - rewrite H. apply orb_true_r.
Qed.

(** The first line of a text begins with the characters in front of the
    first line boundary. *)
Lemma splitlines_begins (c : ascii) (x post : string) :
  no_linebreak x = true ->
  exists l ls,
    PyStr.push_char c (PyStr.splitlines_from false (x ++ post))
    = String c (x ++ l) :: ls.
Proof.
  unfold no_linebreak. revert c. induction x as [|d x IH]; intros c H.
  - cbn [String.append].
    destruct (PyStr.splitlines_from false post) as [|l ls].
    + now exists EmptyString, [].
    + now exists l, ls.
  - cbn [all_chars] in H. apply andb_prop in H as [Hd Hx].
    apply negb_true_iff in Hd.
    cbn [String.append PyStr.splitlines_from andb]. rewrite Hd.
    destruct (IH d Hx) as (l & ls & ->). now exists l, ls.
Qed.

Lemma splitlines_holds (x : string) (pre post : string) (after_cr : bool) :
  x <> EmptyString -> no_linebreak x = true ->
  existsb (PyStr.contains x)
          (PyStr.splitlines_from after_cr (pre ++ x ++ post))
  = true.
Proof.
  intros Hne Hx. revert after_cr. induction pre as [|p pre IH]; intros after_cr.
  - destruct x as [|c x]; [congruence|].
    cbn [String.append PyStr.splitlines_from].
    unfold no_linebreak in Hx. cbn [all_chars] in Hx.
    apply andb_prop in Hx as [Hc Hx]. apply negb_true_iff in Hc.
    assert (Hnl : Ascii.eqb c Py.nl = false).
    { destruct (Ascii.eqb_spec c Py.nl) as [->|_]; [discriminate Hc|reflexivity]. }
    rewrite Hnl, andb_false_r, Hc.
    destruct (splitlines_begins c x post Hx) as (l & ls & ->).
    cbn [existsb].
    change (String c (x ++ l)) with (String c x ++ l)%string.
    now rewrite contains_app.
  - cbn [String.append PyStr.splitlines_from].
    destruct (after_cr && Ascii.eqb p Py.nl); [apply IH|].
    destruct (PyStr.is_linebreak p).
    + cbn [existsb]. rewrite IH. apply orb_true_r.
    + apply existsb_push_char, IH.
Qed.

(** X21.  [run_module] takes the source for mounted as soon as its name
    stands anywhere in the output of [df]: inside a longer data set name
    or inside a path as well. *)
Theorem source_text_in_df_counts_as_mounted :
  forall (a : mount_args) (before after : string),
    src a <> EmptyString -> no_linebreak (src a) = true ->
    currently_mounted a (before ++ src a ++ after) = true.
Proof.
  intros a before after Hne Hs. unfold currently_mounted, PyStr.splitlines.
  now apply splitlines_holds.
Qed.

Lemma source_text_in_df_counts_as_mounted_witness :
  currently_mounted sample_mount
    ("/mnt/a (OTHER." ++ src sample_mount ++ "2) 100/200")
  = true.
Proof.
  apply (source_text_in_df_counts_as_mounted sample_mount
           "/mnt/a (OTHER." "2) 100/200");
    [discriminate|reflexivity].
Defined.

(** * zos_find: the command lines *)

(** X22.  [_dgrep_wrapper] puts the search string and the data set
    patterns into the command in the same way, one behind the other.  With
    no search string ([None] or the empty string) the first pattern stands
    where the search string stands otherwise: the command is the one for
    searching the remaining patterns for the first. *)
Theorem dgrep_without_content :
  forall (p : string) (ps : list string) (content : option string)
         (ignore_case line_num verbose : bool) (context : option nat),
    p <> EmptyString ->
    content = None \/ content = Some EmptyString ->
    dgrep_cmd (p :: ps) content ignore_case line_num verbose context
    = dgrep_cmd ps (Some p) ignore_case line_num verbose context.
Proof.
  intros p ps content i l v c Hp Hc. unfold dgrep_cmd, add_patterns.
  cbn [fold_left]. f_equal.
  assert (Hlen : (0 <? String.length p) = true)
    by (destruct p; [congruence|reflexivity]).
  rewrite Hlen.
  destruct Hc as [-> | ->]; cbn [String.length Nat.ltb Nat.leb];
    rewrite !append_assoc; reflexivity.
Qed.

Lemma dgrep_without_content_witness :
  dgrep_cmd ["USER.*"; "SYS1.*"] None true false false None
  = dgrep_cmd ["SYS1.*"] (Some "USER.*") true false false None.
Proof.
  apply dgrep_without_content; [discriminate|now left].
Defined.

(** * Applying the editor twice *)

Lemma splitlines_line (l : string) :
  no_linebreak l = true -> l <> EmptyString ->
  PyStr.splitlines_from false l = [l].
Proof.
  unfold no_linebreak. induction l as [|c l IH]; intros H Hne; [congruence|].
  cbn [all_chars] in H. apply andb_prop in H as [Hc Hl].
  apply negb_true_iff in Hc. cbn [PyStr.splitlines_from andb]. rewrite Hc.
  destruct l as [|d l]; [reflexivity|].
  rewrite IH by (assumption || discriminate). reflexivity.
Qed.

(** [splitlines] gives back the lines of a text without a final line
    break, when the last line is not empty. *)
Lemma splitlines_join_last (ls : list string) (e : string) :
  Forall (fun l => no_linebreak l = true) ls ->
  no_linebreak e = true -> e <> EmptyString ->
  PyStr.splitlines (Py.join_nl (ls ++ [e])) = ls ++ [e].
Proof.
  intros Hls He Hne. unfold PyStr.splitlines.
  induction Hls as [|l ls Hl Hls IH]; [now apply splitlines_line|].
  cbn [app]. rewrite join_nl_cons by (now destruct ls).
  now rewrite splitlines_first_line, IH.
Qed.

Lemma end_marker_not_empty (e : string) :
  is_end_marker e = true -> e <> EmptyString.
Proof. now intros H ->. Qed.

(** C1 (counterexample).  A text without a line that the pattern matches
    is appended by every call: the second call finds nothing to delete and
    appends it again.  That holds for ["NOTE"], and for the block of
    [a.zfs], whose directive holds the identifier in lower case while the
    pattern holds it in upper case.  And the text that [run_module] builds
    ends with a line break, so the list that the first call has edited ends
    with an empty line: a second call on that list deletes the block, keeps
    the empty line and appends the block behind it, one line more with
    every call.  Read back with [splitlines], the text of the first call
    is not stable either when the first call kept no line (the BEGIN
    marker is then at index 0, which the walk up from the directive never
    visits: 12 lines become 14) or when the buffer ended on a directive
    line that was an open span by itself (it is kept by the first call and
    taken for the start of a block by the second: 14 lines become 21). *)
Lemma second_call_appends_again :
  swap_lines (matcher "A") ["KEEP"] "NOTE" = ["KEEP"; "NOTE"]
  /\ swap_lines (matcher "A") (swap_lines (matcher "A") ["KEEP"] "NOTE") "NOTE"
     = ["KEEP"; "NOTE"; "NOTE"]
  /\ ms_match "a.zfs" <> None
  /\ swap_lines (matcher "a.zfs") ["KEEP"] block_text_lower
     = "KEEP" :: Py.split_nl block_text_lower
  /\ swap_lines (matcher "a.zfs")
       (swap_lines (matcher "a.zfs") ["KEEP"] block_text_lower)
       block_text_lower
     = "KEEP" :: Py.split_nl block_text_lower ++ Py.split_nl block_text_lower
  /\ parmtext sample_dtstr sample_mount = Some sample_block_text
  /\ swap_lines (matcher (src sample_mount)) ["KEEP"] sample_block_text
     = "KEEP" :: Py.split_nl sample_block_text
  /\ swap_lines (matcher (src sample_mount))
       (swap_lines (matcher (src sample_mount)) ["KEEP"] sample_block_text)
       sample_block_text
     = "KEEP" :: EmptyString :: Py.split_nl sample_block_text
  /\ List.length (swap_lines (matcher (src sample_mount)) [] sample_block_text)
     = 12
  /\ List.length
       (swap_lines (matcher (src sample_mount))
          (PyStr.splitlines
             (Py.join_nl
                (swap_lines (matcher (src sample_mount)) []
                   sample_block_text)))
          sample_block_text)
     = 14
  /\ List.length
       (swap_lines (matcher (src sample_mount))
          ["KEEP"; "MOUNT FILESYSTEM('SOMEUSER.VVV.ZFS')"] sample_block_text)
     = 14
  /\ List.length
       (swap_lines (matcher (src sample_mount))
          (PyStr.splitlines
             (Py.join_nl
                (swap_lines (matcher (src sample_mount))
                   ["KEEP"; "MOUNT FILESYSTEM('SOMEUSER.VVV.ZFS')"]
                   sample_block_text)))
          sample_block_text)
     = 21.
Proof. repeat split; try reflexivity. discriminate. Qed.

(** C1 (amended).  Let [new_block_text] be a managed block for the
    identifier: a BEGIN marker, comment lines, a directive line that the
    pattern matches, continuation lines, an END marker, and behind it
    nothing ([tail = []]) or the line break that [run_module] puts there
    ([tail = [""]]); no line holds a line boundary.  If the first call
    keeps at least one line of the buffer, and the buffer does not end on
    a directive line that is an open span by itself, then a second call on
    the text of the first, read back with [splitlines] as [run_module]
    reads the member, gives the buffer of the first call again: it deletes
    the block just appended and appends it again.  A second call on the
    list that the first call has edited gives the kept lines, [tail], and
    the block: the buffer of the first call when the text has no final
    line break, and one empty line more when it has one. *)
Theorem swap_text_twice :
  forall (removing : string) (ms : string -> bool) (original : list string)
         (adding b : string) (cmts : list string) (m : string)
         (conts : list string) (e : string) (tail : list string),
    ms_match removing = Some ms ->
    Py.split_nl adding = (b :: cmts ++ m :: conts ++ [e]) ++ tail ->
    tail = [] \/ tail = [EmptyString] ->
    is_begin_marker b = true ->
    Forall (fun l => is_plain_comment l = true) cmts ->
    ms m = true ->
    Forall (fun l => is_continuation l = true) conts ->
    is_end_marker e = true ->
    Forall (fun l => no_linebreak l = true) original ->
    Forall (fun l => no_linebreak l = true) (Py.split_nl adding) ->
    remove_blocks ms original <> [] ->
    ends_on_bare_directive (scan ms original) = false ->
    swap_lines ms
      (PyStr.splitlines (Py.join_nl (swap_lines ms original adding))) adding
    = swap_lines ms original adding
    /\ swap_lines ms (swap_lines ms original adding) adding
       = remove_blocks ms original ++ tail ++ Py.split_nl adding.
Proof.
  intros removing ms original adding b cmts m conts e tail
         Hms Hsplit Htail Hb Hcmts Hm Hconts He Horig Hlines Hne Hbare.
  pose proof (remove_blocks_clear removing ms original Hms Hbare) as Hkept.
  set (kept := remove_blocks ms original) in *.
  set (block := b :: cmts ++ m :: conts ++ [e]) in *.
  assert (Hadd : (0 <? String.length adding) = true).
  { destruct adding; [|reflexivity]. cbn in Hsplit.
    unfold block in Hsplit. destruct cmts; cbn [app] in Hsplit;
      [destruct conts|]; discriminate. }
  assert (Hkl : Forall (fun l => no_linebreak l = true) kept).
  { apply (subseq_Forall _ kept original); [|exact Horig].
    apply delete_spans_subseq. }
  assert (Hbl : Forall (fun l => no_linebreak l = true) block).
  { rewrite Hsplit in Hlines. now apply Forall_app in Hlines. }
  assert (Hone : swap_lines ms original adding = kept ++ block ++ tail).
  { unfold swap_lines. fold kept. now rewrite Hadd, Hsplit. }
  assert (Hrem : forall rest, no_match ms rest ->
            remove_blocks ms (kept ++ block ++ rest) = kept ++ rest).
  { intros rest Hrest. now apply (remove_marked_block removing). }
  assert (Hblank : no_match ms tail).
  { destruct Htail as [-> | ->]; [constructor|].
    constructor; [apply (ms_match_not_blank removing ms Hms)|constructor]. }
  split.
  - assert (Hread : PyStr.splitlines (Py.join_nl (kept ++ block ++ tail))
                    = kept ++ block).
    { destruct Htail as [-> | ->].
      - rewrite app_nil_r. unfold block.
        replace (kept ++ b :: cmts ++ m :: conts ++ [e])
          with ((kept ++ b :: cmts ++ m :: conts) ++ [e])
          by (app_norm; reflexivity).
        unfold block in Hbl.
        replace (b :: cmts ++ m :: conts ++ [e])
          with ((b :: cmts ++ m :: conts) ++ [e]) in Hbl
          by (app_norm; reflexivity).
        apply Forall_app in Hbl as [Hbl1 Hbl2].
        apply splitlines_join_last.
        + apply Forall_app. now split.
        + now inversion Hbl2.
        + now apply end_marker_not_empty.
      - rewrite app_assoc. apply splitlines_join.
        apply Forall_app. now split. }
    rewrite Hone, Hread. unfold swap_lines at 1.
    rewrite Hadd, Hsplit. fold block.
    rewrite <- (app_nil_r block) at 1.
    rewrite (Hrem [] ltac:(constructor)), app_nil_r. reflexivity.
  - rewrite Hone. unfold swap_lines at 1.
    rewrite Hadd, (Hrem tail Hblank), <- app_assoc. reflexivity.
Qed.

Lemma swap_text_twice_witness :
  swap_lines (matcher (src sample_mount))
    (PyStr.splitlines
       (Py.join_nl
          (swap_lines (matcher (src sample_mount)) stale_block_buffer
             sample_block_text)))
    sample_block_text
  = swap_lines (matcher (src sample_mount)) stale_block_buffer
      sample_block_text
  /\ swap_lines (matcher (src sample_mount))
       (swap_lines (matcher (src sample_mount)) stale_block_buffer
          sample_block_text)
       sample_block_text
     = remove_blocks (matcher (src sample_mount)) stale_block_buffer
       ++ [EmptyString] ++ Py.split_nl sample_block_text.
Proof.
  refine (swap_text_twice (src sample_mount) (matcher (src sample_mount))
            stale_block_buffer sample_block_text
            "/* BEGIN ANSIBLE MANAGED BLOCK 20210101-000000 */"
            ["/* C1:For Tape2 project */"]
            "MOUNT FILESYSTEM('SOMEUSER.VVV.ZFS')"
            ["      MOUNTPOINT('/u/omvsadm/core')"; "      TYPE('ZFS')";
             "      MODE(RDWR)"; "      SETUID"; "      WAIT";
             "      SECURITY"; "      AUTOMOVE"]
            "/* END ANSIBLE MANAGED BLOCK 20210101-000000 */"
            [EmptyString]
            eq_refl eq_refl (or_intror eq_refl) eq_refl _ eq_refl _ eq_refl
            _ _ _ eq_refl).
  - repeat constructor.
  - repeat constructor.
  - repeat constructor.
  - repeat constructor.
  - discriminate.
Defined.

(** * The lines matched by the pattern *)

Section Shape.

Import Regex.

(** ** What a matched text looks like *)

Lemma matches_spaces_inv (q : pattern) (s : string) :
  matches (Spaces :: q) s = true ->
  exists ws r, s = (ws ++ r)%string /\ all_spaces ws = true
               /\ matches q r = true.
Proof.
  induction s as [|x s IH]; rewrite matches_spaces; intros H.
  - rewrite orb_false_r in H. now exists EmptyString, EmptyString.
  - apply orb_prop in H as [H|H].
    + now exists EmptyString, (String x s).
    + apply andb_prop in H as [Hx H].
      destruct (IH H) as (ws & r & -> & Hws & Hr).
      exists (String x ws), r. cbn [String.append all_spaces].
      now rewrite Hx, Hws.
Qed.

Lemma matches_lit_inv (c : ascii) (q : pattern) (s : string) :
  matches (Lit c :: q) s = true ->
  exists r, s = String c r /\ matches q r = true.
Proof.
  destruct s as [|x s]; cbn [matches]; [discriminate|]. intros H.
  apply andb_prop in H as [Hx H]. apply Ascii.eqb_eq in Hx as ->.
  now exists s.
Qed.

Lemma matches_lits_inv (k : string) (q : pattern) (s : string) :
  matches (lits k ++ q) s = true ->
  exists r, s = (k ++ r)%string /\ matches q r = true.
Proof.
  revert s. induction k as [|c k IH]; intros s H.
  - now exists s.
  - cbn [lits app] in H. apply matches_lit_inv in H as (r & -> & H).
    destruct (IH r H) as (r' & -> & H'). now exists r'.
Qed.

Lemma matches_space_inv (q : pattern) (s : string) :
  matches (Space :: q) s = true ->
  exists x r, s = String x r /\ Py.isspace x = true /\ matches q r = true.
Proof.
  destruct s as [|x s]; cbn [matches]; [discriminate|]. intros H.
  apply andb_prop in H as [Hx H]. now exists x, s.
Qed.

(** The items of an identifier without [$] match the texts that agree
    with it. *)
Lemma matches_agrees (id : string) (p q : pattern) (t r : string) :
  of_identifier id = Some p -> has_char "$" id = false ->
  agrees id t = true ->
  matches (p ++ q) (t ++ r)%string = matches q r.
Proof.
  revert p t. induction id as [|c id IH]; intros p t Hp Hd Ha.
  - injection Hp as <-. destruct t; [reflexivity|discriminate].
  - cbn [of_identifier] in Hp. destruct (unsupported c); [discriminate|].
    destruct (of_identifier id) as [p'|] eqn:Hid; [|discriminate].
    injection Hp as <-. cbn [has_char] in Hd.
    apply orb_false_elim in Hd as [Hc Hd]. rewrite Hc.
    destruct t as [|x t]; [discriminate|]. cbn [agrees] in Ha.
    apply andb_prop in Ha as [Hx Ha]. cbn [String.append app].
    destruct (Ascii.eqb c "."); cbn [matches]; rewrite Hx; cbn [andb];
      now apply IH.
Qed.

Lemma matches_agrees_inv (id : string) (p q : pattern) (s : string) :
  of_identifier id = Some p -> has_char "$" id = false ->
  matches (p ++ q) s = true ->
  exists t r, s = (t ++ r)%string /\ agrees id t = true
              /\ matches q r = true.
Proof.
  revert p s. induction id as [|c id IH]; intros p s Hp Hd H.
  - injection Hp as <-. now exists EmptyString, s.
  - cbn [of_identifier] in Hp. destruct (unsupported c); [discriminate|].
    destruct (of_identifier id) as [p'|] eqn:Hid; [|discriminate].
    injection Hp as <-. cbn [has_char] in Hd.
    apply orb_false_elim in Hd as [Hc Hd]. rewrite Hc in H.
    destruct s as [|x s]; cbn [app] in H;
      [destruct (Ascii.eqb c "."); discriminate H|].
    assert (Hx : (if Ascii.eqb c "." then negb (Ascii.eqb x Py.nl)
                  else Ascii.eqb x c) = true
                 /\ matches (p' ++ q) s = true).
    { destruct (Ascii.eqb c "."); cbn [matches] in H;
        now apply andb_prop in H. }
    destruct Hx as [Hx Hs].
    destruct (IH p' s eq_refl Hd Hs) as (t & r & -> & Ha & Hr).
    exists (String x t), r. cbn [String.append agrees].
    now rewrite Hx, Ha.
Qed.

(** ** White space in front of a literal *)

Lemma matches_spaces_then_lit (ws : string) (m : ascii) (q : pattern)
  (r : string) :
  all_spaces ws = true -> Py.isspace m = false ->
  matches (Spaces :: Lit m :: q) (ws ++ String m r)%string = matches q r.
Proof.
  intros Hws Hm. induction ws as [|x ws IH].
  - cbn [String.append]. rewrite matches_spaces_skip by exact Hm.
    apply matches_lit.
  - cbn [all_spaces] in Hws. apply andb_prop in Hws as [Hx Hws].
    cbn [String.append]. rewrite matches_spaces_pass by assumption.
    now apply IH.
Qed.

(** The same identifier in another letter case. *)
Lemma matches_other_case (s : string) (p q : pattern) (t r : string) :
  of_identifier (Py.upper s) = Some p -> has_char "$" s = false ->
  Py.upper t = Py.upper s ->
  matches (p ++ q) (t ++ r)%string
  = String.eqb t (Py.upper s) && matches q r.
Proof.
  revert p t. induction s as [|c s IH]; intros p t Hp Hd Ht.
  - injection Hp as <-. destruct t; [reflexivity|discriminate].
  - destruct t as [|x t]; [discriminate|].
    cbn [Py.upper] in Ht. injection Ht as Hx Ht.
    cbn [Py.upper of_identifier] in Hp.
    destruct (unsupported (Py.upper_char c)); [discriminate|].
    destruct (of_identifier (Py.upper s)) as [p'|] eqn:Hs; [|discriminate].
    injection Hp as <-. cbn [has_char] in Hd.
    apply orb_false_elim in Hd as [Hc Hd].
    rewrite upper_char_dot, upper_char_dollar, Hc.
    cbn [Py.upper String.append app String.eqb].
    destruct (Ascii.eqb_spec c ".") as [->|Hdot].
    + assert (x = "."%char) as ->.
      { apply Ascii.eqb_eq. rewrite <- upper_char_dot, Hx. reflexivity. }
      change (matches (AnyChar :: ?u) (String "." ?y)) with (matches u y).
      rewrite (IH p' t eq_refl Hd Ht). reflexivity.
    + change (matches (Lit ?u :: ?v) (String x ?y))
        with (Ascii.eqb x u && matches v y).
      rewrite (IH p' t eq_refl Hd Ht), andb_assoc. reflexivity.
Qed.

(** ** An identifier with a [$] *)

Lemma matches_suffix (a b : pattern) (s : string) :
  matches (a ++ b) s = true -> exists s', matches b s' = true.
Proof.
  revert s. induction a as [|i a IH]; intros s H; [now exists s|].
  cbn [app] in H. destruct i.
  - apply matches_lit_inv in H as (r & _ & H). now apply (IH r).
  - destruct s as [|x s]; cbn [matches] in H; [discriminate|].
    apply andb_prop in H as [_ H]. now apply (IH s).
  - destruct s as [|x [|y s]]; cbn [matches] in H;
      [now apply (IH EmptyString)| |discriminate].
    apply andb_prop in H as [_ H]. now apply (IH (String x EmptyString)).
  - apply matches_space_inv in H as (x & r & _ & _ & H). now apply (IH r).
  - apply matches_spaces_inv in H as (ws & r & _ & _ & H). now apply (IH r).
Qed.

Lemma matches_last_lit (q : pattern) (c : ascii) (s : string) :
  matches (q ++ [Lit c]) s = true -> has_char c s = true.
Proof.
  revert s. induction q as [|i q IH]; intros s H; cbn [app] in H.
  - apply matches_lit_inv in H as (r & -> & _). cbn [has_char].
    now rewrite Ascii.eqb_refl.
  - destruct i.
    + apply matches_lit_inv in H as (r & -> & H). cbn [has_char].
      rewrite (IH r H). apply orb_true_r.
    + destruct s as [|x s]; cbn [matches] in H; [discriminate|].
      apply andb_prop in H as [_ H]. cbn [has_char].
      rewrite (IH s H). apply orb_true_r.
    + destruct s as [|x [|y s]]; cbn [matches] in H;
        [now apply IH| |discriminate].
      apply andb_prop in H as [_ H]. now apply IH.
    + apply matches_space_inv in H as (x & r & -> & _ & H). cbn [has_char].
      rewrite (IH r H). apply orb_true_r.
    + apply matches_spaces_inv in H as (ws & r & -> & _ & H).
      rewrite has_char_app, (IH r H). apply orb_true_r.
Qed.

Lemma end_anchor_then_lit (q : pattern) (s : string) :
  matches (EndAnchor :: q ++ [Lit ")"]) s = false.
Proof.
  destruct (matches (EndAnchor :: q ++ [Lit ")"]) s) eqn:H; [|reflexivity].
  exfalso. destruct s as [|x [|y s]]; cbn [matches] in H;
    [| |discriminate].
  - apply matches_last_lit in H. discriminate.
  - apply andb_prop in H as [Hx H]. apply Ascii.eqb_eq in Hx as ->.
    apply matches_last_lit in H. discriminate.
Qed.

Lemma of_identifier_dollar (id : string) (p : pattern) :
  of_identifier id = Some p -> has_char "$" id = true ->
  exists pre post, p = pre ++ EndAnchor :: post.
Proof.
  revert p. induction id as [|c id IH]; intros p Hp Hd; [discriminate|].
  cbn [of_identifier] in Hp. destruct (unsupported c); [discriminate|].
  destruct (of_identifier id) as [p'|] eqn:Hid; [|discriminate].
  injection Hp as <-. cbn [has_char] in Hd.
  destruct (Ascii.eqb_spec c "$") as [->|Hc].
  - now exists [], p'.
  - cbn [orb] in Hd. destruct (IH p' eq_refl Hd) as (pre & post & ->).
    eexists (_ :: pre), post. reflexivity.
Qed.

(** A pattern is made for 7-bit identifiers only. *)
Lemma of_identifier_upper_ascii (s : string) (p : pattern) :
  of_identifier (Py.upper s) = Some p -> Py.is_ascii s = true.
Proof.
  revert p. induction s as [|c s IH]; intros p Hp; [reflexivity|].
  cbn [Py.upper of_identifier] in Hp.
  destruct (unsupported (Py.upper_char c)) eqn:Hu; [discriminate|].
  destruct (of_identifier (Py.upper s)) as [p'|] eqn:Hs; [|discriminate].
  cbn [Py.is_ascii]. rewrite (IH p' eq_refl), andb_true_r.
  destruct c as [[] [] [] [] [] [] [] []]; try reflexivity;
    vm_compute in Hu; discriminate Hu.
Qed.

End Shape.

(** The pattern read against a line, item by item. *)
Lemma directive_shape_matched (id : string) (ident : Regex.pattern)
  (l : string) :
  Regex.of_identifier id = Some ident -> has_char "$" id = false ->
  Regex.matches
    (Regex.Spaces :: Regex.lits "MOUNT"
     ++ Regex.Space :: Regex.Spaces :: Regex.lits "FILESYSTEM("
     ++ Regex.Spaces :: Regex.Lit "'"
        :: ident ++ [Regex.Lit "'"; Regex.Spaces; Regex.Lit ")"]) l = true
  <-> directive_shape id l.
Proof.
  intros Hid Hd. split.
  - intros H.
    apply matches_spaces_inv in H as (ws1 & r1 & -> & Hws1 & H).
    apply matches_lits_inv in H as (r2 & -> & H).
    apply matches_space_inv in H as (x & r3 & -> & Hx & H).
    apply matches_spaces_inv in H as (ws2 & r4 & -> & Hws2 & H).
    apply matches_lits_inv in H as (r5 & -> & H).
    apply matches_spaces_inv in H as (ws3 & r6 & -> & Hws3 & H).
    apply matches_lit_inv in H as (r7 & -> & H).
    apply (matches_agrees_inv id ident _ _ Hid Hd) in H
      as (t & r8 & -> & Ha & H).
    apply matches_lit_inv in H as (r9 & -> & H).
    apply matches_spaces_inv in H as (ws4 & r10 & -> & Hws4 & H).
    apply matches_lit_inv in H as (rest & -> & _).
    exists ws1, (String x ws2), ws3, t, ws4, rest.
    cbn [all_spaces]. rewrite Hx, Hws2.
    repeat split; try assumption; discriminate.
  - intros (ws1 & ws2 & ws3 & t & ws4 & rest & -> & H1 & H2 & Hne & H3 & H4
            & Ha).
    apply matches_leading_spaces; [exact H1|].
    rewrite matches_lits.
    apply matches_some_spaces; [exact H2|exact Hne|].
    rewrite matches_lits.
    apply matches_leading_spaces; [exact H3|].
    change ("'" ++ t ++ "'" ++ ws4 ++ ")" ++ rest)%string
      with (String "'" (t ++ "'" ++ ws4 ++ ")" ++ rest)%string).
    rewrite matches_lit.
    rewrite (matches_agrees id ident _ _ _ Hid Hd Ha).
    change ("'" ++ ws4 ++ ")" ++ rest)%string
      with (String "'" (ws4 ++ ")" ++ rest)%string).
    rewrite matches_lit.
    apply matches_leading_spaces; [exact H4|].
    change (")" ++ rest)%string with (String ")" rest).
    now rewrite matches_lit.
Qed.

(** C8 (counterexample).  The identifier is put into the pattern in upper
    case and the pattern is compiled without a flag: a line in lower case
    is not matched, and neither is an upper-case directive whose identifier
    is written in lower case.  With a [$] in the identifier not even the
    directive in upper case is matched. *)
Lemma lower_case_line_is_not_matched :
  ms_match "a" <> None
  /\ matcher "a" "mount filesystem('a')" = false
  /\ matcher "a" "MOUNT FILESYSTEM('a')" = false
  /\ matcher "a" "MOUNT FILESYSTEM('A')" = true
  /\ ms_match "a$b" <> None
  /\ matcher "a$b" "MOUNT FILESYSTEM('A$B')" = false.
Proof. repeat split; try reflexivity; discriminate. Qed.

(** C8 (amended).  For an identifier of the modelled fragment.  The case
    of the [resource_identifier] argument plays no role, since it is put
    into the pattern in upper case.  For the line the match is
    case-sensitive.  When the identifier holds no [$], the lines matched
    are exactly those that begin with optional white space, [MOUNT], white
    space, [FILESYSTEM(], optional white space, a single quote, the
    identifier in upper case, character for character with any character
    but a line feed in the place of a [.], a single quote, optional white
    space and [)]: so the two keywords are matched in upper case only, and
    among the lines of this form that hold the identifier in one letter
    case or another, the one that holds it in upper case is matched and no
    other.  When the identifier holds a [$], no line is matched. *)
Theorem directive_match_is_case_sensitive :
  forall (removing : string) (p : Regex.pattern),
    mount_pattern removing = Some p ->
    mount_pattern (Py.upper removing) = Some p
    /\ (has_char "$" removing = false ->
        (forall l : string,
           Regex.matches p l = true
           <-> directive_shape (Py.upper removing) l)
        /\ (forall ws1 ws2 ws3 t ws4 rest : string,
              all_spaces ws1 = true ->
              all_spaces ws2 = true -> ws2 <> EmptyString ->
              all_spaces ws3 = true -> all_spaces ws4 = true ->
              Py.upper t = Py.upper removing ->
              Regex.matches p
                (ws1 ++ "MOUNT" ++ ws2 ++ "FILESYSTEM(" ++ ws3 ++ "'"
                 ++ t ++ "'" ++ ws4 ++ ")" ++ rest)%string
              = String.eqb t (Py.upper removing)))
    /\ (has_char "$" removing = true ->
        forall l : string, Regex.matches p l = false).
Proof.
  intros removing p Hp. split; [|split].
  - unfold mount_pattern in *. now rewrite upper_idem.
  - intros Hd. apply mount_pattern_shape in Hp as (ident & Hid & ->).
    assert (Hd' : has_char "$" (Py.upper removing) = false)
      by now rewrite has_dollar_upper.
    split.
    + intros l. now apply directive_shape_matched.
    + intros ws1 ws2 ws3 t ws4 rest H1 H2 Hne H3 H4 Ht.
      destruct ws2 as [|x ws2]; [congruence|].
      cbn [all_spaces] in H2. apply andb_prop in H2 as [Hx H2].
      cbn [Regex.lits app String.append].
      rewrite matches_spaces_then_lit by (assumption || reflexivity).
      rewrite !matches_lit.
      change (Regex.matches (Regex.Space :: ?q) (String x ?y))
        with (Py.isspace x && Regex.matches q y).
      rewrite Hx. cbn [andb].
      rewrite matches_spaces_then_lit by (assumption || reflexivity).
      rewrite !matches_lit.
      rewrite matches_spaces_then_lit by (assumption || reflexivity).
      rewrite (matches_other_case removing ident _ t _ Hid Hd Ht).
      rewrite matches_lit.
      replace (Regex.matches [Regex.Spaces; Regex.Lit ")"]
                 (ws4 ++ String ")" rest)) with true.
      * apply andb_true_r.
      * symmetry. apply matches_leading_spaces; [exact H4|].
        now rewrite matches_lit.
  - intros Hd l. apply mount_pattern_shape in Hp as (ident & Hid & ->).
    rewrite <- has_dollar_upper in Hd.
    destruct (of_identifier_dollar _ _ Hid Hd) as (pre & post & ->).
    destruct (Regex.matches _ l) eqn:H; [|reflexivity]. exfalso.
    change (Regex.Spaces :: Regex.lits "MOUNT"
            ++ Regex.Space :: Regex.Spaces :: Regex.lits "FILESYSTEM("
            ++ Regex.Spaces :: Regex.Lit "'"
               :: (pre ++ Regex.EndAnchor :: post)
               ++ [Regex.Lit "'"; Regex.Spaces; Regex.Lit ")"])
      with ((Regex.Spaces :: Regex.lits "MOUNT"
             ++ Regex.Space :: Regex.Spaces :: Regex.lits "FILESYSTEM("
             ++ [Regex.Spaces; Regex.Lit "'"])
            ++ (pre ++ Regex.EndAnchor :: post)
            ++ [Regex.Lit "'"; Regex.Spaces; Regex.Lit ")"]) in H.
    apply matches_suffix in H as (s1 & H).
    rewrite <- app_assoc in H. apply matches_suffix in H as (s2 & H).
    replace ((Regex.EndAnchor :: post)
             ++ [Regex.Lit "'"; Regex.Spaces; Regex.Lit ")"])
      with (Regex.EndAnchor
            :: (post ++ [Regex.Lit "'"; Regex.Spaces]) ++ [Regex.Lit ")"])
      in H by (cbn [app]; now rewrite <- app_assoc).
    now rewrite end_anchor_then_lit in H.
Qed.

Lemma directive_match_is_case_sensitive_witness :
  matcher "someuser.vvv.zfs"
    "  MOUNT  FILESYSTEM( 'SOMEUSER.VVV.ZFS' ) MODE(RDWR)" = true
  /\ matcher "someuser.vvv.zfs"
       "  MOUNT  FILESYSTEM( 'Someuser.vvv.zfs' ) MODE(RDWR)" = false
  /\ matcher "omvs.$sys.zfs" "MOUNT FILESYSTEM('OMVS.$SYS.ZFS')" = false.
Proof.
  split; [|split].
  - exact (proj2 (proj1 (proj2 (directive_match_is_case_sensitive
                                  "someuser.vvv.zfs" _ eq_refl)) eq_refl)
             "  " "  " " " "SOMEUSER.VVV.ZFS" " " " MODE(RDWR)"
             eq_refl eq_refl ltac:(discriminate) eq_refl eq_refl eq_refl).
  - exact (proj2 (proj1 (proj2 (directive_match_is_case_sensitive
                                  "someuser.vvv.zfs" _ eq_refl)) eq_refl)
             "  " "  " " " "Someuser.vvv.zfs" " " " MODE(RDWR)"
             eq_refl eq_refl ltac:(discriminate) eq_refl eq_refl eq_refl).
  - exact (proj2 (proj2 (directive_match_is_case_sensitive
                           "omvs.$sys.zfs" _ eq_refl)) eq_refl
             "MOUNT FILESYSTEM('OMVS.$SYS.ZFS')").
Defined.

(** * The word wrap of the comment *)














